(** * AquaSentry: the tank-health and fallback-prediction engine

    A shallow embedding of the deterministic core of the AquaSentry backend
    (backend/utils/json_loader.py, backend/services/tank_service.py,
    analytics_service.py, ai_prediction_service.py, gis_service.py,
    map_service.py, ai_service.py, ai_copilot_service.py, auth_service.py,
    vision_ai_service.py and the endpoints of backend/main.py that serve
    them), the properties of it stated by the specification, and further
    properties of the code.

    Conventions of the embedding.
    - A Python [dict] read with [d.get(k, default)] or [d[k]] is a record
      whose fields are [option]s: [None] is "key absent"; [d[k]] on an
      absent key raises [KeyError].
    - Sensor readings and coordinates are binary64 floats, as the
      repository's own models declare them (models/tank.py: [ph: float],
      [lat: float], ...); they are the kernel's primitive floats, so every
      arithmetic step rounds as the interpreter does.  Capacities, level
      percentages, day counts and intervals are Python ints, that is [Z].
      An int default such as [readings.get('turbidity', 0)] is the float of
      the same value: comparison and arithmetic do not tell them apart.
    - Code that can raise returns a [result]; the exception is kept.
    - [date.today()] and [datetime.now()] are arguments.
    - Strings are sequences of ASCII characters. *)

From Stdlib Require Import ZArith Uint63 Floats String Ascii List Lia Bool DecimalString.
From stdpp Require Import base option list strings gmap.

#[local] Set Warnings "-inexact-float".
#[local] Open Scope Z_scope.

(** ** The interpreter: exceptions *)

Inductive exn : Type :=
| KeyError (key : string)
| ValueError
| OverflowError
| ZeroDivisionError.

Inductive result (A : Type) : Type :=
| Return (a : A)
| Raise (e : exn).

Arguments Return {A} a.
Arguments Raise {A} e.

#[global] Instance result_ret : MRet result := @Return.

#[global] Instance result_bind : MBind result :=
  fun A B (f : A -> result B) (m : result A) =>
    match m with
    | Return a => f a
    | Raise e => Raise e
    end.

#[global] Instance result_fmap : FMap result :=
  fun A B (f : A -> B) (m : result A) =>
    match m with
    | Return a => Return (f a)
    | Raise e => Raise e
    end.

(** [d[k]]: the value under a key, or [KeyError]. *)
Definition subscript {A : Type} (key : string) (field : option A) : result A :=
  match field with
  | Some a => Return a
  | None => Raise (KeyError key)
  end.

(** [d.get(k, dflt)]. *)
Definition get {A : Type} (field : option A) (dflt : A) : A :=
  match field with
  | Some a => a
  | None => dflt
  end.

(** A loop or comprehension over [l] whose body [f] may raise: the values
    in order, or the first exception. *)
Fixpoint each {A B : Type} (f : A -> result B) (l : list A) : result (list B) :=
  match l with
  | [] => Return []
  | a :: l' => b ← f a; bs ← each f l'; mret (b :: bs)
  end.

(** [len(l)] and [sum(l)] over ints. *)
Definition len {A : Type} (l : list A) : Z := Z.of_nat (length l).

Definition sum_ints (l : list Z) : Z := fold_left Z.add l 0.

(** A test on every int of [start, start + fuel). *)
Fixpoint all_from (P : Z -> bool) (start : Z) (fuel : nat) : bool :=
  match fuel with
  | O => true
  | S fuel' => P start && all_from P (start + 1) fuel'
  end.

(** ** The interpreter: numbers *)

(** [int(x)] on a float: truncation toward zero; [ValueError] on a NaN,
    [OverflowError] on an infinity. *)
Definition int_of_float (x : float) : result Z :=
  match Prim2SF x with
  | S754_zero _ => Return 0
  | S754_finite s m e => Return (cond_Zopp s (Z.shiftl (Z.pos m) e))
  | S754_infinity _ => Raise OverflowError
  | S754_nan => Raise ValueError
  end.

(** The conversion of an int operand in mixed arithmetic: the nearest
    float, ties to even; [OverflowError] beyond the largest float. *)
Definition float_of_int (z : Z) : result float :=
  match binary_normalize prec emax z 0 false with
  | S754_infinity _ => Raise OverflowError
  | r => Return (SF2Prim r)
  end.

(** [len(l)] as a float operand; a list is far shorter than 2^53. *)
Definition float_of_len {A : Type} (l : list A) : float :=
  SF2Prim (binary_normalize prec emax (len l) 0 false).

(** [a / b] on two ints: the correctly rounded quotient. *)
Definition int_true_div (a b : Z) : result float :=
  match a, b with
  | _, Z0 => Raise ZeroDivisionError
  | Z0, Zpos _ => Return 0%float
  | Z0, Zneg _ => Return (-0)%float
  | _, _ =>
      match SFdiv prec emax
              (S754_finite (a <? 0) (Z.to_pos (Z.abs a)) 0)
              (S754_finite (b <? 0) (Z.to_pos (Z.abs b)) 0) with
      | S754_infinity _ => Raise OverflowError
      | r => Return (SF2Prim r)
      end
  end.

(** [round(x, ndigits)] for [0 <= ndigits]: the exact value of [x] is
    rounded to [ndigits] decimals, ties to even, and the decimal obtained is
    converted back to the nearest float.  Infinities, NaN, zeros and
    integral floats round to themselves. *)
Definition round_half_even (num den : Z) : Z :=
  let q := num / den in
  let r := num mod den in
  match Z.compare (2 * r) den with
  | Lt => q
  | Gt => q + 1
  | Eq => if Z.even q then q else q + 1
  end.

Definition py_round (x : float) (ndigits : Z) : float :=
  match Prim2SF x with
  | S754_finite s m e =>
      if 0 <=? e then x
      else
        let p := 10 ^ ndigits in
        match round_half_even (Z.pos m * p) (2 ^ (- e)) with
        | Zpos q =>
            SF2Prim (SFdiv prec emax (S754_finite s q 0)
                       (S754_finite false (Z.to_pos p) 0))
        | _ => SF2Prim (S754_zero s)
        end
  | _ => x
  end.

(** A float, as the kernel specifies it, that is zero or finite and below
    [2^B] in absolute value. *)
Definition below (B : Z) (x : spec_float) : Prop :=
  match x with
  | S754_zero _ => True
  | S754_finite _ m e => Z.pos (digits2_pos m) + e <= B
  | _ => False
  end.

(** [max(0, x)] with the int [0] first: [x] when [x > 0], else the [0]. *)
Definition max0 (x : float) : float :=
  if PrimFloat.ltb 0 x then x else 0%float.

(** [sum(l)] over floats starts from the int [0] and adds from the left.
    Interpreters before 3.12 add plainly; later ones carry Neumaier's
    compensation term.  The services are defined over either. *)
Definition sum_plain (l : list float) : float :=
  fold_left PrimFloat.add l 0%float.

Definition neumaier_step (st : float * float) (x : float) : float * float :=
  let '(f, c) := st in
  let t := PrimFloat.add f x in
  if PrimFloat.leb (PrimFloat.abs x) (PrimFloat.abs f)
  then (t, PrimFloat.add c (PrimFloat.add (PrimFloat.sub f t) x))
  else (t, PrimFloat.add c (PrimFloat.add (PrimFloat.sub x t) f)).

Definition is_finite (x : float) : bool :=
  negb (PrimFloat.is_nan x) && negb (PrimFloat.is_infinity x).

Definition sum_compensated (l : list float) : float :=
  match l with
  | [] => 0%float
  | x :: rest =>
      let '(f, c) := fold_left neumaier_step rest (PrimFloat.add 0 x, 0%float) in
      if negb (PrimFloat.eqb c 0) && is_finite c then PrimFloat.add f c else f
  end.

(** A loop over [l] that updates a value [st] and whose body [f] may raise:
    the value after the last turn, or the first exception. *)
Fixpoint fold_each {A S : Type} (f : S -> A -> result S) (l : list A) (st : S)
  : result S :=
  match l with
  | [] => Return st
  | a :: l' => st' ← f st a; fold_each f l' st'
  end.

(** [max(l)] and [min(l)] over floats: the first item is kept until a later
    one compares greater (smaller); [ValueError] on an empty list. *)
Definition max_of (l : list float) : result float :=
  match l with
  | [] => Raise ValueError
  | first :: rest =>
      Return (fold_left (fun m x => if PrimFloat.ltb m x then x else m) rest first)
  end.

Definition min_of (l : list float) : result float :=
  match l with
  | [] => Raise ValueError
  | first :: rest =>
      Return (fold_left (fun m x => if PrimFloat.ltb x m then x else m) rest first)
  end.

(** ** The interpreter: [str] *)

Module Text.

(** [s.lower()] *)
Definition lower_char (c : ascii) : ascii :=
  let n := nat_of_ascii c in
  if (65 <=? n)%nat && (n <=? 90)%nat then ascii_of_nat (n + 32) else c.

Fixpoint lower (s : string) : string :=
  match s with
  | EmptyString => EmptyString
  | String c s' => String (lower_char c) (lower s')
  end.

(** [sub in s] *)
Fixpoint contains (sub s : string) : bool :=
  String.prefix sub s
  || match s with
     | EmptyString => false
     | String _ s' => contains sub s'
     end.

(** [s.replace(old, new)] for an [old] that is not empty: every occurrence
    from the left, none overlapping the one before it.  [skip] counts the
    characters of the occurrence being replaced that are still to pass. *)
Fixpoint replace_from (skip : nat) (old new s : string) : string :=
  match s with
  | EmptyString => EmptyString
  | String c s' =>
      match skip with
      | S skip' => replace_from skip' old new s'
      | O =>
          if String.prefix old s
          then (new ++ replace_from (String.length old - 1) old new s')%string
          else String c (replace_from 0 old new s')
      end
  end.

Definition replace (old new s : string) : string := replace_from 0 old new s.

(** [s.strip()]: the ASCII characters for which [isspace] holds are the
    codes 9 to 13 and 28 to 32. *)
Definition isspace (c : ascii) : bool :=
  let n := nat_of_ascii c in
  ((9 <=? n)%nat && (n <=? 13)%nat) || ((28 <=? n)%nat && (n <=? 32)%nat).

Fixpoint lstrip (s : string) : string :=
  match s with
  | EmptyString => EmptyString
  | String c s' => if isspace c then lstrip s' else s
  end.

Fixpoint rstrip (s : string) : string :=
  match s with
  | EmptyString => EmptyString
  | String c s' =>
      match rstrip s' with
      | EmptyString => if isspace c then EmptyString else String c EmptyString
      | kept => String c kept
      end
  end.

Definition strip (s : string) : string := rstrip (lstrip s).

(** [s.find(sub)] and [s.rfind(sub)]: the lowest and the highest index at
    which [sub] starts, or [-1]. *)
Fixpoint find (sub s : string) : Z :=
  if String.prefix sub s then 0
  else
    match s with
    | EmptyString => -1
    | String _ s' => let i := find sub s' in if i =? -1 then -1 else i + 1
    end.

Fixpoint rfind (sub s : string) : Z :=
  match s with
  | EmptyString => if String.prefix sub s then 0 else -1
  | String _ s' =>
      let i := rfind sub s' in
      if i =? -1 then (if String.prefix sub s then 0 else -1) else i + 1
  end.

(** [s[start:stop]] for indices that are not negative. *)
Definition slice (start stop : Z) (s : string) : string :=
  String.substring (Z.to_nat start) (Z.to_nat (stop - start)) s.

End Text.

(** ** The interpreter: [datetime]

    Dates are those of the proleptic Gregorian calendar between 0001-01-01
    (ordinal 1) and 9999-12-31 (ordinal 3652059), with the library's own
    day-count arithmetic. *)

Module Calendar.

Record date : Type := Date { year : Z; month : Z; day : Z }.

Definition MINYEAR : Z := 1.
Definition MAXYEAR : Z := 9999.
Definition MAXORDINAL : Z := 3652059.

Definition is_leap (y : Z) : bool :=
  (y mod 4 =? 0) && (negb (y mod 100 =? 0) || (y mod 400 =? 0)).

Definition DAYS_IN_MONTH (m : Z) : Z :=
  match m with
  | 1 => 31 | 2 => 28 | 3 => 31 | 4 => 30 | 5 => 31 | 6 => 30
  | 7 => 31 | 8 => 31 | 9 => 30 | 10 => 31 | 11 => 30 | 12 => 31
  | _ => 0
  end.

Definition DAYS_BEFORE_MONTH (m : Z) : Z :=
  match m with
  | 1 => 0 | 2 => 31 | 3 => 59 | 4 => 90 | 5 => 120 | 6 => 151
  | 7 => 181 | 8 => 212 | 9 => 243 | 10 => 273 | 11 => 304 | 12 => 334
  | _ => 0
  end.

Definition days_in_month (y m : Z) : Z :=
  if (m =? 2) && is_leap y then 29 else DAYS_IN_MONTH m.

Definition days_before_year (y : Z) : Z :=
  let y' := y - 1 in
  y' * 365 + y' / 4 - y' / 100 + y' / 400.

Definition days_before_month (y m : Z) : Z :=
  DAYS_BEFORE_MONTH m + (if (2 <? m) && is_leap y then 1 else 0).

Definition ymd2ord (y m d : Z) : Z :=
  days_before_year y + days_before_month y m + d.

Definition DI400Y : Z := 146097.
Definition DI100Y : Z := 36524.
Definition DI4Y : Z := 1461.

Definition ord2ymd (ordinal : Z) : date :=
  let n := ordinal - 1 in
  let n400 := n / DI400Y in
  let n := n mod DI400Y in
  let y := n400 * 400 + 1 in
  let n100 := n / DI100Y in
  let n := n mod DI100Y in
  let n4 := n / DI4Y in
  let n := n mod DI4Y in
  let n1 := n / 365 in
  let n := n mod 365 in
  let y := y + n100 * 100 + n4 * 4 + n1 in
  if (n1 =? 4) || (n100 =? 4) then Date (y - 1) 12 31
  else
    let leapyear := (n1 =? 3) && (negb (n4 =? 24) || (n100 =? 3)) in
    let m := Z.shiftr (n + 50) 5 in
    let preceding :=
      DAYS_BEFORE_MONTH m + (if (2 <? m) && leapyear then 1 else 0) in
    if n <? preceding then
      let m' := m - 1 in
      let preceding' :=
        preceding
        - (DAYS_IN_MONTH m' + (if (m' =? 2) && leapyear then 1 else 0)) in
      Date y m' (n - preceding' + 1)
    else Date y m (n - preceding + 1).

(** [date(y, m, d)]: the constructor checks its fields. *)
Definition make_date (y m d : Z) : result date :=
  if (MINYEAR <=? y) && (y <=? MAXYEAR) && (1 <=? m) && (m <=? 12)
     && (1 <=? d) && (d <=? days_in_month y m)
  then Return (Date y m d)
  else Raise ValueError.

Definition toordinal (d : date) : Z := ymd2ord (year d) (month d) (day d).

(** [(a - b).days] *)
Definition days_between (a b : date) : Z := toordinal a - toordinal b.

(** [d + timedelta(days=n)]: [OverflowError] when the day count or the
    resulting date is out of range. *)
Definition add_days (d : date) (n : Z) : result date :=
  let o := toordinal d + n in
  if (0 <? o) && (o <=? MAXORDINAL) then Return (ord2ymd o)
  else Raise OverflowError.

(** *** [strptime(s, "%Y-%m-%d")]

    The library matches the text against
    [(\d\d\d\d)-(1[0-2]|0[1-9]|[1-9])-(3[01]|[12]\d|0[1-9]|[1-9]| [1-9])],
    alternatives in this order, rejects text left over after the match, and
    then builds the date, which checks the day against the month. *)

Definition digit_of (c : ascii) : option Z :=
  let n := Z.of_nat (nat_of_ascii c) in
  if (48 <=? n) && (n <=? 57) then Some (n - 48) else None.

Definition in_range (lo hi : Z) (c : ascii) : option Z :=
  match digit_of c with
  | Some v => if (lo <=? v) && (v <=? hi) then Some v else None
  | None => None
  end.

Definition match_year (s : string) : option (Z * string) :=
  match s with
  | String a (String b (String c (String d rest))) =>
      match digit_of a, digit_of b, digit_of c, digit_of d with
      | Some va, Some vb, Some vc, Some vd =>
          Some (va * 1000 + vb * 100 + vc * 10 + vd, rest)
      | _, _, _, _ => None
      end
  | _ => None
  end.

Definition match_hyphen (s : string) : option string :=
  match s with
  | String c rest => if Ascii.eqb c "-" then Some rest else None
  | EmptyString => None
  end.

(** One alternative made of two characters, or of one. *)
Definition two_chars (first second : ascii -> option Z) (s : string)
  : option (Z * string) :=
  match s with
  | String a (String b rest) =>
      match first a, second b with
      | Some va, Some vb => Some (va * 10 + vb, rest)
      | _, _ => None
      end
  | _ => None
  end.

Definition one_char (only : ascii -> option Z) (s : string)
  : option (Z * string) :=
  match s with
  | String a rest =>
      match only a with
      | Some va => Some (va, rest)
      | None => None
      end
  | EmptyString => None
  end.

Definition is_space (c : ascii) : option Z :=
  if Ascii.eqb c " " then Some 0 else None.

Definition month_alternatives : list (string -> option (Z * string)) :=
  [ two_chars (in_range 1 1) (in_range 0 2);
    two_chars (in_range 0 0) (in_range 1 9);
    one_char (in_range 1 9) ].

Definition day_alternatives : list (string -> option (Z * string)) :=
  [ two_chars (in_range 3 3) (in_range 0 1);
    two_chars (in_range 1 2) (in_range 0 9);
    two_chars (in_range 0 0) (in_range 1 9);
    one_char (in_range 1 9);
    two_chars is_space (in_range 1 9) ].

(** The first alternative after which the rest of the pattern matches. *)
Fixpoint first_match {A B : Type} (alts : list (string -> option (A * string)))
  (rest_of_pattern : A -> string -> option B) (s : string) : option B :=
  match alts with
  | [] => None
  | alt :: alts' =>
      match alt s with
      | Some (v, s') =>
          match rest_of_pattern v s' with
          | Some r => Some r
          | None => first_match alts' rest_of_pattern s
          end
      | None => first_match alts' rest_of_pattern s
      end
  end.

(** The regular expression: the fields and the text left after the match. *)
Definition match_ymd (s : string) : option (Z * Z * Z * string) :=
  match match_year s with
  | Some (y, s1) =>
      match match_hyphen s1 with
      | Some s2 =>
          first_match month_alternatives
            (fun m s3 =>
               match match_hyphen s3 with
               | Some s4 =>
                   first_match day_alternatives
                     (fun d s5 => Some (y, m, d, s5)) s4
               | None => None
               end) s2
      | None => None
      end
  | None => None
  end.

Definition strptime (s : string) : result date :=
  match match_ymd s with
  | Some (y, m, d, EmptyString) => make_date y m d
  | Some (_, _, _, String _ _) => Raise ValueError
  | None => Raise ValueError
  end.

(** *** [strftime("%Y-%m-%d")]

    The text is written by the C library.  A month and a day have two
    digits.  The year is written in decimal without padding (glibc): a year
    below 1000 has fewer than four digits, 999 is written [999].  The year
    of a date is between 1 and 9999. *)

Definition digit_char (v : Z) : ascii :=
  ascii_of_nat (Z.to_nat (48 + v mod 10)).

(** The digits of a year, before the rest of the text. *)
Definition write_year (y : Z) (rest : string) : string :=
  if y <? 10 then String (digit_char y) rest
  else if y <? 100 then String (digit_char (y / 10)) (String (digit_char y) rest)
  else if y <? 1000 then
    String (digit_char (y / 100)) (String (digit_char (y / 10))
    (String (digit_char y) rest))
  else
    String (digit_char (y / 1000)) (String (digit_char (y / 100))
    (String (digit_char (y / 10)) (String (digit_char y) rest))).

Definition strftime (d : date) : string :=
  let m := month d in
  let dd := day d in
  write_year (year d)
    (String "-" (String (digit_char (m / 10)) (String (digit_char m)
    (String "-" (String (digit_char (dd / 10)) (String (digit_char dd)
    EmptyString)))))).

End Calendar.

(** ** The data model: the documents of data.json

    Each record is a JSON object; a field of type [option] may be absent.
    [id] and [name] are subscripted everywhere and taken as present.  The
    three derived fields at the end of [tank] are those that
    [get_single_tank] and [get_all_tanks_with_status] add before a tank is
    handed to the predictors and to the ward aggregator. *)

Inductive status : Type := normal | warning | critical.

Record readings : Type := Readings {
  ph : option float;
  turbidity : option float;
  temperature : option float
}.

Record history_entry : Type := HistoryEntry {
  h_date : option string;
  h_ph : option float;
  h_turbidity : option float;
  h_temperature : option float
}.

Record location : Type := Location {
  lat : option float;
  lng : option float;
  address : option string
}.

Record maintenance_info : Type := MaintenanceInfo {
  m_last_cleaned : option string;
  m_notes : option string
}.

Record tank : Type := Tank {
  id : string;
  name : string;
  tank_location : option location;
  capacity_liters : option Z;
  current_level_percent : option Z;
  last_cleaned : option string;
  next_maintenance : option string;
  current_readings : option readings;
  history : option (list history_entry);
  maintenance : option maintenance_info;
  tank_status : option status;
  days_since_cleaned : option Z;
  days_until_maintenance : option Z
}.

Record schedule_entry : Type := ScheduleEntry {
  s_tank_id : option string;
  cleaning_interval_days : option Z;
  s_last_cleaned : option string;
  next_scheduled : option string
}.

Record alert : Type := Alert {
  alert_id : string;
  alert_tank_id : option string;
  alert_type : option string;
  message : option string;
  acknowledged : option bool
}.

Record document : Type := Document {
  tanks : option (list tank);
  maintenance_schedule : option (list schedule_entry);
  alerts : option (list alert)
}.

(** ** backend/utils/json_loader.py

    The module owns two pieces of state: the file data.json and the
    module-level [_cached_data], which starts as the empty dict.  A loaded
    document is shared: what [load_data] returns is the cached object, so
    writing into it is writing into the cache. *)

Module JsonLoader.

Record store : Type := Store {
  data_file : document;
  _cached_data : document
}.

Definition empty_dict : document := Document None None None.

(** [not d]: a dict is false when it has no key. *)
Definition is_empty_dict (d : document) : bool :=
  match tanks d, maintenance_schedule d, alerts d with
  | None, None, None => true
  | _, _, _ => false
  end.

Definition load_data (s : store) : store * document :=
  if is_empty_dict (_cached_data s)
  then (Store (data_file s) (data_file s), data_file s)
  else (s, _cached_data s).

Definition get_tanks (s : store) : store * list tank :=
  let '(s', data) := load_data s in (s', get (tanks data) []).

(** The loop [for tank in tanks: if tank['id'] == tank_id: ...] stops at the
    first tank with the id; [list_find] gives it with its position. *)
Definition find_tank (tank_id : string) (l : list tank) : option (nat * tank) :=
  list_find (fun t => id t = tank_id) l.

Definition find_entry (tank_id : string) (l : list schedule_entry)
  : option (nat * schedule_entry) :=
  list_find (fun e => s_tank_id e = Some tank_id) l.

Definition get_tank_by_id (s : store) (tank_id : string) : store * option tank :=
  let '(s', l) := get_tanks s in (s', snd <$> find_tank tank_id l).

Definition get_alerts (s : store) : store * list alert :=
  let '(s', data) := load_data s in (s', get (alerts data) []).

Definition get_maintenance_schedule (s : store) : store * list schedule_entry :=
  let '(s', data) := load_data s in (s', get (maintenance_schedule data) []).

Definition reload_data (s : store) : store * document :=
  load_data (Store (data_file s) empty_dict).

(** The document that a call works on: the cache, or the file when the
    cache is still empty. *)
Definition loaded (s : store) : document := snd (load_data s).

(** What [update_maintenance] returns: the dict with ["success": False] and
    an ["error"] text, or the one with ["success": True], a ["message"] and
    the updated ["tank"]. *)
Inductive update_result : Type :=
| Failure (error : string)
| Success (msg : string) (updated : tank).

Definition tank_not_found (tank_id : string) : string :=
  "Tank '" ++ tank_id ++ "' not found".

Definition schedule_not_found (tank_id : string) : string :=
  "Maintenance schedule for '" ++ tank_id ++ "' not found".

Definition invalid_date (cleaned_date : string) : string :=
  "Invalid date format for cleaned_date: '" ++ cleaned_date
  ++ "'. Expected 'YYYY-MM-DD'.".

(** [if notes:] holds for a non-empty text. *)
Definition truthy (notes : option string) : bool :=
  match notes with
  | Some (String _ _) => true
  | _ => false
  end.

Definition set_entry (e : schedule_entry) (cleaned_date next_scheduled_str : string)
  : schedule_entry :=
  {| s_tank_id := s_tank_id e;
     cleaning_interval_days := cleaning_interval_days e;
     s_last_cleaned := Some cleaned_date;
     next_scheduled := Some next_scheduled_str |}.

Definition set_maintenance (t : tank) (cleaned_date : string) (notes : option string)
  : maintenance_info :=
  let maintenance_info := get (maintenance t) (MaintenanceInfo None None) in
  {| m_last_cleaned := Some cleaned_date;
     m_notes := if truthy notes then notes else m_notes maintenance_info |}.

Definition set_tank (t : tank) (cleaned_date next_scheduled_str : string)
  (notes : option string) : tank :=
  {| id := id t;
     name := name t;
     tank_location := tank_location t;
     capacity_liters := capacity_liters t;
     current_level_percent := current_level_percent t;
     last_cleaned := Some cleaned_date;
     next_maintenance := Some next_scheduled_str;
     current_readings := current_readings t;
     history := history t;
     maintenance := Some (set_maintenance t cleaned_date notes);
     tank_status := tank_status t;
     days_since_cleaned := days_since_cleaned t;
     days_until_maintenance := days_until_maintenance t |}.

(** The tank and the schedule entry are objects inside the loaded document:
    assigning to their keys updates the lists in place, at the positions
    where the two loops stopped.  Only [ValueError] from [strptime] is
    caught; the date addition is outside the [try]. *)
Definition update_maintenance (s : store) (tank_id cleaned_date : string)
  (notes : option string) : store * result update_result :=
  let '(s1, data) := load_data s in
  let tanks := get (tanks data) [] in
  let schedule_list := get (maintenance_schedule data) [] in
  match find_tank tank_id tanks with
  | None => (s1, Return (Failure (tank_not_found tank_id)))
  | Some (i, tank_obj) =>
      match find_entry tank_id schedule_list with
      | None => (s1, Return (Failure (schedule_not_found tank_id)))
      | Some (j, sched_obj) =>
          match Calendar.strptime cleaned_date with
          | Raise ValueError => (s1, Return (Failure (invalid_date cleaned_date)))
          | Raise e => (s1, Raise e)
          | Return cleaned_dt =>
              let interval_days := get (cleaning_interval_days sched_obj) 30 in
              match Calendar.add_days cleaned_dt interval_days with
              | Raise e => (s1, Raise e)
              | Return next_scheduled_dt =>
                  let next_scheduled_str := Calendar.strftime next_scheduled_dt in
                  let sched_obj' := set_entry sched_obj cleaned_date next_scheduled_str in
                  let tank_obj' := set_tank tank_obj cleaned_date next_scheduled_str notes in
                  let data' :=
                    {| tanks := Some (<[i := tank_obj']> tanks);
                       maintenance_schedule := Some (<[j := sched_obj']> schedule_list);
                       alerts := alerts data |} in
                  (Store data' data',
                   Return (Success ("Maintenance updated for " ++ tank_id) tank_obj'))
              end
          end
      end
  end.

End JsonLoader.

(** ** backend/services/tank_service.py *)

Module TankService.

Import Calendar.

Definition calculate_days_since_cleaned (last_cleaned : string) (today : date)
  : result Z :=
  cleaned_date ← strptime last_cleaned;
  mret (days_between today cleaned_date).

Definition calculate_days_until_maintenance (next_maintenance : string) (today : date)
  : result Z :=
  maintenance_date ← strptime next_maintenance;
  mret (days_between maintenance_date today).

Definition no_readings : readings := Readings None None None.

(** The two nested tests of [get_tank_status], on the values read. *)
Definition classify (ph turbidity : float) (days_since_cleaned : Z) : status :=
  if PrimFloat.ltb 5 turbidity || PrimFloat.ltb ph 6.5 || PrimFloat.ltb 8.5 ph
     || (30 <? days_since_cleaned)
  then
    if PrimFloat.ltb 7 turbidity || PrimFloat.ltb ph 6.0 || PrimFloat.ltb 9.0 ph
       || (60 <? days_since_cleaned)
    then critical
    else warning
  else normal.

Definition get_tank_status (t : tank) (today : date) : result status :=
  let readings := get (current_readings t) no_readings in
  let ph := get (ph readings) 7.0%float in
  let turbidity := get (turbidity readings) 0%float in
  days_since_cleaned ←
    calculate_days_since_cleaned (get (last_cleaned t) "2024-01-01") today;
  mret (classify ph turbidity days_since_cleaned).

(** [{**tank, 'status': ..., 'days_since_cleaned': ..., ...}] *)
Definition with_derived (t : tank) (st : status) (since until : Z) : tank :=
  {| id := id t;
     name := name t;
     tank_location := tank_location t;
     capacity_liters := capacity_liters t;
     current_level_percent := current_level_percent t;
     last_cleaned := last_cleaned t;
     next_maintenance := next_maintenance t;
     current_readings := current_readings t;
     history := history t;
     maintenance := maintenance t;
     tank_status := Some st;
     days_since_cleaned := Some since;
     days_until_maintenance := Some until |}.

Definition get_single_tank (s : JsonLoader.store) (tank_id : string) (today : date)
  : JsonLoader.store * result (option tank) :=
  let '(s', found) := JsonLoader.get_tank_by_id s tank_id in
  match found with
  | None => (s', Return None)
  | Some t =>
      (s',
       last ← subscript "last_cleaned" (last_cleaned t);
       since ← calculate_days_since_cleaned last today;
       next ← subscript "next_maintenance" (next_maintenance t);
       until ← calculate_days_until_maintenance next today;
       st ← get_tank_status t today;
       mret (Some (with_derived t st since until)))
  end.

(** One turn of the loop of [get_all_tanks_with_status]: a new dict with
    the listed keys only, each of them subscripted. *)
Definition tank_with_status (t : tank) (today : date) : result tank :=
  last ← subscript "last_cleaned" (last_cleaned t);
  since ← calculate_days_since_cleaned last today;
  next ← subscript "next_maintenance" (next_maintenance t);
  until ← calculate_days_until_maintenance next today;
  st ← get_tank_status t today;
  loc ← subscript "location" (tank_location t);
  capacity ← subscript "capacity_liters" (capacity_liters t);
  level ← subscript "current_level_percent" (current_level_percent t);
  current ← subscript "current_readings" (current_readings t);
  mret {| id := id t;
          name := name t;
          tank_location := Some loc;
          capacity_liters := Some capacity;
          current_level_percent := Some level;
          last_cleaned := Some last;
          next_maintenance := Some next;
          current_readings := Some current;
          history := None;
          maintenance := None;
          tank_status := Some st;
          days_since_cleaned := Some since;
          days_until_maintenance := Some until |}.

Definition get_all_tanks_with_status (s : JsonLoader.store) (today : date)
  : JsonLoader.store * result (list tank) :=
  let '(s', l) := JsonLoader.get_tanks s in
  (s', each (fun t => tank_with_status t today) l).

Definition get_tank_history (s : JsonLoader.store) (tank_id : string)
  : JsonLoader.store * option (list history_entry) :=
  let '(s', found) := JsonLoader.get_tank_by_id s tank_id in
  (s', (fun t => get (history t) []) <$> found).

(** [t['status'] == 'normal'], on the three texts that [get_tank_status]
    returns. *)
Definition status_eqb (a b : status) : bool :=
  match a, b with
  | normal, normal | warning, warning | critical, critical => true
  | _, _ => false
  end.

(** [sum(1 for t in tanks if t['status'] == st)] *)
Definition count_status (st : status) (tanks : list tank) : result Z :=
  ones ← each
    (fun t =>
       found ← subscript "status" (tank_status t);
       mret (if status_eqb found st then [1] else []))
    tanks;
  mret (sum_ints (concat ones)).

Record tanks_summary : Type := TanksSummary {
  sum_total : Z;
  sum_normal : Z;
  sum_warning : Z;
  sum_critical : Z;
  avg_level : float
}.

Definition get_tanks_summary (s : JsonLoader.store) (today : date)
  : JsonLoader.store * result tanks_summary :=
  let '(s', listed) := get_all_tanks_with_status s today in
  (s',
   tanks ← listed;
   let total := len tanks in
   n ← count_status normal tanks;
   w ← count_status warning tanks;
   c ← count_status critical tanks;
   avg ←
     (if 0 <? total then
        levels ← each
          (fun t => subscript "current_level_percent" (current_level_percent t)) tanks;
        int_true_div (sum_ints levels) total
      else Return 0%float);
   mret {| sum_total := total;
           sum_normal := n;
           sum_warning := w;
           sum_critical := c;
           avg_level := avg |}).

End TankService.

(** ** backend/services/analytics_service.py *)

Module AnalyticsService.

(** An issue stands for the text appended to [issues]; it keeps the value
    that the text quotes. *)
Inductive issue : Type :=
| PhTooLow (ph : float)
| PhTooHigh (ph : float)
| HighTurbidity (turbidity : float)
| ElevatedTurbidity (turbidity : float)
| TemperatureElevated (temperature : float).

Record quality_analysis : Type := QualityAnalysis {
  qa_tank_id : string;
  qa_tank_name : string;
  issues : list issue;
  recommendations : list string;
  risk_level : status
}.

Definition analyze_water_quality (t : tank) : quality_analysis :=
  let readings := get (current_readings t) TankService.no_readings in
  let ph := get (ph readings) 7.0%float in
  let turbidity := get (turbidity readings) 0%float in
  let temperature := get (temperature readings) 20%float in
  let '(issues, recommendations) := ([], []) in
  let '(issues, recommendations) :=
    if PrimFloat.ltb ph 6.5 then
      (issues ++ [PhTooLow ph],
       recommendations ++ ["Add pH increaser (sodium carbonate)"%string])
    else if PrimFloat.ltb 8.5 ph then
      (issues ++ [PhTooHigh ph],
       recommendations ++ ["Add pH decreaser (sodium bisulfate)"%string])
    else (issues, recommendations) in
  let '(issues, recommendations) :=
    if PrimFloat.ltb 5 turbidity then
      (issues ++ [HighTurbidity turbidity],
       recommendations ++ ["Schedule immediate tank cleaning"%string;
                           "Check filtration system"%string])
    else if PrimFloat.ltb 3 turbidity then
      (issues ++ [ElevatedTurbidity turbidity],
       recommendations ++ ["Monitor turbidity levels closely"%string])
    else (issues, recommendations) in
  let '(issues, recommendations) :=
    if PrimFloat.ltb 25 temperature then
      (issues ++ [TemperatureElevated temperature],
       recommendations ++ ["Check cooling systems"%string])
    else (issues, recommendations) in
  {| qa_tank_id := id t;
     qa_tank_name := name t;
     issues := issues;
     recommendations := recommendations;
     risk_level :=
       if (2 <=? length issues)%nat then critical
       else if (length issues =? 1)%nat then warning
       else normal |}.

Record system_analytics : Type := SystemAnalytics {
  total_tanks : Z;
  total_capacity_liters : Z;
  average_level_percent : float;
  average_ph : float;
  average_turbidity : float;
  average_temperature : float;
  critical_count : Z;
  warning_count : Z;
  normal_count : Z;
  active_alerts : Z;
  critical_tanks : list (string * string);
  warning_tanks : list (string * string)
}.

Definition is_risk (level : status) (t : tank) : bool :=
  match risk_level (analyze_water_quality t), level with
  | critical, critical => true
  | warning, warning => true
  | normal, normal => true
  | _, _ => false
  end.

Inductive trend : Type := stable | increasing | decreasing.

Inductive trend_analysis : Type :=
| TrendError (error : string)
| InsufficientData
| Trends (tank_id : string) (ph_trend turbidity_trend temperature_trend : trend)
    (data_points : Z).

(** [x = 'stable'; if recent - older > threshold: x = 'increasing'
     elif older - recent > threshold: x = 'decreasing'] *)
Definition trend_of (recent older threshold : float) : trend :=
  if PrimFloat.ltb threshold (PrimFloat.sub recent older) then increasing
  else if PrimFloat.ltb threshold (PrimFloat.sub older recent) then decreasing
  else stable.

Definition no_entry : history_entry := HistoryEntry None None None None.

Definition get_trend_analysis (s : JsonLoader.store) (tank_id : string)
  : JsonLoader.store * result trend_analysis :=
  let '(s', found) := JsonLoader.get_tank_by_id s tank_id in
  match found with
  | None => (s', Return (TrendError "Tank not found"))
  | Some t =>
      let history := get (history t) [] in
      if (length history <? 2)%nat then (s', Return InsufficientData)
      else
        let recent := List.last history no_entry in
        let older := List.hd no_entry history in
        (s',
         recent_ph ← subscript "ph" (h_ph recent);
         older_ph ← subscript "ph" (h_ph older);
         let ph_trend := trend_of recent_ph older_ph 0.3 in
         recent_turbidity ← subscript "turbidity" (h_turbidity recent);
         older_turbidity ← subscript "turbidity" (h_turbidity older);
         let turbidity_trend := trend_of recent_turbidity older_turbidity 1 in
         recent_temperature ← subscript "temperature" (h_temperature recent);
         older_temperature ← subscript "temperature" (h_temperature older);
         let temp_trend := trend_of recent_temperature older_temperature 1 in
         mret (Trends tank_id ph_trend turbidity_trend temp_trend (len history)))
  end.

Section Rollup.

(** The interpreter's [sum] over floats. *)
Variable float_sum : list float -> float.

(** [round(sum(values) / len(values), ndigits) if values else 0] *)
Definition rounded_mean (values : list float) (ndigits : Z) : float :=
  match values with
  | [] => 0%float
  | _ => py_round (PrimFloat.div (float_sum values) (float_of_len values)) ndigits
  end.

Definition reading_of (key : string) (field : readings -> option float) (t : tank)
  : result float :=
  current ← subscript "current_readings" (current_readings t);
  subscript key (field current).

Definition get_system_analytics (s : JsonLoader.store)
  : JsonLoader.store * result system_analytics :=
  let '(s1, tanks) := JsonLoader.get_tanks s in
  let '(s2, alerts) := JsonLoader.get_alerts s1 in
  (s2,
   capacities ← each (fun t => subscript "capacity_liters" (capacity_liters t)) tanks;
   let total_capacity := sum_ints capacities in
   avg_level ←
     match tanks with
     | [] => Return 0%float
     | _ =>
         levels ← each
           (fun t => subscript "current_level_percent" (current_level_percent t)) tanks;
         int_true_div (sum_ints levels) (len tanks)
     end;
   ph_values ← each (reading_of "ph" ph) tanks;
   turbidity_values ← each (reading_of "turbidity" turbidity) tanks;
   temp_values ← each (reading_of "temperature" temperature) tanks;
   let critical_tanks := List.filter (is_risk critical) tanks in
   let warning_tanks := List.filter (is_risk warning) tanks in
   let unacknowledged_alerts :=
     List.filter (fun a => negb (get (acknowledged a) false)) alerts in
   mret {| total_tanks := len tanks;
           total_capacity_liters := total_capacity;
           average_level_percent := py_round avg_level 1;
           average_ph := rounded_mean ph_values 2;
           average_turbidity := rounded_mean turbidity_values 2;
           average_temperature := rounded_mean temp_values 1;
           critical_count := len critical_tanks;
           warning_count := len warning_tanks;
           normal_count := len tanks - len critical_tanks - len warning_tanks;
           active_alerts := len unacknowledged_alerts;
           critical_tanks := List.map (fun t => (id t, name t)) critical_tanks;
           warning_tanks := List.map (fun t => (id t, name t)) warning_tanks |}).

End Rollup.

End AnalyticsService.

(** ** backend/services/ai_prediction_service.py: the rule-based fallbacks *)

Module AiPredictionService.

Import Calendar.
Import AnalyticsService (trend, stable, increasing, decreasing, no_entry).

(** [{"success": True, <key>: body, "fallback": True}] *)
Record tagged (A : Type) : Type := Tagged {
  success : bool;
  body : A;
  fallback : bool
}.

Arguments Tagged {A} success body fallback.
Arguments success {A} t.
Arguments body {A} t.
Arguments fallback {A} t.

Inductive risk : Type := low | medium | high.

(** *** Water-quality prediction *)

Record horizon : Type := Horizon {
  p_ph : float;
  p_turbidity : float;
  p_temperature : float;
  p_confidence : float
}.

Record prediction : Type := Prediction {
  next_24h : horizon;
  next_48h : horizon;
  ph_trend : trend;
  turbidity_trend : trend;
  temperature_trend : trend;
  risk_level : risk;
  risk_factors : list string;
  recommended_actions : list string;
  government_impact : string
}.

(** ["stable" if abs(rate) < band else ("increasing" if rate > 0 else "decreasing")] *)
Definition trend_label (rate band : float) : trend :=
  if PrimFloat.ltb (PrimFloat.abs rate) band then stable
  else if PrimFloat.ltb 0 rate then increasing
  else decreasing.

(** [(history[-1].get(key, dflt) - history[0].get(key, dflt)) / len(history)]
    when there are two samples or more, [0.0] otherwise. *)
Definition rate (field : history_entry -> option float) (dflt : float)
  (history : list history_entry) : float :=
  if (2 <=? length history)%nat then
    PrimFloat.div
      (PrimFloat.sub (get (field (List.last history no_entry)) dflt)
                     (get (field (List.hd no_entry history)) dflt))
      (float_of_len history)
  else 0%float.

Definition generate_fallback_prediction (tank_data : tank) (history : list history_entry)
  : tagged prediction :=
  let readings := get (current_readings tank_data) TankService.no_readings in
  let ph := get (ph readings) 7.0%float in
  let turbidity := get (turbidity readings) 1.0%float in
  let temp := get (temperature readings) 20.0%float in
  let ph_trend := rate h_ph ph history in
  let turb_trend := rate h_turbidity turbidity history in
  let temp_trend := rate h_temperature temp history in
  let exceeded :=
    PrimFloat.ltb 5 turbidity || PrimFloat.ltb ph 6.5 || PrimFloat.ltb 8.5 ph in
  Tagged true
    {| next_24h :=
         {| p_ph := py_round (ph + ph_trend) 2;
            p_turbidity := py_round (max0 (turbidity + turb_trend)) 2;
            p_temperature := py_round (temp + temp_trend) 1;
            p_confidence := 0.7 |};
       next_48h :=
         {| p_ph := py_round (ph + ph_trend * 2) 2;
            p_turbidity := py_round (max0 (turbidity + turb_trend * 2)) 2;
            p_temperature := py_round (temp + temp_trend * 2) 1;
            p_confidence := 0.5 |};
       ph_trend := trend_label ph_trend 0.1;
       turbidity_trend := trend_label turb_trend 0.2;
       temperature_trend := trend_label temp_trend 0.3;
       risk_level := if exceeded then high else low;
       risk_factors :=
         if exceeded then ["Current readings exceed safe thresholds"%string] else [];
       recommended_actions := [];
       government_impact := "Fallback prediction - AI unavailable" |}
    true.

(** *** Leakage and overflow detection *)

Inductive anomaly : Type := no_anomaly | leakage | overflow | unusual_consumption.

Inductive severity_level : Type := no_severity | medium_severity.

Record leakage_analysis : Type := LeakageAnalysis {
  anomaly_detected : bool;
  anomaly_type : anomaly;
  severity : severity_level;
  confidence : float;
  estimated_loss_liters_per_day : option float;
  overflow_risk_percent : Z;
  pattern_description : string;
  leakage_actions : list string;
  government_alert_required : bool;
  impact_assessment : string
}.

(** [for i in range(1, len(history)): change = history[i].get("turbidity", 0)
     - history[i - 1].get("turbidity", 0)], when there are two samples or
    more. *)
Definition level_changes (history : list history_entry) : list float :=
  if (2 <=? length history)%nat then
    List.map
      (fun i =>
         PrimFloat.sub (get (h_turbidity (nth i history no_entry)) 0%float)
                       (get (h_turbidity (nth (i - 1) history no_entry)) 0%float))
      (seq 1 (length history - 1))
  else [].

Section Sums.

(** The interpreter's [sum] over floats. *)
Variable float_sum : list float -> float.

Definition avg_change (history : list history_entry) : float :=
  match level_changes history with
  | [] => 0%float
  | changes => PrimFloat.div (float_sum changes) (float_of_len changes)
  end.

Definition detect_leakage_fallback (tank_data : tank) (history : list history_entry)
  : tagged leakage_analysis :=
  let current_level := get (current_level_percent tank_data) 50 in
  let avg_change := avg_change history in
  let anomaly_detected :=
    (current_level <? 30) || (95 <? current_level)
    || PrimFloat.ltb 1 (PrimFloat.abs avg_change) in
  Tagged true
    {| anomaly_detected := anomaly_detected;
       anomaly_type :=
         if negb anomaly_detected then no_anomaly
         else if 95 <? current_level then overflow
         else if current_level <? 30 then leakage
         else unusual_consumption;
       severity := if negb anomaly_detected then no_severity else medium_severity;
       confidence := 0.6;
       estimated_loss_liters_per_day := None;
       overflow_risk_percent :=
         if 85 <? current_level then Z.max 0 ((current_level - 85) * 5) else 0;
       pattern_description := "Rule-based analysis - AI unavailable";
       leakage_actions := [];
       government_alert_required := anomaly_detected && (current_level <? 20);
       impact_assessment := "Fallback analysis" |}
    true.

(** *** Rainwater harvesting *)

Record recommended_tank : Type := RecommendedTank {
  r_name : string;
  overflow_capacity_liters : Z;
  harvesting_score : Z
}.

Record harvesting : Type := Harvesting {
  total_overflow_capacity_liters : Z;
  recommended_tanks : list recommended_tank;
  estimated_monthly_collection_liters : Z;
  tanks_at_overflow_risk : list string;
  recommended_diversions : list string;
  monsoon_readiness_score : Z;
  monsoon_gaps : list string;
  preparations_needed : list string;
  estimated_savings_inr_monthly : Z;
  implementation_cost_inr : Z;
  payback_months : Z;
  jal_shakti_compatible : bool;
  swachh_bharat_aligned : bool;
  scheme_recommendations : list string
}.

(** [(100 - level) * capacity / 100] *)
Definition overflow_cap (t : tank) : result float :=
  int_true_div
    ((100 - get (current_level_percent t) 0) * get (capacity_liters t) 0) 100.

Definition recommend (t : tank) : result (list recommended_tank) :=
  cap ← overflow_cap t;
  if PrimFloat.ltb 50000 cap then
    liters ← int_of_float cap;
    score ← int_of_float (PrimFloat.div cap 1000);
    mret [ {| r_name := name t;
              overflow_capacity_liters := liters;
              harvesting_score := Z.min 100 score |} ]
  else mret [].

Definition rainwater_fallback (tanks_data : list tank) : result (tagged harvesting) :=
  caps ← each overflow_cap tanks_data;
  let total_overflow := match caps with [] => 0%float | _ => float_sum caps end in
  recommended ← each recommend tanks_data;
  total ← int_of_float total_overflow;
  monthly ← int_of_float (total_overflow * 0.3);
  mret (Tagged true
          {| total_overflow_capacity_liters := total;
             recommended_tanks := take 5 (concat recommended);
             estimated_monthly_collection_liters := monthly;
             tanks_at_overflow_risk :=
               List.map name
                 (List.filter (fun t => 90 <? get (current_level_percent t) 0) tanks_data);
             recommended_diversions := ["Install overflow pipes to secondary storage"%string];
             monsoon_readiness_score := 70;
             monsoon_gaps := ["Check overflow drainage"%string];
             preparations_needed := ["Clean intake filters"%string];
             estimated_savings_inr_monthly := 50000;
             implementation_cost_inr := 200000;
             payback_months := 4;
             jal_shakti_compatible := true;
             swachh_bharat_aligned := true;
             scheme_recommendations := ["Apply for Jal Jeevan Mission funding"%string] |}
          true).

End Sums.

(** *** Maintenance scheduling *)

Inductive urgency_level : Type := immediate | urgent | soon | routine.

Inductive cleaning : Type := emergency | routine_cleaning.

Record maintenance_plan : Type := MaintenancePlan {
  recommended_cleaning_date : string;
  urgency : urgency_level;
  days_until_recommended : Z;
  cleaning_type : cleaning;
  estimated_duration_hours : Z;
  resources_needed : list string;
  cost_estimate_inr : Z;
  risk_if_delayed : risk;
  reason_days : Z;
  bis_compliant : bool;
  jal_jeevan_mission_aligned : bool
}.

Definition urgency_of (turbidity : float) (days_since_cleaned : Z) : urgency_level * Z :=
  if PrimFloat.ltb 5 turbidity || (45 <? days_since_cleaned) then (immediate, 0)
  else if PrimFloat.ltb 3 turbidity || (35 <? days_since_cleaned) then (urgent, 3)
  else if 25 <? days_since_cleaned then (soon, 7)
  else (routine, Z.max 0 (30 - days_since_cleaned)).

Definition predict_maintenance_fallback (tank_data : tank) (now : date)
  : result (tagged maintenance_plan) :=
  let days_since_cleaned := get (days_since_cleaned tank_data) 0 in
  let turbidity :=
    get (turbidity (get (current_readings tank_data) TankService.no_readings)) 0%float in
  let '(urgency, days_until) := urgency_of turbidity days_since_cleaned in
  recommended ← add_days now days_until;
  mret (Tagged true
          {| recommended_cleaning_date := strftime recommended;
             urgency := urgency;
             days_until_recommended := days_until;
             cleaning_type :=
               match urgency with immediate => emergency | _ => routine_cleaning end;
             estimated_duration_hours := 4;
             resources_needed := ["Cleaning crew"%string; "Water testing kit"%string];
             cost_estimate_inr := 15000;
             risk_if_delayed :=
               match urgency with immediate | urgent => high | _ => medium end;
             reason_days := days_since_cleaned;
             bis_compliant := days_since_cleaned <=? 30;
             jal_jeevan_mission_aligned := true |}
          true).

(** *** Demand forecast *)

Record daily_forecast : Type := DailyForecast {
  f_day : Z;
  f_date : string;
  predicted_demand_liters : Z;
  peak_hours : list string;
  f_confidence : float
}.

Record demand_forecast : Type := DemandForecast {
  daily_forecasts : list daily_forecast;
  weekly_total_demand_liters : Z;
  average_daily_demand_liters : Z;
  peak_demand_day : string;
  low_demand_day : string;
  sufficient : bool;
  deficit_liters : option Z;
  tanks_at_risk : list string;
  recommendations : list string;
  government_planning_insights : string
}.

Definition day_multiplier (i : Z) : float := if i <? 5 then 1.0%float else 0.85%float.

(** The body of [for i in range(7)]. *)
Definition forecast_day (avg_daily_consumption : float) (now : date) (i : Z)
  : result daily_forecast :=
  d ← add_days now (i + 1);
  demand ← int_of_float (avg_daily_consumption * day_multiplier i);
  mret {| f_day := i + 1;
          f_date := strftime d;
          predicted_demand_liters := demand;
          peak_hours := ["07:00"%string; "18:00"%string];
          f_confidence := 0.6 |}.

Definition range (n : nat) : list Z := List.map Z.of_nat (seq 0 n).

Definition forecast_demand_fallback (tanks_data : list tank) (now : date)
  : result (tagged demand_forecast) :=
  let total_capacity := sum_ints (List.map (fun t => get (capacity_liters t) 0) tanks_data) in
  capacity ← float_of_int total_capacity;
  let avg_daily_consumption := (capacity * 0.15)%float in
  forecasts ← each (forecast_day avg_daily_consumption now) (range 7);
  weekly ← int_of_float (avg_daily_consumption * 6.7);
  daily ← int_of_float avg_daily_consumption;
  mret (Tagged true
          {| daily_forecasts := forecasts;
             weekly_total_demand_liters := weekly;
             average_daily_demand_liters := daily;
             peak_demand_day := "Monday";
             low_demand_day := "Sunday";
             sufficient := true;
             deficit_liters := None;
             tanks_at_risk := [];
             recommendations := ["Monitor tank levels during peak hours"%string];
             government_planning_insights := "Fallback forecast - AI unavailable" |}
          true).

(** *** The model service

    What the module does not decide: [json.loads], with the values it
    builds, and the Groq client.  [groq_client] is [None] when GROQ_API_KEY
    is not set.  A client is taken with what the statements of a [try] block
    up to [raw = ...] come to: the text of the first choice of the
    completion (the empty text when it has none), or the exception that they
    end in. *)

Section Remote.

Context {json : Type}.
Variable loads : string -> result json.
Variable groq_client : option (result string).
Variable float_sum : list float -> float.

Definition _extract_json_from_text (text : string) : result json :=
  match text with
  | EmptyString => Raise ValueError
  | _ =>
      let text := Text.strip text in
      let start := Text.find "{" text in
      let stop := Text.rfind "}" text + 1 in
      if (start =? -1) || (stop =? 0) then Raise ValueError
      else loads (Text.slice start stop text)
  end.

(** [{"success": True, <key>: result}] with the value parsed from the
    model's text, or what the fallback returns. *)
Inductive answer (A : Type) : Type :=
| FromModel (parsed : json)
| ByRule (reply : tagged A).

Arguments FromModel {A} parsed.
Arguments ByRule {A} reply.

(** The five predictors are one function but for their prompt, their key
    and their [fallback]: without a client the fallback; with one, the
    parsed text, and the fallback on any exception of the [try] block. *)
Definition answer_or {A : Type} (fallback : result (tagged A)) : result (answer A) :=
  match groq_client with
  | None => ByRule <$> fallback
  | Some completion =>
      match raw ← completion; _extract_json_from_text raw with
      | Return parsed => Return (FromModel parsed)
      | Raise _ => ByRule <$> fallback
      end
  end.

Definition predict_water_quality (tank_data : tank) (history : list history_entry)
  : result (answer prediction) :=
  answer_or (Return (generate_fallback_prediction tank_data history)).

Definition detect_leakage_overflow (tank_data : tank) (history : list history_entry)
  : result (answer leakage_analysis) :=
  answer_or (Return (detect_leakage_fallback float_sum tank_data history)).

Definition predict_maintenance_schedule (tank_data : tank)
  (history : list history_entry) (now : date) : result (answer maintenance_plan) :=
  answer_or (predict_maintenance_fallback tank_data now).

Definition forecast_water_demand (tanks_data : list tank) (now : date)
  : result (answer demand_forecast) :=
  answer_or (forecast_demand_fallback tanks_data now).

Definition predict_rainwater_harvesting (tanks_data : list tank)
  : result (answer harvesting) :=
  answer_or (rainwater_fallback float_sum tanks_data).

End Remote.

Arguments FromModel {json A} parsed.
Arguments ByRule {json A} reply.

End AiPredictionService.

(** ** backend/services/map_service.py *)

(** The frame of a map: [{"center": {"lat": ..., "lng": ...}, "zoom": ...,
    "bounds": {"north": ..., "south": ..., "east": ..., "west": ...}}], the
    last key only when there is something to frame. *)
Record box : Type := Box {
  north : float;
  south : float;
  east : float;
  west : float
}.

Record view : Type := View {
  center : float * float;
  zoom : Z;
  bounds : option box
}.

Module MapService.

Inductive color : Type := green | yellow | red.

Record popup : Type := Popup {
  popup_name : string;
  popup_status : status;
  level : Z;
  popup_ph : float;
  popup_turbidity : float;
  popup_temperature : float;
  popup_days_since_cleaned : Z;
  popup_days_until_maintenance : Z
}.

Record marker : Type := Marker {
  marker_id : string;
  marker_name : string;
  marker_lat : float;
  marker_lng : float;
  marker_address : string;
  marker_status : status;
  marker_color : color;
  popup_content : popup
}.

(** One turn of the loop of [get_map_markers]. *)
Definition marker_of (t : tank) : result marker :=
  let location := get (tank_location t) (Location None None None) in
  let readings := get (current_readings t) TankService.no_readings in
  st ← subscript "status" (tank_status t);
  let color :=
    if TankService.status_eqb st warning then yellow
    else if TankService.status_eqb st critical then red
    else green in
  current_level ← subscript "current_level_percent" (current_level_percent t);
  since ← subscript "days_since_cleaned" (days_since_cleaned t);
  until ← subscript "days_until_maintenance" (days_until_maintenance t);
  mret {| marker_id := id t;
          marker_name := name t;
          marker_lat := get (lat location) 0%float;
          marker_lng := get (lng location) 0%float;
          marker_address := get (address location) "";
          marker_status := st;
          marker_color := color;
          popup_content :=
            {| popup_name := name t;
               popup_status := st;
               level := current_level;
               popup_ph := get (ph readings) 0%float;
               popup_turbidity := get (turbidity readings) 0%float;
               popup_temperature := get (temperature readings) 0%float;
               popup_days_since_cleaned := since;
               popup_days_until_maintenance := until |} |}.

Definition get_map_markers (s : JsonLoader.store) (today : Calendar.date)
  : JsonLoader.store * result (list marker) :=
  let '(s', listed) := TankService.get_all_tanks_with_status s today in
  (s', tanks ← listed; each marker_of tanks).

Section Bounds.

(** The interpreter's [sum] over floats. *)
Variable float_sum : list float -> float.

(** [t['location']['lat']] *)
Definition coordinate (key : string) (field : location -> option float) (t : tank)
  : result float :=
  location ← subscript "location" (tank_location t);
  subscript key (field location).

Definition get_map_bounds (s : JsonLoader.store) (today : Calendar.date)
  : JsonLoader.store * result view :=
  let '(s', listed) := TankService.get_all_tanks_with_status s today in
  (s',
   tanks ← listed;
   match tanks with
   | [] => mret {| center := (40.7128, -74.006)%float; zoom := 12; bounds := None |}
   | _ =>
       lats ← each (coordinate "lat" lat) tanks;
       lngs ← each (coordinate "lng" lng) tanks;
       let center_lat := (float_sum lats / float_of_len lats)%float in
       let center_lng := (float_sum lngs / float_of_len lngs)%float in
       northmost ← max_of lats;
       southmost ← min_of lats;
       eastmost ← max_of lngs;
       westmost ← min_of lngs;
       mret {| center := (center_lat, center_lng);
               zoom := 12;
               bounds := Some {| north := northmost; south := southmost;
                                 east := eastmost; west := westmost |} |}
   end).

(** [{'markers': get_map_markers(), 'bounds': get_map_bounds()}]: the
    second call is made when the first has returned. *)
Definition get_map_data (s : JsonLoader.store) (today : Calendar.date)
  : JsonLoader.store * result (list marker * view) :=
  let '(s1, markers) := get_map_markers s today in
  match markers with
  | Raise e => (s1, Raise e)
  | Return markers =>
      let '(s2, bounds) := get_map_bounds s1 today in
      (s2, bounds ← bounds; mret (markers, bounds))
  end.

End Bounds.

End MapService.

(** ** backend/services/gis_service.py *)

Module GisService.

(** [f"{n}"] on an int. *)
Definition str (n : Z) : string := NilZero.string_of_int (Z.to_int n).

(** [int(coordinate * 10) % 10] *)
Definition grid_index (coordinate : float) : result Z :=
  n ← int_of_float (coordinate * 10);
  mret (n mod 10).

(** [location.get('lat', 0)] and [location.get('lng', 0)] of
    [tank.get('location', {})]. *)
Definition coordinates (t : tank) : float * float :=
  let location := get (tank_location t) (Location None None None) in
  (get (lat location) 0%float, get (lng location) 0%float).

(** The key under which the loop of [get_ward_geojson] files a tank. *)
Definition ward_id (t : tank) : result string :=
  let '(lat, lng) := coordinates t in
  a ← grid_index lat;
  b ← grid_index lng;
  mret ("ward_" ++ str a ++ "_" ++ str b)%string.

(** *** The wards

    [ward_data] is a dict keyed by ward id.  A dict keeps its keys in the
    order of their first insertion, and that is the order of the features:
    it is a list of pairs with no key twice. *)

Record ward : Type := Ward {
  ward_tanks : list tank;
  center_lat : float;
  center_lng : float;
  total_capacity : Z;
  avg_ph : float;
  avg_turbidity : float;
  critical_count : Z;
  warning_count : Z;
  normal_count : Z
}.

(** [ward_id not in ward_data] is [negb (has_ward ...)]. *)
Definition has_ward (ward_id : string) (ward_data : list (string * ward)) : bool :=
  existsb (fun kv => String.eqb (fst kv) ward_id) ward_data.

(** [ward_data[ward_id] = data] *)
Fixpoint set_ward (ward_id : string) (data : ward) (ward_data : list (string * ward))
  : list (string * ward) :=
  match ward_data with
  | [] => [(ward_id, data)]
  | (k, w) :: rest =>
      if String.eqb k ward_id then (k, data) :: rest
      else (k, w) :: set_ward ward_id data rest
  end.

(** [ward_data[ward_id]], for a key that is there. *)
Definition the_ward (ward_id : string) (ward_data : list (string * ward)) : result ward :=
  match List.find (fun kv => String.eqb (fst kv) ward_id) ward_data with
  | Some (_, w) => Return w
  | None => Raise (KeyError ward_id)
  end.

(** The entry of a ward that has no tank yet. *)
Definition new_ward (lat lng : float) : ward :=
  {| ward_tanks := [];
     center_lat := lat;
     center_lng := lng;
     total_capacity := 0;
     avg_ph := 0;
     avg_turbidity := 0;
     critical_count := 0;
     warning_count := 0;
     normal_count := 0 |}.

(** What one turn of the first loop adds to the entry of the tank's ward. *)
Definition add_tank (t : tank) (w : ward) : ward :=
  let readings := get (current_readings t) TankService.no_readings in
  let '(c, w', n) :=
    match get (tank_status t) normal with
    | critical => (1, 0, 0)
    | warning => (0, 1, 0)
    | normal => (0, 0, 1)
    end in
  {| ward_tanks := ward_tanks w ++ [t];
     center_lat := center_lat w;
     center_lng := center_lng w;
     total_capacity := total_capacity w + get (capacity_liters t) 0;
     avg_ph := avg_ph w + get (ph readings) 7.0%float;
     avg_turbidity := avg_turbidity w + get (turbidity readings) 0%float;
     critical_count := critical_count w + c;
     warning_count := warning_count w + w';
     normal_count := normal_count w + n |}.

(** One turn of the first loop of [get_ward_geojson]. *)
Definition file_tank (ward_data : list (string * ward)) (t : tank)
  : result (list (string * ward)) :=
  let '(lat, lng) := coordinates t in
  ward_id ← ward_id t;
  let ward_data :=
    if has_ward ward_id ward_data then ward_data
    else set_ward ward_id (new_ward lat lng) ward_data in
  w ← the_ward ward_id ward_data;
  mret (set_ward ward_id (add_tank t w) ward_data).

(** [f"Ward {ward_id.replace('ward_', '').replace('_', '-')}"] *)
Definition ward_name (ward_id : string) : string :=
  ("Ward " ++ Text.replace "_" "-" (Text.replace "ward_" "" ward_id))%string.

Record feature : Type := Feature {
  f_ward_id : string;
  f_ward_name : string;
  tank_count : Z;
  total_capacity_liters : Z;
  f_avg_ph : float;
  f_avg_turbidity : float;
  health_score : Z;
  f_status : status;
  critical_tanks : Z;
  warning_tanks : Z;
  normal_tanks : Z;
  f_tanks : list (string * string * status);
  polygon : list (float * float)
}.

(** One turn of the second loop: the averages, the health of the ward and
    the square around its first tank. *)
Definition feature_of (ward_id : string) (data : ward) : result feature :=
  let num_tanks := len (ward_tanks data) in
  let '(mean_ph, mean_turbidity) :=
    if 0 <? num_tanks then
      (py_round (avg_ph data / float_of_len (ward_tanks data)) 2,
       py_round (avg_turbidity data / float_of_len (ward_tanks data)) 2)
    else (avg_ph data, avg_turbidity data) in
  let '(score, st) :=
    if 0 <? critical_count data then (30, critical)
    else if 0 <? warning_count data then (60, warning)
    else (90, normal) in
  let lat := center_lat data in
  let lng := center_lng data in
  let offset := 0.02%float in
  members ← each
    (fun t => st ← subscript "status" (tank_status t); mret (id t, name t, st))
    (ward_tanks data);
  mret {| f_ward_id := ward_id;
          f_ward_name := ward_name ward_id;
          tank_count := num_tanks;
          total_capacity_liters := total_capacity data;
          f_avg_ph := mean_ph;
          f_avg_turbidity := mean_turbidity;
          health_score := score;
          f_status := st;
          critical_tanks := critical_count data;
          warning_tanks := warning_count data;
          normal_tanks := normal_count data;
          f_tanks := members;
          polygon := [ (lng - offset, lat - offset); (lng + offset, lat - offset);
                       (lng + offset, lat + offset); (lng - offset, lat + offset);
                       (lng - offset, lat - offset) ]%float |}.

(** The features of the returned FeatureCollection. *)
Definition ward_features (tanks : list tank) : result (list feature) :=
  ward_data ← fold_each file_tank tanks [];
  each (fun kv => feature_of (fst kv) (snd kv)) ward_data.

Definition get_ward_geojson (s : JsonLoader.store) (today : Calendar.date)
  : JsonLoader.store * result (list feature) :=
  let '(s', listed) := TankService.get_all_tanks_with_status s today in
  (s', tanks ← listed; ward_features tanks).

Inductive ward_details : Type :=
| WardFound (ward : feature)
| WardNotFound (error : string).

Definition get_ward_details (s : JsonLoader.store) (today : Calendar.date)
  (ward_id : string) : JsonLoader.store * result ward_details :=
  let '(s', geojson) := get_ward_geojson s today in
  (s',
   features ← geojson;
   mret match list_find (fun f => f_ward_id f = ward_id) features with
        | Some (_, f) => WardFound f
        | None => WardNotFound "Ward not found"
        end).

(** *** The heat map *)

(** A JSON number written in the code: an int or a float. *)
Inductive number : Type :=
| Int (z : Z)
| Float (x : float).

Record legend_range : Type := LegendRange {
  range_min : number;
  range_max : number;
  range_color : string;
  range_label : string
}.

Record legend : Type := Legend {
  title : string;
  ranges : list legend_range
}.

Definition health_score_legend : legend :=
  {| title := "Ward Health Score";
     ranges := [ LegendRange (Int 0) (Int 40) "#ef4444" "Critical";
                 LegendRange (Int 40) (Int 70) "#f59e0b" "Warning";
                 LegendRange (Int 70) (Int 100) "#10b981" "Normal" ] |}.

(** The title of the temperature legend is kept as the bytes of the source
    file. *)
Definition legends : list (string * legend) :=
  [ ("health_score"%string, health_score_legend);
    ("ph"%string,
     {| title := "pH Level";
        ranges := [ LegendRange (Int 0) (Float 6.5) "#ef4444" "Acidic";
                    LegendRange (Float 6.5) (Float 8.5) "#10b981" "Normal";
                    LegendRange (Float 8.5) (Int 14) "#ef4444" "Alkaline" ] |});
    ("turbidity"%string,
     {| title := "Turbidity (NTU)";
        ranges := [ LegendRange (Int 0) (Int 1) "#10b981" "Excellent";
                    LegendRange (Int 1) (Int 5) "#f59e0b" "Acceptable";
                    LegendRange (Int 5) (Int 100) "#ef4444" "Poor" ] |});
    ("temperature"%string,
     {| title := "Temperature (Â°C)";
        ranges := [ LegendRange (Int 0) (Int 15) "#3b82f6" "Cold";
                    LegendRange (Int 15) (Int 25) "#10b981" "Normal";
                    LegendRange (Int 25) (Int 50) "#ef4444" "Warm" ] |});
    ("water_level"%string,
     {| title := "Water Level (%)";
        ranges := [ LegendRange (Int 0) (Int 30) "#ef4444" "Low";
                    LegendRange (Int 30) (Int 70) "#f59e0b" "Medium";
                    LegendRange (Int 70) (Int 100) "#10b981" "High" ] |}) ].

(** [legends.get(metric, legends["health_score"])] *)
Definition get_legend_for_metric (metric : string) : legend :=
  match List.find (fun kv => String.eqb (fst kv) metric) legends with
  | Some (_, l) => l
  | None => health_score_legend
  end.

Record point : Type := Point {
  p_lat : float;
  p_lng : float;
  value : number;
  p_tank_id : string;
  p_tank_name : string;
  p_status : status
}.

Definition value_of (metric : string) (t : tank) : number :=
  let readings := get (current_readings t) TankService.no_readings in
  if String.eqb metric "health_score" then
    match get (tank_status t) normal with
    | critical => Int 30
    | warning => Int 60
    | normal => Int 90
    end
  else if String.eqb metric "ph" then Float (get (ph readings) 7.0%float)
  else if String.eqb metric "turbidity" then Float (get (turbidity readings) 0%float)
  else if String.eqb metric "temperature" then Float (get (temperature readings) 20%float)
  else if String.eqb metric "water_level" then Int (get (current_level_percent t) 50)
  else Int 50.

Definition point_of (metric : string) (t : tank) : point :=
  let location := get (tank_location t) (Location None None None) in
  {| p_lat := get (lat location) 0%float;
     p_lng := get (lng location) 0%float;
     value := value_of metric t;
     p_tank_id := id t;
     p_tank_name := name t;
     p_status := get (tank_status t) normal |}.

Record heatmap : Type := Heatmap {
  metric_name : string;
  points : list point;
  heat_legend : legend;
  heat_bounds : view
}.

Section Bounds.

(** The interpreter's [sum] over floats. *)
Variable float_sum : list float -> float.

Definition calculate_bounds (points : list point) : result view :=
  match points with
  | [] => Return {| center := (40.7128, -74.006)%float; zoom := 12; bounds := None |}
  | _ =>
      let lats := List.map p_lat points in
      let lngs := List.map p_lng points in
      let center_lat := (float_sum lats / float_of_len lats)%float in
      let center_lng := (float_sum lngs / float_of_len lngs)%float in
      northmost ← max_of lats;
      southmost ← min_of lats;
      eastmost ← max_of lngs;
      westmost ← min_of lngs;
      mret {| center := (center_lat, center_lng);
              zoom := 11;
              bounds := Some {| north := northmost; south := southmost;
                                east := eastmost; west := westmost |} |}
  end.

Definition get_heatmap_data (s : JsonLoader.store) (today : Calendar.date)
  (metric : string) : JsonLoader.store * result heatmap :=
  let '(s', listed) := TankService.get_all_tanks_with_status s today in
  (s',
   tanks ← listed;
   let points := List.map (point_of metric) tanks in
   b ← calculate_bounds points;
   mret {| metric_name := metric;
           points := points;
           heat_legend := get_legend_for_metric metric;
           heat_bounds := b |}).

End Bounds.

End GisService.


(** ** backend/services/ai_service.py: the rule-based recommendations *)

Module AiService.

(** An issue stands for the text appended to [issues]; it keeps the value
    that the text quotes. *)
Inductive issue : Type :=
| PhImbalance (ph : float)
| HighTurbidity (turbidity : float)
| OverdueCleaning (days : Z).

(** [{'tank_name': ..., 'issues': [...]}] *)
Record finding : Type := Finding {
  tank_name : string;
  found_issues : list issue
}.

(** [{'tank_name': ..., 'risk_level': ..., 'reason': ', '.join(issues)}];
    the reason is kept as the issues that the text joins. *)
Record assessment : Type := Assessment {
  assessed_tank : string;
  risk_level : status;
  reason : list issue
}.

Record recommendations : Type := Recommendations {
  risk_assessment : list assessment;
  immediate_actions : list (string * issue);
  water_quality_advice : list string;
  advised_schedule : list string;
  trend_forecast : string;
  overall_health_score : Z
}.

Definition issues_of (ph turbidity : float) (days_since_cleaned : Z) : list issue :=
  (if PrimFloat.ltb ph 6.5 || PrimFloat.ltb 8.5 ph then [PhImbalance ph] else [])
  ++ (if PrimFloat.ltb 5 turbidity then [HighTurbidity turbidity] else [])
  ++ (if 30 <? days_since_cleaned then [OverdueCleaning days_since_cleaned] else []).

(** The three lists that the loop fills. *)
Record review : Type := Review {
  critical_tanks : list finding;
  warning_tanks : list finding;
  actions : list (string * issue)
}.

(** One turn of the loop. *)
Definition review_tank (r : review) (t : tank) : review :=
  let readings := get (current_readings t) TankService.no_readings in
  let ph := get (ph readings) 7.0%float in
  let turbidity := get (turbidity readings) 0%float in
  let days_since_cleaned := get (days_since_cleaned t) 0 in
  let issues := issues_of ph turbidity days_since_cleaned in
  if (2 <=? length issues)%nat || PrimFloat.ltb 7 turbidity
     || PrimFloat.ltb ph 6.0 || PrimFloat.ltb 9.0 ph
  then
    {| critical_tanks := critical_tanks r ++ [Finding (name t) issues];
       warning_tanks := warning_tanks r;
       actions := actions r ++ List.map (fun i => (name t, i)) issues |}
  else
    match issues with
    | _ :: _ =>
        {| critical_tanks := critical_tanks r;
           warning_tanks := warning_tanks r ++ [Finding (name t) issues];
           actions := actions r |}
    | [] => r
    end.

Definition generate_fallback_recommendations (tanks_data : list tank) : recommendations :=
  let r := fold_left review_tank tanks_data (Review [] [] []) in
  {| risk_assessment :=
       List.map (fun f => Assessment (tank_name f) critical (found_issues f))
         (critical_tanks r)
       ++ List.map (fun f => Assessment (tank_name f) warning (found_issues f))
            (warning_tanks r);
     immediate_actions := actions r;
     water_quality_advice := [];
     advised_schedule := [];
     trend_forecast := "Analysis based on rule-based fallback system";
     overall_health_score :=
       Z.max 0 (100 - len (critical_tanks r) * 20 - len (warning_tanks r) * 10) |}.

End AiService.

(** ** backend/services/ai_copilot_service.py: the rule-based explanation *)

Module AiCopilotService.

Record action : Type := Action {
  action_text : string;
  priority : string;
  estimated_time : string;
  responsible : string
}.

Record explanation : Type := Explanation {
  primary_cause : string;
  contributing_factors : list string;
  root_cause_confidence : float;
  severity_level : string;
  impact_score : Z;
  affected_population_estimate : Z;
  trend_explanation : string;
  recommended_actions : list action;
  prevention_measures : list string;
  bis_violation : bool;
  jjm_compliance : bool;
  reporting_required : bool;
  plain_language_summary : string
}.

(** [{"success": True, "explanation": ..., "alert": alert, "fallback": True}] *)
Record explained : Type := Explained {
  success : bool;
  the_explanation : explanation;
  explained_alert : alert;
  fallback : bool
}.

(** The causes and the actions after the three keyword tests and the test
    [if not causes]. *)
Definition causes_and_actions (message : string) : list string * list action :=
  let '(causes, actions) := ([], []) in
  let '(causes, actions) :=
    if Text.contains "ph" (Text.lower message) then
      (causes ++ ["pH imbalance detected in water"%string],
       actions ++ [Action "Test water pH and add neutralizing agents" "high"
                     "2 hours" "Water Quality Officer"])
    else (causes, actions) in
  let '(causes, actions) :=
    if Text.contains "turbidity" (Text.lower message) then
      (causes ++ ["Suspended particles in water causing cloudiness"%string],
       actions ++ [Action "Check filtration system and clean if needed" "high"
                     "4 hours" "Maintenance Team"])
    else (causes, actions) in
  let '(causes, actions) :=
    if Text.contains "maintenance" (Text.lower message)
       || Text.contains "clean" (Text.lower message) then
      (causes ++ ["Tank requires cleaning based on schedule"%string],
       actions ++ [Action "Schedule tank cleaning" "medium"
                     "6 hours" "Maintenance Supervisor"])
    else (causes, actions) in
  match causes with
  | [] =>
      (causes ++ ["Alert triggered based on monitoring thresholds"%string],
       actions ++ [Action "Review tank status and take appropriate action" "medium"
                     "1 hour" "Duty Officer"])
  | _ => (causes, actions)
  end.

(** [tank_data] is [None] for the empty dict that the caller passes when
    the alert names no tank.  The two readings are read and not used. *)
Definition generate_fallback_explanation (a : alert) (tank_data : option tank)
  : explained :=
  let alert_type := get (alert_type a) "info" in
  let message := get (message a) "" in
  let readings :=
    get (tank_data ≫= current_readings) TankService.no_readings in
  let ph := get (ph readings) 7.0%float in
  let turbidity := get (turbidity readings) 0%float in
  let '(causes, actions) := causes_and_actions message in
  {| success := true;
     the_explanation :=
       {| primary_cause :=
            match causes with
            | first :: _ => first
            | [] => "Unknown"
            end;
          contributing_factors := if 1 <? len causes then List.tl causes else [];
          root_cause_confidence := 0.6;
          severity_level := alert_type;
          impact_score :=
            if String.eqb alert_type "critical" then 8
            else if String.eqb alert_type "warning" then 5
            else 2;
          affected_population_estimate := 1000;
          trend_explanation := "Based on rule-based fallback analysis.";
          recommended_actions := actions;
          prevention_measures := ["Regular monitoring"; "Scheduled maintenance"]%string;
          bis_violation := String.eqb alert_type "critical";
          jjm_compliance := negb (String.eqb alert_type "critical");
          reporting_required := String.eqb alert_type "critical";
          plain_language_summary := message |};
     explained_alert := a;
     fallback := true |}.

End AiCopilotService.

(** ** backend/services/auth_service.py

    The module owns the dict [active_tokens], from token to session.  The
    token of a new session is drawn by [secrets.token_hex]; it is an
    argument here, as the clock is.  A session keeps its expiry as the text
    that [isoformat] writes, which [fromisoformat] reads back as the same
    [datetime]: the session holds the [datetime]. *)

Module AuthService.

(** A naive [datetime]: a date and the microseconds since its midnight. *)
Record datetime : Type := DateTime {
  date_part : Calendar.date;
  microseconds : Z
}.

(** [a < b]: the fields are compared from the year down. *)
Definition before (a b : datetime) : bool :=
  let '(ya, ma, da) :=
    (Calendar.year (date_part a), Calendar.month (date_part a), Calendar.day (date_part a)) in
  let '(yb, mb, db) :=
    (Calendar.year (date_part b), Calendar.month (date_part b), Calendar.day (date_part b)) in
  (ya <? yb)
  || ((ya =? yb)
      && ((ma <? mb)
          || ((ma =? mb)
              && ((da <? db)
                  || ((da =? db) && (microseconds a <? microseconds b)))))).

(** [now + timedelta(hours=24)]: the same time on the next day. *)
Definition plus_24_hours (now : datetime) : result datetime :=
  d ← Calendar.add_days (date_part now) 1;
  mret (DateTime d (microseconds now)).

(** A user of users.json; the type of an id does not matter to the code. *)
Record user : Type := User {
  user_id : option string;
  username : option string;
  password : option string;
  user_name : option string;
  role : option string
}.

Record session : Type := Session {
  session_user_id : string;
  session_username : string;
  session_name : string;
  session_role : string;
  expires : datetime
}.

(** [users_file] is [None] when users.json does not exist; the document is
    [None] when it has no ["users"] key. *)
Definition load_users (users_file : option (option (list user))) : result (list user) :=
  match users_file with
  | Some document => subscript "users" document
  | None => Return []
  end.

(** [user["username"] == username and user["password"] == password] *)
Definition credentials_match (u : user) (name pass : string) : result bool :=
  n ← subscript "username" (username u);
  if String.eqb n name then
    p ← subscript "password" (password u);
    mret (String.eqb p pass)
  else mret false.

(** What [authenticate_user] returns: the dict with ["success": False] and
    an ["error"], or the one with ["success": True], the ["token"] and the
    ["user"] (id, username, name, role). *)
Inductive login : Type :=
| LoginFailed (error : string)
| LoggedIn (token : string) (user : string * string * string * string).

Definition open_session (u : user) (now : datetime) : result session :=
  i ← subscript "id" (user_id u);
  n ← subscript "username" (username u);
  full ← subscript "name" (user_name u);
  r ← subscript "role" (role u);
  e ← plus_24_hours now;
  mret (Session i n full r e).

(** The loop over the users: it returns at the first user whose
    credentials match. *)
Fixpoint try_users (users : list user) (active_tokens : gmap string session)
  (name pass token : string) (now : datetime) : gmap string session * result login :=
  match users with
  | [] => (active_tokens, Return (LoginFailed "Invalid username or password"))
  | u :: rest =>
      match credentials_match u name pass with
      | Raise e => (active_tokens, Raise e)
      | Return false => try_users rest active_tokens name pass token now
      | Return true =>
          match open_session u now with
          | Raise e => (active_tokens, Raise e)
          | Return data =>
              (<[token := data]> active_tokens,
               Return (LoggedIn token
                         (session_user_id data, session_username data,
                          session_name data, session_role data)))
          end
      end
  end.

Definition authenticate_user (users_file : option (option (list user)))
  (active_tokens : gmap string session) (name pass token : string) (now : datetime)
  : gmap string session * result login :=
  match load_users users_file with
  | Raise e => (active_tokens, Raise e)
  | Return users => try_users users active_tokens name pass token now
  end.

(** [{"valid": True, "user": token_data}] is [Some token_data];
    [{"valid": False}] is [None]. *)
Definition validate_token (active_tokens : gmap string session) (token : string)
  (now : datetime)
  : gmap string session * option session :=
  match active_tokens !! token with
  | Some token_data =>
      if before now (expires token_data) then (active_tokens, Some token_data)
      else (delete token active_tokens, None)
  | None => (active_tokens, None)
  end.

(** The [bool] is the value under ["success"]. *)
Definition logout (active_tokens : gmap string session) (token : string)
  : gmap string session * bool :=
  match active_tokens !! token with
  | Some _ => (delete token active_tokens, true)
  | None => (active_tokens, false)
  end.

End AuthService.

(** ** backend/services/vision_ai_service.py: the text of a reply *)

Module VisionAiService.

Section Replies.

Context {json : Type}.

(** [json.loads] *)
Variable loads : string -> result json.

(** [rfind] gives [-1] at least, so that [end] is never [-1]: a text with
    an opening brace and no closing one goes on to [json.loads], with the
    empty slice. *)
Definition _extract_json_from_text (text : string) : result json :=
  let text := Text.strip text in
  let start := Text.find "{" text in
  let stop := Text.rfind "}" text + 1 in
  if (start =? -1) || (stop =? -1) then Raise ValueError
  else loads (Text.slice start stop text).

End Replies.

End VisionAiService.

(** ** backend/main.py: the endpoints

    An endpoint returns a body, raises the [HTTPException] that the
    framework turns into a status and a detail, or lets the exception of a
    service through. *)

Module Main.

Inductive response (A : Type) : Type :=
| Ok (body : A)
| HTTPException (status_code : Z) (detail : string).

Arguments Ok {A} body.
Arguments HTTPException {A} status_code detail.

(** GET /api/tanks *)
Definition get_tanks (s : JsonLoader.store) (today : Calendar.date)
  : JsonLoader.store * result (list tank * TankService.tanks_summary) :=
  let '(s1, tanks) := TankService.get_all_tanks_with_status s today in
  match tanks with
  | Raise e => (s1, Raise e)
  | Return tanks =>
      let '(s2, summary) := TankService.get_tanks_summary s1 today in
      (s2, summary ← summary; mret (tanks, summary))
  end.

(** GET /api/tanks/{tank_id} *)
Definition get_tank (s : JsonLoader.store) (tank_id : string) (today : Calendar.date)
  : JsonLoader.store
    * result (response (tank * AnalyticsService.quality_analysis
                        * AnalyticsService.trend_analysis)) :=
  let '(s1, found) := TankService.get_single_tank s tank_id today in
  match found with
  | Raise e => (s1, Raise e)
  | Return None => (s1, Return (HTTPException 404 "Tank not found"))
  | Return (Some t) =>
      let analysis := AnalyticsService.analyze_water_quality t in
      let '(s2, trend) := AnalyticsService.get_trend_analysis s1 tank_id in
      (s2, trend ← trend; mret (Ok (t, analysis, trend)))
  end.

(** GET /api/tanks/{tank_id}/history *)
Definition get_history (s : JsonLoader.store) (tank_id : string)
  : JsonLoader.store * response (list history_entry) :=
  let '(s', history) := TankService.get_tank_history s tank_id in
  match history with
  | None => (s', HTTPException 404 "Tank not found")
  | Some history => (s', Ok history)
  end.

Record alerts_summary : Type := AlertsSummary {
  total : Z;
  critical_alerts : Z;
  warning_alerts : Z;
  info_alerts : Z;
  unacknowledged : Z
}.

(** [[a for a in alerts if a['type'] == kind]] *)
Definition of_type (kind : string) (alerts : list alert) : result (list alert) :=
  kept ← each
    (fun a =>
       found ← subscript "type" (alert_type a);
       mret (if String.eqb found kind then [a] else []))
    alerts;
  mret (concat kept).

(** GET /api/alerts *)
Definition get_all_alerts (s : JsonLoader.store)
  : JsonLoader.store * result (list alert * alerts_summary) :=
  let '(s', alerts) := JsonLoader.get_alerts s in
  (s',
   critical ← of_type "critical" alerts;
   warnings ← of_type "warning" alerts;
   info ← of_type "info" alerts;
   mret (alerts,
         {| total := len alerts;
            critical_alerts := len critical;
            warning_alerts := len warnings;
            info_alerts := len info;
            unacknowledged :=
              len (List.filter (fun a => negb (get (acknowledged a) false)) alerts) |})).

(** POST /api/maintenance/update.  [request.notes or ""] is the notes of
    the request when there are some, the empty text otherwise. *)
Definition api_update_maintenance (s : JsonLoader.store)
  (tank_id cleaned_date : string) (notes : option string)
  : JsonLoader.store * result (response (string * tank)) :=
  let notes := if JsonLoader.truthy notes then notes else Some ""%string in
  let '(s', result) := JsonLoader.update_maintenance s tank_id cleaned_date notes in
  (s',
   result ← result;
   mret match result with
        | JsonLoader.Failure error => HTTPException 404 error
        | JsonLoader.Success msg updated => Ok (msg, updated)
        end).

(** POST /api/auth/login *)
Definition api_login (users_file : option (option (list AuthService.user)))
  (active_tokens : gmap string AuthService.session) (username password token : string)
  (now : AuthService.datetime)
  : gmap string AuthService.session
    * result (response (string * (string * string * string * string))) :=
  let '(active_tokens', result) :=
    AuthService.authenticate_user users_file active_tokens username password token now in
  (active_tokens',
   result ← result;
   mret match result with
        | AuthService.LoginFailed error => HTTPException 401 error
        | AuthService.LoggedIn token user => Ok (token, user)
        end).

(** GET /api/gis/wards/{ward_id} *)
Definition api_get_ward_details (s : JsonLoader.store) (today : Calendar.date)
  (ward_id : string) : JsonLoader.store * result (response GisService.feature) :=
  let '(s', result) := GisService.get_ward_details s today ward_id in
  (s',
   result ← result;
   mret match result with
        | GisService.WardFound ward => Ok ward
        | GisService.WardNotFound _ => HTTPException 404 "Ward not found"
        end).

Section Predictions.

Context {json : Type}.
Variable loads : string -> result json.
Variable groq_client : option (result string).
Variable float_sum : list float -> float.

(** The three endpoints /api/ai/predict, /api/ai/leakage and
    /api/ai/maintenance: the tank with its derived fields, its history
    ([get_tank_history(tank_id) or []]), and the predictor on the two. *)
Definition with_tank_and_history {A : Type} (s : JsonLoader.store) (tank_id : string)
  (today : Calendar.date) (predictor : tank -> list history_entry -> result A)
  : JsonLoader.store * result (response A) :=
  let '(s1, found) := TankService.get_single_tank s tank_id today in
  match found with
  | Raise e => (s1, Raise e)
  | Return None => (s1, Return (HTTPException 404 "Tank not found"))
  | Return (Some t) =>
      let '(s2, history) := TankService.get_tank_history s1 tank_id in
      (s2, Ok <$> predictor t (get history []))
  end.

Definition api_predict_water_quality (s : JsonLoader.store) (tank_id : string)
  (today : Calendar.date) :=
  with_tank_and_history s tank_id today
    (AiPredictionService.predict_water_quality loads groq_client).

Definition api_detect_leakage (s : JsonLoader.store) (tank_id : string)
  (today : Calendar.date) :=
  with_tank_and_history s tank_id today
    (AiPredictionService.detect_leakage_overflow loads groq_client float_sum).

(** [date.today()] and [datetime.now()] of one request are the same day. *)
Definition api_predict_maintenance (s : JsonLoader.store) (tank_id : string)
  (today : Calendar.date) :=
  with_tank_and_history s tank_id today
    (fun t history =>
       AiPredictionService.predict_maintenance_schedule loads groq_client t history today).

End Predictions.

End Main.
(** ** The specification's side

    The definitions below follow the words of the specification; the
    properties compare them with the code above. *)

Module Spec.

(** "Escalation to critical if ANY of: turbidity > 7, pH < 6.0, pH > 9.0,
    days_since_cleaned > 60"; else "pH outside [6.5, 8.5], turbidity > 5
    NTU, or days_since_cleaned > 30" is a warning; "otherwise normal". *)
Definition status_by_thresholds (ph turbidity : float) (days_since_cleaned : Z) : status :=
  if PrimFloat.ltb 7 turbidity || PrimFloat.ltb ph 6.0 || PrimFloat.ltb 9.0 ph
     || (60 <? days_since_cleaned)
  then critical
  else if PrimFloat.ltb ph 6.5 || PrimFloat.ltb 8.5 ph || PrimFloat.ltb 5 turbidity
          || (30 <? days_since_cleaned)
  then warning
  else normal.

(** "round(x)": the nearest int, ties to even. *)
Definition round (x : float) : result Z :=
  match Prim2SF x with
  | S754_zero _ => Return 0
  | S754_finite s m e =>
      Return (cond_Zopp s
                (if 0 <=? e then Z.shiftl (Z.pos m) e
                 else round_half_even (Z.pos m) (2 ^ (- e))))
  | S754_infinity _ => Raise OverflowError
  | S754_nan => Raise ValueError
  end.

(** "the average sample-to-sample change in turbidity": the mean of the
    differences between each sample and the one before it, an absent
    turbidity counting as 0; no change when there are fewer than two
    samples. *)
Fixpoint changes (values : list float) : list float :=
  match values with
  | [] => []
  | a :: rest =>
      match rest with
      | [] => []
      | b :: _ => PrimFloat.sub b a :: changes rest
      end
  end.

Definition average_change (float_sum : list float -> float)
  (history : list history_entry) : float :=
  match changes (List.map (fun h => get (h_turbidity h) 0%float) history) with
  | [] => 0%float
  | cs => PrimFloat.div (float_sum cs) (float_of_len cs)
  end.

(** "increasing if last − first > threshold; decreasing if first − last >
    threshold; else stable". *)
Definition trend_between (first last threshold : float) : AnalyticsService.trend :=
  if PrimFloat.ltb threshold (PrimFloat.sub last first) then AnalyticsService.increasing
  else if PrimFloat.ltb threshold (PrimFloat.sub first last) then AnalyticsService.decreasing
  else AnalyticsService.stable.



(** "pH outside [6.5, 8.5] is one issue, turbidity > 5 or > 3 is one
    issue, temperature > 25 is one issue", on the current readings with
    their defaults (pH 7.0, turbidity 0, temperature 20). *)
Definition issue_count (t : tank) : nat :=
  let r := get (current_readings t) (Readings None None None) in
  let ph := get (ph r) 7.0%float in
  let turbidity := get (turbidity r) 0%float in
  let temperature := get (temperature r) 20%float in
  ((if PrimFloat.ltb ph 6.5 || PrimFloat.ltb 8.5 ph then 1 else 0)
   + (if PrimFloat.ltb 5 turbidity || PrimFloat.ltb 3 turbidity then 1 else 0)
   + (if PrimFloat.ltb 25 temperature then 1 else 0))%nat.

(** A tank that has what the data model requires of it for the rollup:
    "capacity_liters", "current_level_percent" and "current_readings {ph,
    turbidity, temperature}". *)
Definition complete (t : tank) : Prop :=
  is_Some (capacity_liters t) /\ is_Some (current_level_percent t)
  /\ exists p u c, current_readings t = Some (Readings (Some p) (Some u) (Some c)).

(** "floor(x)": the largest int not above [x]. *)
Definition floor (x : float) : result Z :=
  match Prim2SF x with
  | S754_zero _ => Return 0
  | S754_finite s m e =>
      Return (if 0 <=? e then cond_Zopp s (Z.shiftl (Z.pos m) e)
              else if s then - ((Z.pos m + 2 ^ (- e) - 1) / 2 ^ (- e))
              else Z.pos m / 2 ^ (- e))
  | S754_infinity _ => Raise OverflowError
  | S754_nan => Raise ValueError
  end.

(** "ward_A_B with A = floor(lat×10) mod 10 and B = floor(lng×10) mod 10" *)
Definition ward_by_floor (lat lng : float) : result string :=
  a ← floor (lat * 10);
  b ← floor (lng * 10);
  mret ("ward_" ++ GisService.str (a mod 10) ++ "_" ++ GisService.str (b mod 10))%string.

(** The outcomes of updateMaintenance.  The code tells them apart by the
    text under ["error"]: [NotFound] is either of the two "not found" texts,
    [InvalidDate] is the "Invalid date format" text. *)
Definition NotFound (tank_id : string) (r : JsonLoader.update_result) : Prop :=
  r = JsonLoader.Failure (JsonLoader.tank_not_found tank_id)
  \/ r = JsonLoader.Failure (JsonLoader.schedule_not_found tank_id).

Definition InvalidDate (cleaned_date : string) (r : JsonLoader.update_result) : Prop :=
  r = JsonLoader.Failure (JsonLoader.invalid_date cleaned_date).

End Spec.

(** ** Sample data *)

Module Samples.

Definition today : Calendar.date := Calendar.Date 2025 6 5.

Definition tank_A : tank :=
  {| id := "T1"; name := "North Reservoir";
     tank_location := Some (Location (Some 12.34%float) (Some 56.78%float) None);
     capacity_liters := Some 1000; current_level_percent := Some 97;
     last_cleaned := Some "2025-04-01"; next_maintenance := Some "2025-05-01";
     current_readings := Some (Readings (Some 9.2%float) (Some 8%float) (Some 22%float));
     history := None; maintenance := None; tank_status := None;
     days_since_cleaned := None; days_until_maintenance := None |}.

Definition tank_B : tank :=
  {| id := "T2"; name := "South Tower";
     tank_location := Some (Location (Some 12.39%float) (Some 56.79%float) None);
     capacity_liters := Some 120; current_level_percent := Some 55;
     last_cleaned := Some "2025-04-01"; next_maintenance := Some "2025-05-01";
     current_readings := Some (Readings (Some 7.0%float) (Some 0%float) (Some 20%float));
     history := None; maintenance := None; tank_status := None;
     days_since_cleaned := None; days_until_maintenance := None |}.

(** A tank south of the equator. *)
Definition tank_S : tank :=
  {| id := "T3"; name := "Southern Basin";
     tank_location := Some (Location (Some (-12.34)%float) (Some 56.78%float) None);
     capacity_liters := Some 500; current_level_percent := Some 40;
     last_cleaned := Some "2025-05-20"; next_maintenance := Some "2025-06-19";
     current_readings := None;
     history := None; maintenance := None; tank_status := None;
     days_since_cleaned := None; days_until_maintenance := None |}.

(** A week in which the pH rises by 0.5, the turbidity by exactly 1 and the
    temperature falls by 2. *)
Definition oldest : history_entry :=
  HistoryEntry (Some "2025-05-29") (Some 7.0%float) (Some 1.5%float) (Some 22%float).

Definition midweek : history_entry :=
  HistoryEntry (Some "2025-06-01") (Some 7.2%float) (Some 4%float) (Some 21%float).

Definition newest : history_entry :=
  HistoryEntry (Some "2025-06-04") (Some 7.5%float) (Some 2.5%float) (Some 20%float).

Definition week : list history_entry := [oldest; midweek; newest].

Definition tank_H : tank :=
  {| id := "T4"; name := "Hill Cistern";
     tank_location := None;
     capacity_liters := Some 800; current_level_percent := Some 60;
     last_cleaned := Some "2025-05-20"; next_maintenance := Some "2025-06-19";
     current_readings := Some (Readings (Some 7.5%float) None None);
     history := Some week; maintenance := None; tank_status := None;
     days_since_cleaned := None; days_until_maintenance := None |}.

(** A tank without sensor data whose last cleaning is dated at the end of
    the calendar. *)
Definition tank_F : tank :=
  {| id := "T5"; name := "Far Reservoir";
     tank_location := None;
     capacity_liters := Some 900; current_level_percent := Some 50;
     last_cleaned := Some "9999-12-31"; next_maintenance := Some "9999-12-31";
     current_readings := None;
     history := None; maintenance := None; tank_status := None;
     days_since_cleaned := None; days_until_maintenance := None |}.

Definition entry_A : schedule_entry :=
  {| s_tank_id := Some "T1"; cleaning_interval_days := Some 30;
     s_last_cleaned := Some "2025-04-01"; next_scheduled := Some "2025-05-01" |}.

Definition entry_B : schedule_entry :=
  {| s_tank_id := Some "T2"; cleaning_interval_days := None;
     s_last_cleaned := Some "2025-04-01"; next_scheduled := Some "2025-05-01" |}.

Definition data_json : document :=
  {| tanks := Some [tank_A; tank_B; tank_H; tank_F];
     maintenance_schedule := Some [entry_A; entry_B];
     alerts := Some [] |}.

(** A fleet of one tank, clean water and a cleaning 65 days old. *)
Definition only_B : JsonLoader.store :=
  JsonLoader.Store (Document (Some [tank_B]) (Some [entry_B]) (Some []))
    JsonLoader.empty_dict.

(** The store of a process that has not read the file yet, and the store
    once it has. *)
Definition cold : JsonLoader.store := JsonLoader.Store data_json JsonLoader.empty_dict.

Definition warm : JsonLoader.store := JsonLoader.Store data_json data_json.

End Samples.

(** ** Notions used to state the properties

    These are not code of the repository. *)

Module Notions.

(** [tank.get('status', 'normal')] *)
Definition status_of (t : tank) : status := get (tank_status t) normal.

(** The number of tanks of a list that have a status. *)
Definition count_in (st : status) (l : list tank) : Z :=
  len (List.filter (fun t => TankService.status_eqb (status_of t) st) l).

(** An entry of [ward_data] that is what the first loop of get_ward_geojson
    makes of the tanks it has filed there. *)
Definition ward_entry_ok (kv : string * GisService.ward) : Prop :=
  GisService.ward_tanks (snd kv) <> []
  /\ Forall (fun t => GisService.ward_id t = Return (fst kv))
       (GisService.ward_tanks (snd kv))
  /\ GisService.critical_count (snd kv)
     = count_in critical (GisService.ward_tanks (snd kv))
  /\ GisService.warning_count (snd kv)
     = count_in warning (GisService.ward_tanks (snd kv))
  /\ GisService.normal_count (snd kv)
     = count_in normal (GisService.ward_tanks (snd kv))
  /\ GisService.total_capacity (snd kv)
     = sum_ints (List.map (fun t => get (capacity_liters t) 0)
                   (GisService.ward_tanks (snd kv))).

(** [ward_data] after the tanks [filed] have gone through the loop. *)
Definition wards_ok (filed : list tank) (ward_data : list (string * GisService.ward))
  : Prop :=
  NoDup (List.map fst ward_data)
  /\ Forall ward_entry_ok ward_data
  /\ sum_ints (List.map (fun kv => len (GisService.ward_tanks (snd kv))) ward_data)
     = len filed
  /\ sum_ints (List.map (fun kv => GisService.total_capacity (snd kv)) ward_data)
     = sum_ints (List.map (fun t => get (capacity_liters t) 0) filed)
  /\ Forall (fun t => exists kv, In kv ward_data /\ In t (GisService.ward_tanks (snd kv)))
       filed
  /\ Forall (fun kv => Forall (fun t => In t filed) (GisService.ward_tanks (snd kv)))
       ward_data.

(** The three values that the rule-based recommendations read off a tank,
    and the risk level that they give it: [normal] stands for a tank that
    is in neither list. *)
Definition reviewed (t : tank) : float * float * Z :=
  let readings := get (current_readings t) TankService.no_readings in
  (get (ph readings) 7.0%float, get (turbidity readings) 0%float,
   get (days_since_cleaned t) 0).

Definition reviewed_issues (t : tank) : list AiService.issue :=
  let '(ph, turbidity, days) := reviewed t in AiService.issues_of ph turbidity days.

Definition verdict (t : tank) : status :=
  let '(ph, turbidity, days) := reviewed t in
  if (2 <=? length (reviewed_issues t))%nat || PrimFloat.ltb 7 turbidity
     || PrimFloat.ltb ph 6.0 || PrimFloat.ltb 9.0 ph
  then critical
  else match reviewed_issues t with
       | [] => normal
       | _ :: _ => warning
       end.

Definition has_verdict (st : status) (t : tank) : bool :=
  TankService.status_eqb (verdict t) st.

(** The place of a float that is not a NaN in the order of the floats: its
    class (the infinities outermost, the zeros in the middle), then its
    exponent and its mantissa, negated for a negative float.  A float is no
    larger than another when its place is no later. *)
Definition place (f : spec_float) : Z * Z * Z :=
  match f with
  | S754_zero _ => (0, 0, 0)
  | S754_infinity s => (if s then -2 else 2, 0, 0)
  | S754_nan => (0, 0, 0)
  | S754_finite s m e => if s then (-1, - e, - Z.pos m) else (1, e, Z.pos m)
  end.

Definition no_later (a b : Z * Z * Z) : Prop :=
  fst (fst a) < fst (fst b)
  \/ (fst (fst a) = fst (fst b)
      /\ (snd (fst a) < snd (fst b)
          \/ (snd (fst a) = snd (fst b) /\ snd a <= snd b))).

(** An alert of a type: [a.get('type') == kind]. *)
Definition typed (kind : string) (a : alert) : bool :=
  match alert_type a with
  | Some found => String.eqb found kind
  | None => false
  end.

End Notions.

(** ** More sample data *)

Module Examples.

(** Two tanks of one ward and a third of another, as the listing returns
    them. *)
Definition listed_A : tank :=
  TankService.with_derived Samples.tank_A critical 65 (-35).

Definition listed_B : tank :=
  TankService.with_derived Samples.tank_B warning 65 (-35).

Definition listed_S : tank :=
  TankService.with_derived Samples.tank_S normal 16 14.

Definition fleet : list tank := [listed_A; listed_S; listed_B].

(** A tank whose location has no latitude, and a document of two tanks
    that the listing accepts. *)
Definition tank_L : tank :=
  {| id := "T6"; name := "Lake Intake";
     tank_location := Some (Location None (Some 56.7%float) (Some "Lake road"%string));
     capacity_liters := Some 700; current_level_percent := Some 80;
     last_cleaned := Some "2025-05-30"; next_maintenance := Some "2025-06-29";
     current_readings := Some (Readings (Some 7.1%float) (Some 2%float) (Some 19%float));
     history := None; maintenance := None; tank_status := None;
     days_since_cleaned := None; days_until_maintenance := None |}.

Definition with_lake : JsonLoader.store :=
  JsonLoader.Store (Document (Some [Samples.tank_B; tank_L]) (Some []) (Some []))
    JsonLoader.empty_dict.

Definition two_tanks : JsonLoader.store :=
  JsonLoader.Store (Document (Some [Samples.tank_A; Samples.tank_B]) (Some []) (Some []))
    JsonLoader.empty_dict.

(** users.json with two users, and a clock. *)
Definition admin : AuthService.user :=
  {| AuthService.user_id := Some "1"%string;
     AuthService.username := Some "admin"%string;
     AuthService.password := Some "admin123"%string;
     AuthService.user_name := Some "Administrator"%string;
     AuthService.role := Some "admin"%string |}.

Definition officer : AuthService.user :=
  {| AuthService.user_id := Some "2"%string;
     AuthService.username := Some "officer"%string;
     AuthService.password := Some "water"%string;
     AuthService.user_name := Some "Field Officer"%string;
     AuthService.role := Some "officer"%string |}.

Definition users_json : option (option (list AuthService.user)) :=
  Some (Some [admin; officer]).

(** 2025-06-05, 12:00:00 *)
Definition noon : AuthService.datetime :=
  AuthService.DateTime Samples.today 43200000000.

(** A document with three alerts, one of them of a type of its own. *)
Definition alert_1 : alert :=
  {| alert_id := "A1"; alert_tank_id := Some "T1"%string;
     alert_type := Some "critical"%string;
     message := Some "Turbidity above 7 NTU"%string; acknowledged := Some false |}.

Definition alert_2 : alert :=
  {| alert_id := "A2"; alert_tank_id := Some "T2"%string;
     alert_type := Some "warning"%string;
     message := Some "Cleaning overdue"%string; acknowledged := Some true |}.

Definition alert_3 : alert :=
  {| alert_id := "A3"; alert_tank_id := Some "T2"%string;
     alert_type := Some "maintenance"%string;
     message := None; acknowledged := None |}.

Definition with_alerts : JsonLoader.store :=
  JsonLoader.Store
    (Document (Some [Samples.tank_B]) (Some [Samples.entry_B])
       (Some [alert_1; alert_2; alert_3]))
    JsonLoader.empty_dict.

End Examples.

(** * Properties *)

(** ** The result monad *)

Lemma bind_Return {A B : Type} (m : result A) (f : A -> result B) (b : B) :
  m ≫= f = Return b <-> exists a, m = Return a /\ f a = Return b.
Proof.
  split.
  - destruct m as [a | e]; simpl; intros H; [eauto | discriminate].
  - intros (a & -> & H). exact H.
Qed.

Lemma ret_bind {A B : Type} (a : A) (f : A -> result B) : Return a ≫= f = f a.
Proof. reflexivity. Qed.

Lemma each_Return {A B : Type} (f : A -> result B) (l : list A) (bs : list B) :
  each f l = Return bs <-> Forall2 (fun a b => f a = Return b) l bs.
Proof.
  revert bs. induction l as [| a l IH]; intros bs; simpl.
  - split.
    + intros [= <-]. constructor.
    + intros H. inversion H. reflexivity.
  - rewrite bind_Return. split.
    + intros (b & Hb & Hrest). apply bind_Return in Hrest as (bs' & Hbs' & [= <-]).
      constructor; [exact Hb | now apply IH].
    + intros H. inversion H as [| ? b ? bs' Hb Hbs']; subst.
      exists b. split; [exact Hb |]. apply bind_Return.
      exists bs'. split; [now apply IH | reflexivity].
Qed.

Lemma each_defined {A B : Type} (f : A -> result B) (l : list A) :
  Forall (fun a => exists b, f a = Return b) l -> exists bs, each f l = Return bs.
Proof.
  induction 1 as [| a l [b Hb] _ [bs Hbs]]; simpl.
  - eauto.
  - rewrite Hb. simpl. rewrite Hbs. simpl. eauto.
Qed.

(** ** Floats: comparisons with the thresholds *)

Section FloatOrder.

Import SpecFloat.

Lemma SFltb_lower_bound (m1 m2 : positive) (e : Z) (x : spec_float) :
  (m1 < m2)%positive ->
  SFltb (S754_finite false m2 e) x = true ->
  SFltb (S754_finite false m1 e) x = true.
Proof.
  intros Hm. unfold SFltb.
  destruct x as [s | s | | s m ex]; simpl; try done.
  destruct s; try done.
  destruct (e ?= ex) eqn:He; try done.
  change (Pos.compare_cont Eq m2 m) with (m2 ?= m)%positive.
  change (Pos.compare_cont Eq m1 m) with (m1 ?= m)%positive.
  destruct (m2 ?= m)%positive eqn:H2; try done.
  apply Pos.compare_lt_iff in H2.
  assert (m1 < m)%positive as H1 by (eapply Pos.lt_trans; eassumption).
  apply Pos.compare_lt_iff in H1. now rewrite H1.
Qed.

Lemma SFltb_upper_bound (m1 m2 : positive) (e : Z) (x : spec_float) :
  (m1 < m2)%positive ->
  SFltb x (S754_finite false m1 e) = true ->
  SFltb x (S754_finite false m2 e) = true.
Proof.
  intros Hm. unfold SFltb.
  destruct x as [s | s | | s m ex]; simpl; try done.
  destruct s; try done.
  destruct (ex ?= e) eqn:He; try done.
  change (Pos.compare_cont Eq m m2) with (m ?= m2)%positive.
  change (Pos.compare_cont Eq m m1) with (m ?= m1)%positive.
  destruct (m ?= m1)%positive eqn:H1; try done.
  apply Pos.compare_lt_iff in H1.
  assert (m < m2)%positive as H2 by (eapply Pos.lt_trans; eassumption).
  apply Pos.compare_lt_iff in H2. now rewrite H2.
Qed.

End FloatOrder.

Lemma above_7_above_5 (x : float) : PrimFloat.ltb 7 x = true -> PrimFloat.ltb 5 x = true.
Proof.
  rewrite !FloatAxioms.ltb_spec.
  change (Prim2SF 7) with (S754_finite false 7881299347898368 (-50)).
  change (Prim2SF 5) with (S754_finite false 5629499534213120 (-50)).
  now apply SFltb_lower_bound.
Qed.

Lemma above_9_above_8_5 (x : float) : PrimFloat.ltb 9.0 x = true -> PrimFloat.ltb 8.5 x = true.
Proof.
  rewrite !FloatAxioms.ltb_spec.
  change (Prim2SF 9.0) with (S754_finite false 5066549580791808 (-49)).
  change (Prim2SF 8.5) with (S754_finite false 4785074604081152 (-49)).
  now apply SFltb_lower_bound.
Qed.

Lemma below_6_below_6_5 (x : float) : PrimFloat.ltb x 6.0 = true -> PrimFloat.ltb x 6.5 = true.
Proof.
  rewrite !FloatAxioms.ltb_spec.
  change (Prim2SF 6.0) with (S754_finite false 6755399441055744 (-50)).
  change (Prim2SF 6.5) with (S754_finite false 7318349394477056 (-50)).
  now apply SFltb_upper_bound.
Qed.

(** ** The status classifier *)

(** The nested tests of the code and the threshold table of the
    specification give the same status. *)
Lemma classify_by_thresholds (ph turbidity : float) (days : Z) :
  TankService.classify ph turbidity days = Spec.status_by_thresholds ph turbidity days.
Proof.
  unfold TankService.classify, Spec.status_by_thresholds.
  pose proof (above_7_above_5 turbidity) as Ht.
  pose proof (above_9_above_8_5 ph) as Hhi.
  pose proof (below_6_below_6_5 ph) as Hlo.
  assert ((60 <? days) = true -> (30 <? days) = true) as Hd
    by (rewrite !Z.ltb_lt; lia).
  destruct (PrimFloat.ltb 7 turbidity), (PrimFloat.ltb 5 turbidity),
    (PrimFloat.ltb ph 6.0), (PrimFloat.ltb ph 6.5),
    (PrimFloat.ltb 9.0 ph), (PrimFloat.ltb 8.5 ph),
    (60 <? days), (30 <? days); simpl; try reflexivity;
    try (discriminate (Ht eq_refl)); try (discriminate (Hhi eq_refl));
    try (discriminate (Hlo eq_refl)); try (discriminate (Hd eq_refl)).
Qed.

(** C1.  For every tank, the status is one of normal, warning, critical
    and is a function of the pH, the turbidity and the days since cleaning
    alone (absent readings count as pH 7.0 and turbidity 0; the days are
    those from last_cleaned to today): critical if turbidity > 7, pH < 6.0,
    pH > 9.0 or days > 60; else warning if pH is outside [6.5, 8.5],
    turbidity > 5 or days > 30; else normal.  The boundary values 6.5, 6.49,
    8.5, 8.51 (pH), 5, 5.01, 7, 7.01 (turbidity) and 30, 31, 60, 61 (days)
    are each decided. *)
Theorem status_classifier_thresholds (t : tank) (today : Calendar.date) :
  let readings := get (current_readings t) TankService.no_readings in
  let by_thresholds :=
    Spec.status_by_thresholds (get (ph readings) 7.0%float)
      (get (turbidity readings) 0%float) in
  TankService.get_tank_status t today
  = by_thresholds
      <$> TankService.calculate_days_since_cleaned (get (last_cleaned t) "2024-01-01") today
  /\ (forall cleaned,
        Calendar.strptime (get (last_cleaned t) "2024-01-01") = Return cleaned ->
        TankService.get_tank_status t today
        = Return (by_thresholds (Calendar.days_between today cleaned)))
  /\ (TankService.classify 6.5 0 0 = normal
      /\ TankService.classify 6.49 0 0 = warning
      /\ TankService.classify 8.5 0 0 = normal
      /\ TankService.classify 8.51 0 0 = warning)
  /\ (TankService.classify 7.0 5 0 = normal
      /\ TankService.classify 7.0 5.01 0 = warning
      /\ TankService.classify 7.0 7 0 = warning
      /\ TankService.classify 7.0 7.01 0 = critical)
  /\ (TankService.classify 7.0 0 30 = normal
      /\ TankService.classify 7.0 0 31 = warning
      /\ TankService.classify 7.0 0 60 = warning
      /\ TankService.classify 7.0 0 61 = critical).
Proof.
  intros readings by_thresholds.
  assert (TankService.get_tank_status t today
          = by_thresholds
              <$> TankService.calculate_days_since_cleaned
                    (get (last_cleaned t) "2024-01-01") today) as Hstatus.
  { unfold TankService.get_tank_status. fold readings.
    destruct (TankService.calculate_days_since_cleaned _ today) as [days |];
      [| reflexivity].
    simpl. f_equal. apply classify_by_thresholds. }
  split; [exact Hstatus |]. split.
  - intros cleaned Hdate. rewrite Hstatus.
    unfold TankService.calculate_days_since_cleaned. now rewrite Hdate.
  - repeat split; reflexivity.
Qed.

Lemma status_classifier_thresholds_witness :
  TankService.get_tank_status Samples.tank_A Samples.today = Return critical.
Proof.
  exact (proj1 (proj2 (status_classifier_thresholds Samples.tank_A Samples.today))
           (Calendar.Date 2025 4 1) eq_refl).
Defined.

(** ** Rounding keeps small products finite *)

Section Rounding.

Import SpecFloat.

Lemma digits2_size (p : positive) : digits2_pos p = Pos.size p.
Proof. induction p; simpl; congruence. Qed.

Lemma digits2_succ (p : positive) :
  Z.pos (digits2_pos (Pos.succ p)) <= Z.pos (digits2_pos p) + 1.
Proof. induction p; simpl; lia. Qed.

Lemma digits2_upper (p : positive) : Z.pos p < 2 ^ Z.pos (digits2_pos p).
Proof.
  rewrite digits2_size. pose proof (Pos.size_gt p) as H.
  apply Pos2Z.pos_lt_pos in H. now rewrite Pos2Z.inj_pow in H.
Qed.

Lemma digits2_lower (p : positive) : 2 ^ (Z.pos (digits2_pos p) - 1) <= Z.pos p.
Proof.
  rewrite digits2_size. pose proof (Pos.size_le p) as H.
  apply Pos2Z.pos_le_pos in H. rewrite Pos2Z.inj_pow in H.
  replace (Z.pos (Pos.size p)) with (Z.succ (Z.pos (Pos.size p) - 1)) in H by lia.
  rewrite Z.pow_succ_r in H by lia. lia.
Qed.

Lemma digits2_mul (p q : positive) :
  Z.pos (digits2_pos (p * q)) <= Z.pos (digits2_pos p) + Z.pos (digits2_pos q).
Proof.
  pose proof (digits2_upper p) as Hp. pose proof (digits2_upper q) as Hq.
  pose proof (digits2_lower (p * q)) as Hpq.
  assert (Z.pos (p * q) < 2 ^ (Z.pos (digits2_pos p) + Z.pos (digits2_pos q))) as Hlt.
  { rewrite Z.pow_add_r, Pos2Z.inj_mul by lia. nia. }
  destruct (Z.le_gt_cases (Z.pos (digits2_pos (p * q)))
              (Z.pos (digits2_pos p) + Z.pos (digits2_pos q))) as [Hle | Hgt];
    [exact Hle |].
  assert (2 ^ (Z.pos (digits2_pos p) + Z.pos (digits2_pos q))
          <= 2 ^ (Z.pos (digits2_pos (p * q)) - 1)) by (apply Z.pow_le_mono_r; lia).
  lia.
Qed.

Lemma digits2_iter_xO (m d : positive) :
  Z.pos (digits2_pos (Pos.iter xO m d)) = Z.pos (digits2_pos m) + Z.pos d.
Proof.
  induction d as [| d IH] using Pos.peano_ind.
  - simpl. lia.
  - rewrite Pos.iter_succ. simpl. lia.
Qed.

(** One shift to the right drops one digit and keeps what is left
    non-negative. *)
Lemma shr_1_digits (mrs : shr_record) :
  0 <= shr_m mrs ->
  0 <= shr_m (shr_1 mrs)
  /\ Zdigits2 (shr_m (shr_1 mrs)) = Z.max 0 (Zdigits2 (shr_m mrs) - 1).
Proof.
  destruct mrs as [m r s]. simpl. intros Hm.
  destruct m as [| [p | p |] | p]; simpl; lia.
Qed.

Lemma iter_shr_1_digits (k : positive) (mrs : shr_record) :
  0 <= shr_m mrs ->
  0 <= shr_m (iter_pos shr_1 k mrs)
  /\ Zdigits2 (shr_m (iter_pos shr_1 k mrs)) = Z.max 0 (Zdigits2 (shr_m mrs) - Z.pos k).
Proof.
  revert mrs. induction k as [k IH | k IH |]; intros mrs Hm; simpl.
  - destruct (shr_1_digits mrs Hm) as [H1 D1].
    destruct (IH _ H1) as [H2 D2]. destruct (IH _ H2) as [H3 D3].
    split; [exact H3 |]. rewrite D3, D2, D1. lia.
  - destruct (IH _ Hm) as [H2 D2]. destruct (IH _ H2) as [H3 D3].
    split; [exact H3 |]. rewrite D3, D2. lia.
  - now apply shr_1_digits.
Qed.

Lemma Zdigits2_nonneg (m : Z) : 0 <= Zdigits2 m.
Proof. destruct m; simpl; lia. Qed.

(** What [shr_fexp] gives on a non-negative mantissa: the magnitude
    [digits + exponent] does not grow beyond the least exponent, and the
    exponent is the one of the format. *)
Lemma shr_fexp_bounds (m e : Z) (l : location) (mrs' : shr_record) (e' : Z) :
  0 <= m ->
  shr_fexp prec emax m e l = (mrs', e') ->
  0 <= shr_m mrs'
  /\ e' = Z.max e (fexp prec emax (Zdigits2 m + e))
  /\ Zdigits2 (shr_m mrs') + e' <= Z.max (Zdigits2 m + e) (fexp prec emax (Zdigits2 m + e)).
Proof.
  intros Hm. unfold shr_fexp, shr.
  assert (shr_m (shr_record_of_loc m l) = m) as Hrec by (destruct l as [| []]; reflexivity).
  pose proof (Zdigits2_nonneg m) as Hd.
  destruct (fexp prec emax (Zdigits2 m + e) - e) as [| k | k] eqn:Hk;
    intros [= <- <-]; rewrite ?Hrec.
  - split_and!; lia.
  - destruct (iter_shr_1_digits k (shr_record_of_loc m l)) as [H1 D1];
      [now rewrite Hrec |].
    rewrite Hrec in D1. rewrite D1. split_and!; lia.
  - split_and!; lia.
Qed.

Lemma round_nearest_even_bounds (m : Z) (l : location) :
  0 <= m ->
  0 <= round_nearest_even m l
  /\ Zdigits2 (round_nearest_even m l) <= Zdigits2 m + 1.
Proof.
  intros Hm.
  assert (0 <= m + 1 /\ Zdigits2 (m + 1) <= Zdigits2 m + 1) as Hsucc.
  { destruct m as [| p | p]; [simpl; lia | | lia].
    replace (Z.pos p + 1) with (Z.pos (Pos.succ p)) by lia.
    split; [lia |]. apply digits2_succ. }
  unfold round_nearest_even.
  destruct l as [| []]; try (split; lia); try exact Hsucc.
  destruct (Z.even m); [split; lia | exact Hsucc].
Qed.

Lemma binary_round_aux_below (s : bool) (m e : Z) (l : location) (B : Z) :
  0 <= m -> Zdigits2 m + e <= B -> e <= 971 -> B <= 1023 ->
  below (Z.max B (-1074) + 1) (binary_round_aux prec emax s m e l).
Proof.
  intros Hm HB He HB'. unfold binary_round_aux.
  destruct (shr_fexp prec emax m e l) as [mrs' e'] eqn:H1.
  apply shr_fexp_bounds in H1 as (Hm' & He' & HD'); [| exact Hm].
  destruct (round_nearest_even_bounds (shr_m mrs') (loc_of_shr_record mrs') Hm')
    as [Hr HDr].
  destruct (shr_fexp prec emax _ e' loc_Exact) as [mrs'' e''] eqn:H2.
  apply shr_fexp_bounds in H2 as (Hm'' & He'' & HD''); [| exact Hr].
  unfold fexp, SpecFloat.emin, prec, emax in *.
  destruct (shr_m mrs'') as [| p | p] eqn:Hp; simpl; [exact I | | lia].
  simpl in HD''.
  destruct (Z.leb_spec e'' (1024 - 53)) as [Hfin | Hinf]; simpl; lia.
Qed.

Lemma binary_normalize_below (z e B : Z) :
  Zdigits2 z + e <= B -> e <= 971 -> B <= 1023 ->
  below (Z.max B (-1074) + 1) (binary_normalize prec emax z e false).
Proof.
  intros HB He HB'.
  assert (forall s p, Z.pos (digits2_pos p) + e <= B ->
            below (Z.max B (-1074) + 1) (binary_round prec emax s p e)) as Hround.
  { intros s p Hp. unfold binary_round, shl_align.
    destruct (fexp prec emax (Z.pos (digits2_pos p) + e) - e) as [| d | d] eqn:Hd;
      apply binary_round_aux_below; simpl; try lia.
    rewrite digits2_iter_xO. lia. }
  destruct z as [| p | p]; simpl in *; [exact I | now apply Hround ..].
Qed.

(** The product of two floats of bounded magnitude is finite. *)
Lemma mul_below (x y : float) (Bx By : Z) :
  below Bx (Prim2SF x) -> below By (Prim2SF y) -> Bx + By <= 973 ->
  below (Z.max (Bx + By) (-1074) + 1) (Prim2SF (x * y)).
Proof.
  rewrite mul_spec. unfold SF64mul, SFmul.
  destruct (Prim2SF x) as [sx | sx | | sx mx ex], (Prim2SF y) as [sy | sy | | sy my ey];
    simpl; try tauto.
  intros Hx Hy HB. apply binary_round_aux_below; simpl; try lia.
  pose proof (digits2_mul mx my). lia.
Qed.

(** An int below 2^63 converts, to a float of bounded magnitude. *)
Lemma float_of_int_small (z : Z) :
  0 <= z < 2 ^ 63 ->
  exists c, float_of_int z = Return c /\ below 64 (Prim2SF c).
Proof.
  intros Hz.
  assert (binary_normalize prec emax z 0 false
          = Prim2SF (of_uint63 (Uint63.of_Z z))) as Hprim.
  { rewrite of_uint63_spec. f_equal.
    change Uint63Axioms.to_Z with Uint63.to_Z.
    rewrite Uint63.of_Z_spec. symmetry. apply Z.mod_small.
    change Uint63.wB with (2 ^ 63). lia. }
  assert (below 64 (binary_normalize prec emax z 0 false)) as Hbelow.
  { apply (binary_normalize_below z 0 63); try lia.
    destruct z as [| p | p]; simpl; [lia | | lia].
    pose proof (digits2_lower p) as Hp.
    destruct (Z.le_gt_cases (Z.pos (digits2_pos p)) 63) as [Hle | Hgt]; [lia |].
    assert (2 ^ 63 <= 2 ^ (Z.pos (digits2_pos p) - 1)) by (apply Z.pow_le_mono_r; lia).
    lia. }
  unfold float_of_int. rewrite Hprim in *.
  exists (of_uint63 (Uint63.of_Z z)). split; [| exact Hbelow].
  destruct (Prim2SF (of_uint63 (Uint63.of_Z z))) eqn:Hf; simpl in Hbelow; try tauto;
    rewrite <- Hf, SF2Prim_Prim2SF; reflexivity.
Qed.

Lemma below_weaken (B B' : Z) (x : spec_float) : below B x -> B <= B' -> below B' x.
Proof. destruct x; simpl; (tauto || lia). Qed.

Lemma Zdigits2_below (v k : Z) : 0 <= v < 2 ^ k -> 0 <= k -> Zdigits2 v <= k.
Proof.
  intros [Hlo Hhi] Hk. destruct v as [| p | p]; simpl; [lia | | lia].
  pose proof (digits2_lower p) as Hp.
  destruct (Z.le_gt_cases (Z.pos (digits2_pos p)) k) as [Hle | Hgt]; [exact Hle |].
  assert (2 ^ k <= 2 ^ (Z.pos (digits2_pos p) - 1)) by (apply Z.pow_le_mono_r; lia).
  lia.
Qed.

(** The quotient of two ints is finite when the dividend is below 2^1000. *)
Lemma SFdiv_ints_below (s1 s2 : bool) (m1 m2 : positive) :
  Z.pos (digits2_pos m1) <= 1000 ->
  below 1001 (SFdiv prec emax (S754_finite s1 m1 0) (S754_finite s2 m2 0)).
Proof.
  intros Hm1. unfold SFdiv, SFdiv_core_binary.
  set (d1 := Zdigits2 (Z.pos m1)). set (d2 := Zdigits2 (Z.pos m2)).
  set (e' := Z.min (fexp prec emax (d1 + 0 - (d2 + 0))) (0 - 0)).
  change (below 1001
            (let '(mz, ez, lz) :=
               let '(q, r) := Z.div_eucl
                                match 0 - 0 - e' with
                                | 0 => Z.pos m1
                                | Z.pos _ => Z.shiftl (Z.pos m1) (0 - 0 - e')
                                | Z.neg _ => 0
                                end (Z.pos m2) in
               (q, e', new_location (Z.pos m2) r) in
             binary_round_aux prec emax (xorb s1 s2) mz ez lz)).
  assert (e' <= 0) as He' by (subst e'; lia).
  set (m' := match 0 - 0 - e' with
             | 0 => Z.pos m1
             | Z.pos _ => Z.shiftl (Z.pos m1) (0 - 0 - e')
             | Z.neg _ => 0
             end).
  assert (m' = Z.pos m1 * 2 ^ (- e')) as Hm'.
  { subst m'. destruct (0 - 0 - e') as [| k | k] eqn:Hk; [| | lia].
    - replace (- e') with 0 by lia. simpl. lia.
    - rewrite Z.shiftl_mul_pow2 by lia. f_equal. f_equal. lia. }
  pose proof (Z.div_eucl_eq m' (Z.pos m2) ltac:(lia)) as Heucl.
  pose proof (Z.mod_pos_bound m' (Z.pos m2) ltac:(lia)) as Hmod.
  unfold Z.modulo in Hmod.
  destruct (Z.div_eucl m' (Z.pos m2)) as [q r].
  assert (0 < 2 ^ (- e')) as Hpow by (apply Z.pow_pos_nonneg; lia).
  assert (0 <= q <= m') as Hq by nia.
  apply (below_weaken (Z.max 1000 (-1074) + 1)); [| lia].
  apply binary_round_aux_below; try lia.
  apply (Z.le_trans _ ((d1 - e') + e')); [| subst d1; simpl; lia].
  apply Z.add_le_mono_r, Zdigits2_below; [| subst d1; simpl; lia].
  split; [lia |].
  apply (Z.le_lt_trans _ m'); [lia |]. rewrite Hm'.
  pose proof (digits2_upper m1) as Hup. subst d1. simpl.
  replace (Z.pos (digits2_pos m1) - e') with (Z.pos (digits2_pos m1) + - e') by lia.
  rewrite Z.pow_add_r by lia. nia.
Qed.

(** [a / b] on ints returns unless [b] is zero or [a] is astronomical. *)
Lemma int_true_div_defined (a b : Z) :
  b <> 0 -> Z.abs a < 2 ^ 1000 -> exists x, int_true_div a b = Return x.
Proof.
  intros Hb Ha. unfold int_true_div.
  assert (forall s1 s2,
            exists x,
              match SFdiv prec emax (S754_finite s1 (Z.to_pos (Z.abs a)) 0)
                      (S754_finite s2 (Z.to_pos (Z.abs b)) 0) with
              | S754_infinity _ => Raise OverflowError
              | r => Return (SF2Prim r)
              end = Return x) as Hdiv.
  { intros s1 s2.
    destruct (Z.eq_dec a 0) as [-> | Hnz].
    - pose proof (SFdiv_ints_below s1 s2 1 (Z.to_pos (Z.abs b)) ltac:(simpl; lia)) as H.
      simpl Z.abs. simpl Z.to_pos.
      destruct (SFdiv _ _ _ _); simpl in H; try tauto; eauto.
    - assert (Z.pos (digits2_pos (Z.to_pos (Z.abs a))) <= 1000) as Hd.
      { apply (Zdigits2_below (Z.pos (Z.to_pos (Z.abs a))) 1000); lia. }
      pose proof (SFdiv_ints_below s1 s2 _ (Z.to_pos (Z.abs b)) Hd) as H.
      destruct (SFdiv _ _ _ _); simpl in H; try tauto; eauto. }
  destruct a as [| p | p], b as [| q | q]; try (now destruct Hb); eauto; apply Hdiv.
Qed.

(** [int(x)] returns on a float of bounded magnitude. *)
Lemma int_of_float_below (x : float) (B : Z) :
  below B (Prim2SF x) -> exists z, int_of_float x = Return z.
Proof.
  unfold int_of_float. destruct (Prim2SF x); simpl; (tauto || eauto).
Qed.

(** A float no larger in absolute value than a positive finite one is of
    bounded magnitude. *)
Lemma leb_abs_below (x bound : float) (m : positive) (e : Z) :
  Prim2SF bound = S754_finite false m e ->
  PrimFloat.leb (PrimFloat.abs x) bound = true ->
  below (53 + e) (Prim2SF x).
Proof.
  intros Hbound. rewrite FloatAxioms.leb_spec, FloatAxioms.abs_spec, Hbound.
  pose proof (Prim2SF_valid x) as Hvalid.
  destruct (Prim2SF x) as [s | s | | s mx ex]; simpl; try discriminate; [tauto |].
  unfold SFleb. simpl. intros Hle.
  simpl in Hvalid. unfold bounded, canonical_mantissa, fexp in Hvalid.
  apply andb_prop in Hvalid as [Hcanon _].
  change ((Z.max (Z.pos (digits2_pos mx) + ex - 53) (-1074) =? ex) = true) in Hcanon.
  apply Z.eqb_eq in Hcanon.
  destruct (ex ?= e) eqn:Hcmp; try discriminate.
  - apply Z.compare_eq in Hcmp. lia.
  - change (ex < e) in Hcmp. lia.
Qed.

End Rounding.

(** ** The calendar: a date plus [n] days is [n] days later *)

Section CalendarArithmetic.

Import Calendar.

Lemma all_from_spec (P : Z -> bool) (fuel : nat) (start : Z) :
  all_from P start fuel = true ->
  forall z, start <= z < start + Z.of_nat fuel -> P z = true.
Proof.
  revert start. induction fuel as [| k IH]; intros start H z Hz; [lia |].
  simpl in H. apply andb_prop in H as [Hstart Hrest].
  destruct (Z.eq_dec z start) as [-> | Hne]; [exact Hstart |].
  apply (IH (start + 1) Hrest). lia.
Qed.

(** Every day of one 400-year cycle, by evaluation. *)
Lemma first_cycle (o : Z) : 1 <= o <= DI400Y -> toordinal (ord2ymd o) = o.
Proof.
  intros Ho. apply Z.eqb_eq.
  apply (all_from_spec (fun z => toordinal (ord2ymd z) =? z) (Z.to_nat DI400Y) 1).
  - vm_compute. reflexivity.
  - rewrite Z2Nat.id by (unfold DI400Y; lia). lia.
Qed.

Lemma is_leap_shift (y q : Z) : is_leap (y + 400 * q) = is_leap y.
Proof.
  unfold is_leap.
  replace (y + 400 * q) with (y + (100 * q) * 4) at 1 by lia.
  replace (y + 400 * q) with (y + (4 * q) * 100) at 1 by lia.
  replace (y + 400 * q) with (y + q * 400) by lia.
  now rewrite !Z_mod_plus_full.
Qed.

Lemma days_before_year_shift (y q : Z) :
  days_before_year (y + 400 * q) = days_before_year y + DI400Y * q.
Proof.
  unfold days_before_year, DI400Y. cbv zeta.
  replace (y + 400 * q - 1) with (y - 1 + (100 * q) * 4) at 2 by lia.
  replace (y + 400 * q - 1) with (y - 1 + (4 * q) * 100) at 2 by lia.
  replace (y + 400 * q - 1) with (y - 1 + q * 400) at 2 by lia.
  rewrite !Z.div_add by lia. lia.
Qed.

Lemma toordinal_shift (y m d q : Z) :
  toordinal (Date (y + 400 * q) m d) = toordinal (Date y m d) + DI400Y * q.
Proof.
  unfold toordinal, ymd2ord, days_before_month. simpl.
  rewrite days_before_year_shift, is_leap_shift. lia.
Qed.

Lemma ord2ymd_shift (o q : Z) :
  1 <= o <= DI400Y ->
  ord2ymd (o + DI400Y * q)
  = Date (year (ord2ymd o) + 400 * q) (month (ord2ymd o)) (day (ord2ymd o)).
Proof.
  intros Ho. unfold ord2ymd. cbv zeta.
  replace (o + DI400Y * q - 1) with (o - 1 + q * DI400Y) by lia.
  rewrite Z.div_add, Z_mod_plus_full by (unfold DI400Y; lia).
  rewrite (Z.div_small (o - 1) DI400Y), (Z.mod_small (o - 1) DI400Y) by lia.
  set (n := o - 1).
  destruct ((n mod DI100Y mod DI4Y / 365 =? 4) || (n / DI100Y =? 4)); simpl.
  - f_equal. lia.
  - destruct (_ <? _); simpl; f_equal; lia.
Qed.

(** The date of an ordinal has that ordinal. *)
Lemma toordinal_ord2ymd (o : Z) : 1 <= o -> toordinal (ord2ymd o) = o.
Proof.
  intros Ho.
  pose proof (Z.div_mod (o - 1) DI400Y ltac:(unfold DI400Y; lia)) as Hdm.
  pose proof (Z.mod_pos_bound (o - 1) DI400Y ltac:(unfold DI400Y; lia)) as Hr.
  set (q := (o - 1) / DI400Y) in *. set (r := (o - 1) mod DI400Y) in *.
  replace o with (r + 1 + DI400Y * q) by lia.
  rewrite ord2ymd_shift by lia.
  destruct (ord2ymd (r + 1)) as [y m d] eqn:Hdate. simpl.
  rewrite toordinal_shift, <- Hdate, first_cycle by lia. reflexivity.
Qed.

(** [d + timedelta(days=n)] is the date [n] days after [d]. *)
Lemma add_days_later (d next : date) (n : Z) :
  add_days d n = Return next -> days_between next d = n.
Proof.
  unfold add_days, days_between.
  destruct (0 <? toordinal d + n) eqn:Hpos; simpl; [| discriminate].
  destruct (_ <=? _); [| discriminate]. intros [= <-].
  apply Z.ltb_lt in Hpos. rewrite toordinal_ord2ymd by lia. lia.
Qed.

End CalendarArithmetic.

(** ** Dates that are written and read *)

Section WrittenDates.

Import Calendar.

Lemma digit_of_digit_char (v : Z) : digit_of (digit_char v) = Some (v mod 10).
Proof.
  unfold digit_char.
  pose proof (Z.mod_pos_bound v 10 ltac:(lia)) as Hr.
  set (r := v mod 10) in *. clearbody r.
  assert (r = 0 \/ r = 1 \/ r = 2 \/ r = 3 \/ r = 4 \/ r = 5 \/ r = 6 \/ r = 7
          \/ r = 8 \/ r = 9) as Hcases by lia.
  repeat (destruct Hcases as [-> | Hcases]; [reflexivity |]). now subst.
Qed.

Lemma four_digits (y : Z) :
  0 <= y <= 9999 ->
  (y / 1000) mod 10 * 1000 + (y / 100) mod 10 * 100 + (y / 10) mod 10 * 10 + y mod 10 = y.
Proof.
  intros Hy. apply Z.eqb_eq.
  apply (all_from_spec
           (fun y => (y / 1000) mod 10 * 1000 + (y / 100) mod 10 * 100
                     + (y / 10) mod 10 * 10 + y mod 10 =? y) (Z.to_nat 10000) 0).
  - vm_compute. reflexivity.
  - rewrite Z2Nat.id; lia.
Qed.

(** A year of four digits: the text that [strftime] writes for a date is
    parsed as the fields of that date. *)
Lemma strptime_strftime (y m d : Z) :
  1000 <= y <= 9999 -> 1 <= m <= 12 -> 1 <= d <= 31 ->
  strptime (strftime (Date y m d)) = make_date y m d.
Proof.
  intros Hy Hm Hd.
  unfold strptime, match_ymd, strftime, write_year, match_year. cbn [year month day].
  destruct (Z.ltb_spec y 10); [lia |].
  destruct (Z.ltb_spec y 100); [lia |].
  destruct (Z.ltb_spec y 1000); [lia |].
  rewrite !digit_of_digit_char, four_digits by lia.
  cbn [match_hyphen].
  assert (m = 1 \/ m = 2 \/ m = 3 \/ m = 4 \/ m = 5 \/ m = 6 \/ m = 7 \/ m = 8
          \/ m = 9 \/ m = 10 \/ m = 11 \/ m = 12) as Hmonths by lia.
  assert (d = 1 \/ d = 2 \/ d = 3 \/ d = 4 \/ d = 5 \/ d = 6 \/ d = 7 \/ d = 8
          \/ d = 9 \/ d = 10 \/ d = 11 \/ d = 12 \/ d = 13 \/ d = 14 \/ d = 15
          \/ d = 16 \/ d = 17 \/ d = 18 \/ d = 19 \/ d = 20 \/ d = 21 \/ d = 22
          \/ d = 23 \/ d = 24 \/ d = 25 \/ d = 26 \/ d = 27 \/ d = 28 \/ d = 29
          \/ d = 30 \/ d = 31) as Hdays by lia.
  clear - Hmonths Hdays. revert Hdays. generalize y. clear y. intros y Hdays.
  repeat (destruct Hmonths as [-> | Hmonths]);
    try subst m;
    repeat (destruct Hdays as [-> | Hdays]; [reflexivity |]); subst d; reflexivity.
Qed.

(** A year of fewer digits: the text has a hyphen where the pattern asks
    for the fourth digit of the year at the latest, and is refused. *)
Lemma strptime_short_year (y m d : Z) :
  y < 1000 -> strptime (strftime (Date y m d)) = Raise ValueError.
Proof.
  intros Hy.
  unfold strptime, match_ymd, strftime, write_year, match_year. cbn [year month day].
  destruct (Z.ltb_spec y 1000); [| lia].
  destruct (y <? 10), (y <? 100); rewrite !digit_of_digit_char; reflexivity.
Qed.

(** Every day of one 400-year cycle is a date of the calendar, by
    evaluation; year 200 of the cycle begins with day 72684. *)
Lemma cycle_dates (o : Z) :
  1 <= o <= DI400Y ->
  1 <= year (ord2ymd o) <= 400
  /\ (o <= 145731 -> year (ord2ymd o) <= 399)
  /\ (72684 <= o -> 200 <= year (ord2ymd o))
  /\ (o < 72684 -> year (ord2ymd o) < 200)
  /\ 1 <= month (ord2ymd o) <= 12
  /\ 1 <= day (ord2ymd o) <= days_in_month (year (ord2ymd o)) (month (ord2ymd o)).
Proof.
  intros Ho.
  pose proof
    (all_from_spec
       (fun z =>
          let d := ord2ymd z in
          (1 <=? year d) && (year d <=? 400)
          && ((145731 <? z) || (year d <=? 399))
          && ((z <? 72684) || (200 <=? year d))
          && ((72684 <=? z) || (year d <? 200))
          && (1 <=? month d) && (month d <=? 12)
          && (1 <=? day d) && (day d <=? days_in_month (year d) (month d)))
       (Z.to_nat DI400Y) 1 ltac:(vm_compute; reflexivity) o) as Hcheck.
  rewrite Z2Nat.id in Hcheck by (unfold DI400Y; lia).
  specialize (Hcheck ltac:(lia)). cbv zeta in Hcheck.
  repeat (apply andb_prop in Hcheck as [Hcheck ?]).
  repeat match goal with
         | H : (_ || _) = true |- _ => apply orb_prop in H
         end.
  lia.
Qed.

Lemma days_in_month_shift (y m q : Z) : days_in_month (y + 400 * q) m = days_in_month y m.
Proof. unfold days_in_month. now rewrite is_leap_shift. Qed.

Lemma days_in_month_bound (y m : Z) : days_in_month y m <= 31.
Proof.
  unfold days_in_month, DAYS_IN_MONTH.
  destruct (_ && _); [lia |].
  destruct m as [| p | p]; try lia.
  do 4 (destruct p as [p | p |]; try lia).
Qed.

(** The date of an ordinal of the calendar passes the checks of the
    constructor; its year has four digits from 1000-01-01 on, the day of
    ordinal 364878. *)
Lemma ord2ymd_valid (o : Z) :
  1 <= o <= MAXORDINAL ->
  make_date (year (ord2ymd o)) (month (ord2ymd o)) (day (ord2ymd o))
  = Return (ord2ymd o)
  /\ day (ord2ymd o) <= 31
  /\ (364878 <= o <-> 1000 <= year (ord2ymd o)).
Proof.
  intros Ho. unfold MAXORDINAL in Ho.
  pose proof (Z.div_mod (o - 1) DI400Y ltac:(unfold DI400Y; lia)) as Hdm.
  pose proof (Z.mod_pos_bound (o - 1) DI400Y ltac:(unfold DI400Y; lia)) as Hr.
  set (q := (o - 1) / DI400Y) in *. set (r := (o - 1) mod DI400Y) in *.
  clearbody q r. unfold DI400Y in *.
  assert (o = r + 1 + DI400Y * q) as -> by (unfold DI400Y; lia).
  rewrite ord2ymd_shift by (unfold DI400Y; lia).
  destruct (cycle_dates (r + 1) ltac:(unfold DI400Y; lia))
    as (Hy & Hy' & Hfrom & Hbefore & Hm & Hd).
  cbn [year month day].
  pose proof (days_in_month_bound (year (ord2ymd (r + 1))) (month (ord2ymd (r + 1)))).
  assert (0 <= q <= 24) as Hq by lia.
  split; [| split; [lia |]].
  - unfold make_date, MINYEAR, MAXYEAR. rewrite days_in_month_shift.
    assert (q = 24 -> r + 1 <= 145731) as Hlast by lia.
    repeat (match goal with
            | |- context [?a <=? ?b] =>
                rewrite (proj2 (Z.leb_le a b)) by lia
            end).
    reflexivity.
  - unfold DI400Y. lia.
Qed.

(** The text written for a date that [add_days] gave is read back as that
    date when its year has four digits, and is refused when it has
    fewer. *)
Lemma add_days_read_back (d next : date) (n : Z) :
  add_days d n = Return next ->
  (1000 <= year next -> strptime (strftime next) = Return next)
  /\ (year next < 1000 -> strptime (strftime next) = Raise ValueError)
  /\ (toordinal (Date 1000 1 1) <= toordinal d + n <-> 1000 <= year next).
Proof.
  unfold add_days. intros Hnext.
  destruct (0 <? _) eqn:Hlow; simpl in Hnext; [| discriminate].
  destruct (_ <=? _) eqn:Hhigh; [| discriminate].
  injection Hnext as <-.
  apply Z.ltb_lt in Hlow. apply Z.leb_le in Hhigh.
  set (o := toordinal d + n) in *.
  destruct (ord2ymd_valid o ltac:(lia)) as (Hvalid & Hday & Hyear).
  change (toordinal (Date 1000 1 1)) with 364878.
  destruct (ord2ymd o) as [y m dd] eqn:Hdate.
  cbn [year month day] in *.
  split; [| split; [| exact Hyear]].
  - intros Hy. rewrite <- Hvalid.
    unfold make_date, MINYEAR, MAXYEAR in Hvalid.
    destruct (_ && _) eqn:Hchecks in Hvalid; [| discriminate].
    repeat (apply andb_prop in Hchecks as [Hchecks ?]).
    apply strptime_strftime; lia.
  - apply strptime_short_year.
Qed.

End WrittenDates.

(** ** The demand forecast *)

Section DemandForecast.

Import Calendar AiPredictionService.

Lemma forecast_day_Return (avg : float) (now : date) (i : Z) (d : daily_forecast) :
  forecast_day avg now i = Return d ->
  f_day d = i + 1
  /\ int_of_float (avg * day_multiplier i) = Return (predicted_demand_liters d).
Proof.
  unfold forecast_day. intros H.
  apply bind_Return in H as (dt & _ & H).
  apply bind_Return in H as (demand & Hdemand & [= <-]).
  simpl. split; [reflexivity | exact Hdemand].
Qed.

Lemma forecast_days (avg : float) (now : date) (l : list Z) (ds : list daily_forecast) :
  Forall2 (fun i d => forecast_day avg now i = Return d) l ds ->
  List.map f_day ds = List.map (fun i => i + 1) l
  /\ Forall (fun d => int_of_float (avg * day_multiplier (f_day d - 1))
                      = Return (predicted_demand_liters d)) ds.
Proof.
  induction 1 as [| i d l ds H _ [IHmap IHall]]; simpl.
  - split; [reflexivity | constructor].
  - apply forecast_day_Return in H as [Hday Hdemand]. split.
    + now rewrite Hday, IHmap.
    + constructor; [| exact IHall].
      rewrite Hday. now replace (i + 1 - 1) with i by lia.
Qed.

Lemma forecast_day_defined (avg : float) (now : date) (i : Z) (B : Z) :
  1 <= toordinal now -> toordinal now + 7 <= MAXORDINAL -> 0 <= i < 7 ->
  below B (Prim2SF (avg * day_multiplier i)) ->
  exists d, forecast_day avg now i = Return d.
Proof.
  intros Hlo Hhi Hi Hfin. unfold forecast_day, add_days.
  assert ((0 <? toordinal now + (i + 1)) && (toordinal now + (i + 1) <=? MAXORDINAL) = true)
    as -> by (apply andb_true_intro; split; [apply Z.ltb_lt | apply Z.leb_le]; lia).
  simpl. destruct (int_of_float_below _ _ Hfin) as [z ->]. simpl. eauto.
Qed.

(** On a fleet of less than 2^63 liters the average and its multiples are
    finite. *)
Lemma average_below (capacity : float) :
  below 64 (Prim2SF capacity) ->
  let avg := (capacity * 0.15)%float in
  below 63 (Prim2SF avg)
  /\ (forall i, below 65 (Prim2SF (avg * day_multiplier i)))
  /\ below 67 (Prim2SF (avg * 6.7)).
Proof.
  intros Hcap avg.
  assert (below 63 (Prim2SF avg)) as Havg.
  { apply (mul_below capacity 0.15 64 (-2)); [exact Hcap | | lia].
    change (Prim2SF 0.15) with (S754_finite false 5404319552844595 (-55)).
    simpl. lia. }
  split_and!; [exact Havg | |].
  - intros i. unfold day_multiplier. destruct (i <? 5).
    + apply (mul_below avg 1.0 63 1); [exact Havg | | lia].
      change (Prim2SF 1.0) with (S754_finite false 4503599627370496 (-52)).
      simpl. lia.
    + apply (below_weaken 64); [| lia].
      apply (mul_below avg 0.85 63 0); [exact Havg | | lia].
      change (Prim2SF 0.85) with (S754_finite false 7656119366529843 (-53)).
      simpl. lia.
  - apply (mul_below avg 6.7 63 3); [exact Havg | | lia].
    change (Prim2SF 6.7) with (S754_finite false 7543529375845581 (-50)).
    simpl. lia.
Qed.

End DemandForecast.

(** C2, as amended.  The demand-forecast fallback takes
    average_daily_consumption = total fleet capacity × 0.15 and, when it
    returns, gives exactly seven daily forecasts, numbered 1 to 7, whose
    predicted demand is the average times 1.0 on days 1-5 and times 0.85 on
    days 6-7, truncated to an int; its weekly total is the average times
    6.7, truncated toward zero (not rounded to nearest), and is not the sum
    of the seven daily entries.  It returns on every fleet of less than 2^63
    liters in all for which the seven dates exist. *)
Theorem demand_forecast_truncates (tanks_data : list tank) (now : Calendar.date) :
  let total := sum_ints (List.map (fun t => get (capacity_liters t) 0) tanks_data) in
  (forall r, AiPredictionService.forecast_demand_fallback tanks_data now = Return r ->
     exists capacity, float_of_int total = Return capacity /\
       let avg := (capacity * 0.15)%float in
       let f := AiPredictionService.body r in
       List.map AiPredictionService.f_day (AiPredictionService.daily_forecasts f)
       = [1; 2; 3; 4; 5; 6; 7]
       /\ Forall (fun d =>
            int_of_float
              (avg * (if (AiPredictionService.f_day d <=? 5)%Z then 1.0 else 0.85))%float
            = Return (AiPredictionService.predicted_demand_liters d))
            (AiPredictionService.daily_forecasts f)
       /\ int_of_float (avg * 6.7)
          = Return (AiPredictionService.weekly_total_demand_liters f))
  /\ (0 <= total < 2 ^ 63 ->
      1 <= Calendar.toordinal now ->
      Calendar.toordinal now + 7 <= Calendar.MAXORDINAL ->
      exists r, AiPredictionService.forecast_demand_fallback tanks_data now = Return r)
  /\ (fun r => (AiPredictionService.weekly_total_demand_liters (AiPredictionService.body r),
                sum_ints (List.map AiPredictionService.predicted_demand_liters
                            (AiPredictionService.daily_forecasts (AiPredictionService.body r)))))
       <$> AiPredictionService.forecast_demand_fallback [Samples.tank_A] Samples.today
     = Return (1005, 1004).
Proof.
  intros total. split; [| split].
  - intros r H. unfold AiPredictionService.forecast_demand_fallback in H.
    fold total in H.
    apply bind_Return in H as (capacity & Hcap & H).
    apply bind_Return in H as (forecasts & Hdays & H).
    apply bind_Return in H as (weekly & Hweekly & H).
    apply bind_Return in H as (daily & Hdaily & [= <-]).
    exists capacity. split; [exact Hcap |]. simpl.
    apply each_Return, forecast_days in Hdays as [Hmap Hall].
    split; [exact Hmap |]. split; [| exact Hweekly].
    eapply Forall_impl; [exact Hall |].
    intros d Hd. cbv beta in Hd. unfold AiPredictionService.day_multiplier in Hd.
    replace (AiPredictionService.f_day d <=? 5) with (AiPredictionService.f_day d - 1 <? 5);
      [exact Hd |].
    destruct (Z.ltb_spec (AiPredictionService.f_day d - 1) 5),
      (Z.leb_spec (AiPredictionService.f_day d) 5); (reflexivity || lia).
  - intros Htotal Hlo Hhi.
    destruct (float_of_int_small total Htotal) as (capacity & Hcap & Hbelow).
    destruct (average_below capacity Hbelow) as (Havg & Hdays & Hweek).
    set (avg := (capacity * 0.15)%float) in *.
    unfold AiPredictionService.forecast_demand_fallback. fold total.
    rewrite Hcap, ret_bind. fold avg.
    destruct (each_defined (AiPredictionService.forecast_day avg now)
                (AiPredictionService.range 7)) as [ds Hds].
    { repeat constructor; apply (forecast_day_defined avg now _ 65);
        try assumption; try lia; apply Hdays. }
    rewrite Hds, ret_bind.
    destruct (int_of_float_below _ _ Hweek) as [w ->]. rewrite ret_bind.
    destruct (int_of_float_below _ _ Havg) as [a ->]. rewrite ret_bind. eauto.
  - vm_compute. reflexivity.
Qed.

Lemma demand_forecast_truncates_witness :
  exists r, AiPredictionService.forecast_demand_fallback [Samples.tank_B] Samples.today
            = Return r.
Proof.
  apply (proj1 (proj2 (demand_forecast_truncates [Samples.tank_B] Samples.today))).
  - split; vm_compute; [discriminate | reflexivity].
  - vm_compute. discriminate.
  - vm_compute. discriminate.
Defined.

(** C2 as stated fails: a fleet of capacity 120 has average 18.0, and
    18.0 × 6.7 = 120.60000000000001 rounds to 121 where the code gives 120. *)
Lemma weekly_total_is_not_rounded :
  float_of_int 120 = Return 120%float
  /\ (120 * 0.15)%float = 18%float
  /\ Spec.round (18 * 6.7) = Return 121
  /\ (fun r => AiPredictionService.weekly_total_demand_liters (AiPredictionService.body r))
       <$> AiPredictionService.forecast_demand_fallback [Samples.tank_B] Samples.today
     = Return 120.
Proof. split_and!; reflexivity. Qed.

(** ** The maintenance update *)

Section MaintenanceUpdate.

Import Calendar JsonLoader.

(** [strptime] raises nothing but [ValueError]. *)
Lemma strptime_raises (text : string) (e : exn) :
  strptime text = Raise e -> e = ValueError.
Proof.
  unfold strptime, make_date.
  destruct (match_ymd text) as [[[[y m] d] [| c rest]] |];
    try (intros [= <-]; reflexivity).
  destruct (_ && _); [discriminate | intros [= <-]; reflexivity].
Qed.

Lemma load_data_loaded (s : store) : load_data s = (fst (load_data s), loaded s).
Proof. unfold loaded. now destruct (load_data s). Qed.

(** Loading twice is loading once. *)
Lemma loaded_after_load (s : store) : loaded (fst (load_data s)) = loaded s.
Proof.
  unfold loaded, load_data.
  destruct (is_empty_dict (_cached_data s)) eqn:Hcold; simpl.
  - destruct (is_empty_dict (data_file s)); reflexivity.
  - now rewrite Hcold.
Qed.

(** The object that a search stopped at is still what the search finds
    once it has been replaced by one that passes the same test. *)
Lemma list_find_replaced {A : Type} (P : A -> Prop) `{!forall x, Decision (P x)}
  (l : list A) (i : nat) (x x' : A) :
  list_find P l = Some (i, x) -> P x' -> list_find P (<[i := x']> l) = Some (i, x').
Proof.
  intros Hfind Hx'. apply list_find_Some in Hfind as (Hi & _ & Hfirst).
  apply list_find_insert_Some. right; left.
  split_and!; [reflexivity | reflexivity | | exact Hx' |].
  - now apply lookup_lt_Some in Hi.
  - intros j z Hj Hlt. now apply (Hfirst j z).
Qed.

End MaintenanceUpdate.




(** C4, as amended.  update_maintenance returns a NotFound failure value
    whenever the tank id matches no Tank or no MaintenanceScheduleEntry, and
    an InvalidDate failure value whenever the tank and its schedule entry
    exist and cleanedDate does not parse as a YYYY-MM-DD calendar date (the
    lookups come first); on an unparseable date the call always returns a
    failure value.  None of these outcomes is raised as an exception. *)
Theorem update_maintenance_failure_values (s : JsonLoader.store)
  (tank_id cleaned_date : string) (notes : option string) :
  let data := JsonLoader.loaded s in
  let found_tank := JsonLoader.find_tank tank_id (get (tanks data) []) in
  let found_entry := JsonLoader.find_entry tank_id (get (maintenance_schedule data) []) in
  let unparseable := forall d, Calendar.strptime cleaned_date <> Return d in
  let outcome := snd (JsonLoader.update_maintenance s tank_id cleaned_date notes) in
  (found_tank = None \/ found_entry = None ->
   exists r, outcome = Return r /\ Spec.NotFound tank_id r)
  /\ (is_Some found_tank -> is_Some found_entry -> unparseable ->
      exists r, outcome = Return r /\ Spec.InvalidDate cleaned_date r)
  /\ (unparseable -> exists error, outcome = Return (JsonLoader.Failure error)).
Proof.
  intros data found_tank found_entry unparseable outcome.
  assert (unparseable -> Calendar.strptime cleaned_date = Raise ValueError) as Hraise.
  { intros Hbad. destruct (Calendar.strptime cleaned_date) as [d | e] eqn:Hparse.
    - now destruct (Hbad d).
    - now rewrite (strptime_raises _ _ Hparse). }
  subst outcome. unfold JsonLoader.update_maintenance.
  rewrite load_data_loaded. fold data. fold found_tank. fold found_entry.
  unfold Spec.NotFound, Spec.InvalidDate.
  split_and!.
  - intros [Hnone | Hnone].
    + rewrite Hnone. simpl. eauto.
    + rewrite Hnone. destruct found_tank as [[i t] |]; simpl; eauto.
  - intros [[i t] ->] [[j e] ->] Hbad. rewrite (Hraise Hbad). simpl. eauto.
  - intros Hbad. destruct found_tank as [[i t] |]; simpl; [| eauto].
    destruct found_entry as [[j e] |]; simpl; [| eauto].
    rewrite (Hraise Hbad). simpl. eauto.
Qed.

Lemma update_maintenance_failure_values_witness :
  (exists r, snd (JsonLoader.update_maintenance Samples.cold "T9" "2025-06-01" None)
             = Return r /\ Spec.NotFound "T9" r)
  /\ (exists r, snd (JsonLoader.update_maintenance Samples.cold "T1" "2025-02-30" None)
                = Return r /\ Spec.InvalidDate "2025-02-30" r).
Proof.
  split.
  - apply (proj1 (update_maintenance_failure_values Samples.cold "T9" "2025-06-01" None)).
    left. reflexivity.
  - apply (proj1 (proj2 (update_maintenance_failure_values
                           Samples.cold "T1" "2025-02-30" None))).
    + eexists. reflexivity.
    + eexists. reflexivity.
    + intros d. discriminate.
Defined.

(** C4 as stated fails: an unparseable date sent with an unknown tank id
    is answered with NotFound, not with InvalidDate. *)
Lemma unknown_tank_precedes_bad_date :
  (forall d, Calendar.strptime "2025-02-30" <> Return d)
  /\ snd (JsonLoader.update_maintenance Samples.cold "T9" "2025-02-30" None)
     = Return (JsonLoader.Failure (JsonLoader.tank_not_found "T9"))
  /\ ~ Spec.InvalidDate "2025-02-30" (JsonLoader.Failure (JsonLoader.tank_not_found "T9")).
Proof.
  split_and!; [intros d; discriminate | reflexivity |].
  unfold Spec.InvalidDate. discriminate.
Qed.

(** C9, as amended.  Whenever update_maintenance returns a failure it
    writes nothing: the backing document is as it was, the document that
    readers load (tanks, maintenance schedule) is as it was, and so is the
    in-memory cache when it had been loaded before the call; a cache that
    was still empty has been filled, by the call's own load_data, with the
    backing document. *)
Theorem update_maintenance_failure_writes_nothing (s s' : JsonLoader.store)
  (tank_id cleaned_date : string) (notes : option string) (error : string)
  (Hfail : JsonLoader.update_maintenance s tank_id cleaned_date notes
           = (s', Return (JsonLoader.Failure error))) :
  JsonLoader.data_file s' = JsonLoader.data_file s
  /\ JsonLoader.loaded s' = JsonLoader.loaded s
  /\ (JsonLoader.is_empty_dict (JsonLoader._cached_data s) = false -> s' = s)
  /\ (JsonLoader.is_empty_dict (JsonLoader._cached_data s) = true ->
      JsonLoader._cached_data s' = JsonLoader.data_file s).
Proof.
  assert (s' = fst (JsonLoader.load_data s)) as ->.
  { revert Hfail. unfold JsonLoader.update_maintenance.
    rewrite load_data_loaded.
    destruct (JsonLoader.find_tank _ _) as [[i t] |]; [| now intros [= <- _]].
    destruct (JsonLoader.find_entry _ _) as [[j e] |]; [| now intros [= <- _]].
    destruct (Calendar.strptime cleaned_date) as [cleaned | []];
      try (now intros [= <- _]).
    destruct (Calendar.add_days _ _); intros [= _ Hres]; discriminate. }
  split_and!.
  - unfold JsonLoader.load_data. now destruct (JsonLoader.is_empty_dict _).
  - apply loaded_after_load.
  - intros Hwarm. unfold JsonLoader.load_data. rewrite Hwarm. reflexivity.
  - intros Hcold. unfold JsonLoader.load_data. rewrite Hcold. reflexivity.
Qed.

Lemma update_maintenance_failure_writes_nothing_witness :
  JsonLoader.data_file Samples.warm = JsonLoader.data_file Samples.cold
  /\ JsonLoader.loaded Samples.warm = JsonLoader.loaded Samples.cold
  /\ (JsonLoader.is_empty_dict (JsonLoader._cached_data Samples.cold) = false ->
      Samples.warm = Samples.cold)
  /\ (JsonLoader.is_empty_dict (JsonLoader._cached_data Samples.cold) = true ->
      JsonLoader._cached_data Samples.warm = JsonLoader.data_file Samples.cold).
Proof.
  exact (update_maintenance_failure_writes_nothing Samples.cold Samples.warm
           "T1" "2025-02-30" None (JsonLoader.invalid_date "2025-02-30") eq_refl).
Defined.

(** C9 as stated fails: a failed call on a store whose cache is still empty
    leaves the cache different from what it was. *)
Lemma update_maintenance_failure_fills_cache :
  exists s' error,
    JsonLoader.update_maintenance Samples.cold "T9" "2025-06-01" None
    = (s', Return (JsonLoader.Failure error))
    /\ JsonLoader._cached_data Samples.cold = JsonLoader.empty_dict
    /\ JsonLoader._cached_data s' = Samples.data_json
    /\ JsonLoader._cached_data s' <> JsonLoader._cached_data Samples.cold.
Proof.
  eexists _, _. split_and!; [reflexivity | reflexivity | reflexivity |].
  simpl. discriminate.
Qed.

(** ** Leakage and overflow detection *)

Section Leakage.

Import AiPredictionService.

Variable reading : history_entry -> float.

(** The loop over [range(1, len(history))] walks the adjacent pairs. *)
Lemma indexed_changes (l : list history_entry) :
  List.map (fun i => PrimFloat.sub (reading (nth i l AnalyticsService.no_entry))
                       (reading (nth (i - 1) l AnalyticsService.no_entry)))
    (seq 1 (length l - 1))
  = Spec.changes (List.map reading l).
Proof.
  induction l as [| a [| b l'] IH]; try reflexivity.
  change (Spec.changes (List.map reading (a :: b :: l')))
    with (PrimFloat.sub (reading b) (reading a)
            :: Spec.changes (List.map reading (b :: l'))).
  rewrite <- IH.
  replace (length (a :: b :: l') - 1)%nat with (S (length (b :: l') - 1))
    by (simpl; lia).
  rewrite <- cons_seq. simpl List.map at 1. f_equal.
  rewrite <- seq_shift, List.map_map.
  apply List.map_ext_in. intros k Hk. apply in_seq in Hk.
  destruct k as [| k]; [lia |].
  replace (S (S k) - 1)%nat with (S (S k - 1)) by lia.
  reflexivity.
Qed.

End Leakage.

Lemma level_changes_adjacent (history : list history_entry) :
  AiPredictionService.level_changes history
  = Spec.changes (List.map (fun h => get (h_turbidity h) 0%float) history).
Proof.
  unfold AiPredictionService.level_changes.
  rewrite <- (indexed_changes (fun h => get (h_turbidity h) 0%float)).
  destruct (2 <=? length history)%nat eqn:Hlen; [reflexivity |].
  apply Nat.leb_gt in Hlen.
  replace (length history - 1)%nat with 0%nat by lia. reflexivity.
Qed.

Lemma avg_change_average (float_sum : list float -> float) (history : list history_entry) :
  AiPredictionService.avg_change float_sum history = Spec.average_change float_sum history.
Proof.
  unfold AiPredictionService.avg_change, Spec.average_change.
  now rewrite level_changes_adjacent.
Qed.

(** C5.  For every tank and history, the leakage/overflow fallback reports
    an anomaly iff the level (50 when absent) is below 30, above 95, or the
    absolute average sample-to-sample turbidity change exceeds 1; a detected
    anomaly is an overflow when level > 95, else a leakage when level < 30,
    else unusual consumption (and there is no anomaly type without an
    anomaly); overflow_risk_percent is max(0, (level − 85) × 5) when
    level > 85 and 0 otherwise; a government alert is required iff an
    anomaly is detected and level < 20.  Level 97 gives an overflow anomaly.
    This holds whatever summation the interpreter's sum uses. *)
Theorem leakage_fallback_rules (float_sum : list float -> float)
  (tank_data : tank) (history : list history_entry) :
  let r := AiPredictionService.body
             (AiPredictionService.detect_leakage_fallback float_sum tank_data history) in
  let level := get (current_level_percent tank_data) 50 in
  let avg := Spec.average_change float_sum history in
  (AiPredictionService.anomaly_detected r = true
   <-> level < 30 \/ 95 < level \/ PrimFloat.ltb 1 (PrimFloat.abs avg) = true)
  /\ AiPredictionService.anomaly_type r
     = (if AiPredictionService.anomaly_detected r
        then if 95 <? level then AiPredictionService.overflow
             else if level <? 30 then AiPredictionService.leakage
             else AiPredictionService.unusual_consumption
        else AiPredictionService.no_anomaly)
  /\ AiPredictionService.overflow_risk_percent r
     = (if 85 <? level then Z.max 0 ((level - 85) * 5) else 0)
  /\ (AiPredictionService.government_alert_required r = true
      <-> AiPredictionService.anomaly_detected r = true /\ level < 20)
  /\ (level = 97 ->
      AiPredictionService.anomaly_detected r = true
      /\ AiPredictionService.anomaly_type r = AiPredictionService.overflow).
Proof.
  intros r level avg. subst r. unfold AiPredictionService.detect_leakage_fallback.
  rewrite avg_change_average. fold level. fold avg. simpl.
  split_and!.
  - rewrite !orb_true_iff, !Z.ltb_lt. tauto.
  - now destruct (_ || _).
  - reflexivity.
  - rewrite andb_true_iff, Z.ltb_lt. tauto.
  - intros ->. split; reflexivity.
Qed.

Lemma leakage_fallback_rules_witness :
  AiPredictionService.anomaly_detected
    (AiPredictionService.body
       (AiPredictionService.detect_leakage_fallback sum_plain Samples.tank_A [])) = true
  /\ AiPredictionService.anomaly_type
       (AiPredictionService.body
          (AiPredictionService.detect_leakage_fallback sum_plain Samples.tank_A []))
     = AiPredictionService.overflow.
Proof.
  apply (leakage_fallback_rules sum_plain Samples.tank_A []). reflexivity.
Defined.

(** ** Ward assignment *)

Section Wards.

Import GisService.

Lemma grid_index_range (coordinate : float) (a : Z) :
  grid_index coordinate = Return a -> 0 <= a <= 9.
Proof.
  unfold grid_index. intros H. apply bind_Return in H as (n & _ & [= <-]).
  pose proof (Z.mod_pos_bound n 10). lia.
Qed.

Lemma str_digit (a : Z) :
  0 <= a <= 9 -> str a = String (Calendar.digit_char a) EmptyString.
Proof.
  intros Ha.
  assert (a = 0 \/ a = 1 \/ a = 2 \/ a = 3 \/ a = 4 \/ a = 5 \/ a = 6 \/ a = 7
          \/ a = 8 \/ a = 9) as Hcases by lia.
  repeat (destruct Hcases as [-> | Hcases]; [reflexivity |]). now subst.
Qed.

Lemma digit_char_inj (a b : Z) :
  0 <= a <= 9 -> 0 <= b <= 9 -> Calendar.digit_char a = Calendar.digit_char b -> a = b.
Proof.
  intros Ha Hb H.
  assert (Calendar.digit_of (Calendar.digit_char a) = Some a) as Hda.
  { assert (a = 0 \/ a = 1 \/ a = 2 \/ a = 3 \/ a = 4 \/ a = 5 \/ a = 6 \/ a = 7
            \/ a = 8 \/ a = 9) as Hcases by lia.
    repeat (destruct Hcases as [-> | Hcases]; [reflexivity |]). now subst. }
  assert (Calendar.digit_of (Calendar.digit_char b) = Some b) as Hdb.
  { assert (b = 0 \/ b = 1 \/ b = 2 \/ b = 3 \/ b = 4 \/ b = 5 \/ b = 6 \/ b = 7
            \/ b = 8 \/ b = 9) as Hcases by lia.
    repeat (destruct Hcases as [-> | Hcases]; [reflexivity |]). now subst. }
  rewrite H in Hda. congruence.
Qed.

(** Two ward names are the same exactly when their index pairs are. *)
Lemma ward_name_inj (a b a' b' : Z) :
  0 <= a <= 9 -> 0 <= b <= 9 -> 0 <= a' <= 9 -> 0 <= b' <= 9 ->
  ("ward_" ++ str a ++ "_" ++ str b)%string = ("ward_" ++ str a' ++ "_" ++ str b')%string ->
  a = a' /\ b = b'.
Proof.
  intros Ha Hb Ha' Hb'. rewrite !str_digit by assumption. simpl.
  intros [= H1 H2]. split; now apply digit_char_inj.
Qed.

End Wards.

Section Truncation.

Import SpecFloat.

Lemma binary_round_aux_sign (sx : bool) (mx ex : Z) (lx : location)
  (s : bool) (m : positive) (e : Z) :
  binary_round_aux prec emax sx mx ex lx = S754_finite s m e -> s = sx.
Proof.
  unfold binary_round_aux.
  destruct (shr_fexp prec emax mx ex lx) as [mrs' e'].
  destruct (shr_fexp prec emax _ e' loc_Exact) as [mrs'' e''].
  destruct (shr_m mrs''); try discriminate.
  destruct (e'' <=? emax - prec); [| discriminate].
  now intros [= <- _ _].
Qed.

(** On a float that is not negative, truncation is the floor. *)
Lemma int_of_float_floor (x : float) :
  (forall m e, Prim2SF x <> S754_finite true m e) ->
  int_of_float x = Spec.floor x.
Proof.
  unfold int_of_float, Spec.floor. intros Hpos.
  destruct (Prim2SF x) as [s | s | | s m e]; try reflexivity.
  destruct s; [now destruct (Hpos m e) |].
  f_equal. simpl. destruct (Z.leb_spec 0 e) as [He | He]; [reflexivity |].
  rewrite <- (Z.opp_involutive e) at 1.
  rewrite Z.shiftl_opp_r, Z.shiftr_div_pow2 by lia. reflexivity.
Qed.

(** Ten times a coordinate that is not below zero is not negative. *)
Lemma times_10_not_negative (x : float) :
  PrimFloat.leb 0 x = true ->
  forall m e, Prim2SF (x * 10) <> S754_finite true m e.
Proof.
  rewrite FloatAxioms.leb_spec, mul_spec.
  change (Prim2SF 0) with (S754_zero false).
  change (Prim2SF 10) with (S754_finite false 5629499534213120 (-49)).
  unfold SF64mul.
  destruct (Prim2SF x) as [s | s | | s mx ex]; simpl; intros Hle m e H;
    try discriminate H.
  destruct s; [discriminate Hle |].
  apply binary_round_aux_sign in H. discriminate H.
Qed.

End Truncation.

(** C6, as amended.  For every tank, ward_id = "ward_A_B" with A =
    int(lat×10) mod 10 and B = int(lng×10) mod 10, where int truncates
    toward zero; A and B are between 0 and 9; an absent coordinate counts as
    0; the id exists for every latitude within [−90, 90] and longitude
    within [−180, 180].  Two tanks land in the same ward exactly when their
    (A, B) pairs are the same.  For coordinates that are not negative the
    truncation is the floor, so there A = floor(lat×10) mod 10 and B =
    floor(lng×10) mod 10.  Tanks at (12.34, 56.78) and (12.39, 56.79) both
    map to "ward_3_7". *)
Theorem ward_assignment (t t' : tank) :
  let lat := fst (GisService.coordinates t) in
  let lng := snd (GisService.coordinates t) in
  let lat' := fst (GisService.coordinates t') in
  let lng' := snd (GisService.coordinates t') in
  (forall a b, int_of_float (lat * 10) = Return a -> int_of_float (lng * 10) = Return b ->
     GisService.ward_id t
     = Return ("ward_" ++ GisService.str (a mod 10) ++ "_" ++ GisService.str (b mod 10))%string
     /\ 0 <= a mod 10 <= 9 /\ 0 <= b mod 10 <= 9)
  /\ (PrimFloat.leb (PrimFloat.abs lat) 90 = true ->
      PrimFloat.leb (PrimFloat.abs lng) 180 = true ->
      exists w, GisService.ward_id t = Return w)
  /\ (forall w w',
        GisService.ward_id t = Return w -> GisService.ward_id t' = Return w' ->
        (w = w' <-> GisService.grid_index lat = GisService.grid_index lat'
                    /\ GisService.grid_index lng = GisService.grid_index lng'))
  /\ (PrimFloat.leb 0 lat = true -> PrimFloat.leb 0 lng = true ->
      GisService.ward_id t = Spec.ward_by_floor lat lng)
  /\ GisService.ward_id Samples.tank_A = Return "ward_3_7"%string
  /\ GisService.ward_id Samples.tank_B = Return "ward_3_7"%string.
Proof.
  intros lat lng lat' lng'.
  assert (GisService.ward_id t
          = (a ← GisService.grid_index lat; b ← GisService.grid_index lng;
             mret ("ward_" ++ GisService.str a ++ "_" ++ GisService.str b)%string))
    as Hid.
  { unfold GisService.ward_id. subst lat lng.
    now destruct (GisService.coordinates t). }
  assert (GisService.ward_id t'
          = (a ← GisService.grid_index lat'; b ← GisService.grid_index lng';
             mret ("ward_" ++ GisService.str a ++ "_" ++ GisService.str b)%string))
    as Hid'.
  { unfold GisService.ward_id. subst lat' lng'.
    now destruct (GisService.coordinates t'). }
  split_and!.
  - intros a b Ha Hb. rewrite Hid. unfold GisService.grid_index.
    rewrite Ha, Hb. simpl.
    pose proof (Z.mod_pos_bound a 10). pose proof (Z.mod_pos_bound b 10).
    split_and!; (reflexivity || lia).
  - intros Hlat Hlng. rewrite Hid. unfold GisService.grid_index.
    apply (leb_abs_below lat 90 6333186975989760 (-46) eq_refl) in Hlat.
    apply (leb_abs_below lng 180 6333186975989760 (-45) eq_refl) in Hlng.
    assert (below 4 (Prim2SF 10)) as Hten.
    { change (Prim2SF 10) with (S754_finite false 5629499534213120 (-49)). simpl. lia. }
    pose proof (mul_below lat 10 _ _ Hlat Hten ltac:(lia)) as Hlat10.
    pose proof (mul_below lng 10 _ _ Hlng Hten ltac:(lia)) as Hlng10.
    destruct (int_of_float_below _ _ Hlat10) as [a ->].
    destruct (int_of_float_below _ _ Hlng10) as [b ->]. simpl. eauto.
  - intros w w' Hw Hw'. rewrite Hid in Hw. rewrite Hid' in Hw'.
    apply bind_Return in Hw as (a & Ha & Hw).
    apply bind_Return in Hw as (b & Hb & [= <-]).
    apply bind_Return in Hw' as (a' & Ha' & Hw').
    apply bind_Return in Hw' as (b' & Hb' & [= <-]).
    rewrite Ha, Hb, Ha', Hb'.
    apply grid_index_range in Ha, Hb, Ha', Hb'.
    split.
    + intros H. apply ward_name_inj in H as [-> ->]; done.
    + intros [[= ->] [= ->]]. reflexivity.
  - intros Hlat Hlng. rewrite Hid. unfold Spec.ward_by_floor, GisService.grid_index.
    rewrite <- !int_of_float_floor by now apply times_10_not_negative.
    destruct (int_of_float (lat * 10)) as [a |]; [| reflexivity].
    destruct (int_of_float (lng * 10)) as [b |]; reflexivity.
  - reflexivity.
  - reflexivity.
Qed.

Lemma ward_assignment_witness :
  GisService.ward_id Samples.tank_A = Spec.ward_by_floor 12.34 56.78
  /\ exists w, GisService.ward_id Samples.tank_A = Return w.
Proof.
  split.
  - apply (ward_assignment Samples.tank_A Samples.tank_B); reflexivity.
  - apply (ward_assignment Samples.tank_A Samples.tank_B); reflexivity.
Defined.

(** C6 as stated fails: south of the equator the index of the code is not
    the floor. *)
Lemma ward_is_not_floor :
  GisService.ward_id Samples.tank_S = Return "ward_7_7"%string
  /\ GisService.coordinates Samples.tank_S = ((-12.34)%float, 56.78%float)
  /\ Spec.ward_by_floor (-12.34) 56.78 = Return "ward_6_7"%string.
Proof. split_and!; reflexivity. Qed.

(** ** Trend analysis *)

Section Subtraction.

Import SpecFloat.

Lemma binary_round_aux_other_sign (sx sx' : bool) (mx ex : Z) (lx : location)
  (s : bool) (m : positive) (e : Z) :
  binary_round_aux prec emax sx mx ex lx = S754_finite s m e ->
  binary_round_aux prec emax sx' mx ex lx = S754_finite sx' m e.
Proof.
  unfold binary_round_aux.
  destruct (shr_fexp prec emax mx ex lx) as [mrs' e'].
  destruct (shr_fexp prec emax _ e' loc_Exact) as [mrs'' e''].
  destruct (shr_m mrs''); try discriminate.
  destruct (e'' <=? emax - prec); [| discriminate].
  now intros [= _ <- <-].
Qed.

Lemma binary_normalize_opp (z e : Z) (s : bool) (m : positive) (e' : Z) :
  binary_normalize prec emax z e false = S754_finite s m e' ->
  binary_normalize prec emax (- z) e false = S754_finite (negb s) m e'.
Proof.
  destruct z as [| p | p]; simpl; [discriminate | |]; unfold binary_round;
    destruct (shl_align _ _ _) as [mz ez]; intros H;
    rewrite (binary_round_aux_sign _ _ _ _ _ _ _ H); simpl.
  - now apply binary_round_aux_other_sign with (sx' := true) in H.
  - now apply binary_round_aux_other_sign with (sx' := false) in H.
Qed.

(** Swapping the operands of a subtraction whose result is a finite,
    non-zero float changes the sign of the result and nothing else. *)
Lemma SFsub_swap (x y : spec_float) (s : bool) (m : positive) (e : Z) :
  SFsub prec emax x y = S754_finite s m e ->
  SFsub prec emax y x = S754_finite (negb s) m e.
Proof.
  destruct x as [sx | sx | | sx mx ex], y as [sy | sy | | sy my ey]; simpl;
    try discriminate; try (destruct sx, sy; discriminate).
  - intros [= <- <- <-]. now rewrite negb_involutive.
  - intros [= <- <- <-]. reflexivity.
  - rewrite (Z.min_comm ey ex). intros H.
    apply binary_normalize_opp in H. rewrite <- H. f_equal. lia.
Qed.

Lemma SFltb_irrefl_finite (m : positive) (e : Z) :
  SFltb (S754_finite false m e) (S754_finite false m e) = false.
Proof.
  unfold SFltb. simpl. rewrite Z.compare_refl.
  change (Pos.compare_cont Eq m m) with (m ?= m)%positive.
  now rewrite Pos.compare_refl.
Qed.

End Subtraction.

(** A difference that is exactly the threshold counts as stable. *)
Lemma trend_of_tie (recent older threshold : float) (m : positive) (e : Z) :
  Prim2SF threshold = S754_finite false m e ->
  (recent - older)%float = threshold \/ (older - recent)%float = threshold ->
  AnalyticsService.trend_of recent older threshold = AnalyticsService.stable.
Proof.
  intros Hthr Htie. unfold AnalyticsService.trend_of.
  rewrite !FloatAxioms.ltb_spec, Hthr.
  assert ((Prim2SF (recent - older) = S754_finite false m e
           /\ Prim2SF (older - recent) = S754_finite true m e)
          \/ (Prim2SF (recent - older) = S754_finite true m e
              /\ Prim2SF (older - recent) = S754_finite false m e)) as Hcases.
  { destruct Htie as [H | H]; [left | right];
      rewrite <- H in Hthr; rewrite sub_spec in Hthr;
      pose proof (SFsub_swap _ _ _ _ _ Hthr) as Hswap;
      rewrite !sub_spec; split; assumption. }
  destruct Hcases as [[-> ->] | [-> ->]];
    rewrite SFltb_irrefl_finite; reflexivity.
Qed.

(** C7.  For every tank, trend analysis on a history of fewer than 2 points
    returns insufficient_data; on a history of 2 or more points it compares
    the last sample against the first for each of ph, turbidity and
    temperature with thresholds 0.3, 1 and 1 (increasing if last − first >
    threshold, decreasing if first − last > threshold, else stable), a
    difference exactly equal to the threshold counting as stable, and the
    output includes the number of data points. *)
Theorem trend_analysis_thresholds (s : JsonLoader.store) (tank_id : string) (t : tank)
  (Hfound : snd (JsonLoader.get_tank_by_id s tank_id) = Some t) :
  let history := get (history t) [] in
  let outcome := snd (AnalyticsService.get_trend_analysis s tank_id) in
  ((length history < 2)%nat -> outcome = Return AnalyticsService.InsufficientData)
  /\ (forall first middle last ph0 turbidity0 temperature0 ph1 turbidity1 temperature1,
        history = first :: middle ++ [last] ->
        h_ph first = Some ph0 -> h_turbidity first = Some turbidity0 ->
        h_temperature first = Some temperature0 ->
        h_ph last = Some ph1 -> h_turbidity last = Some turbidity1 ->
        h_temperature last = Some temperature1 ->
        outcome
        = Return (AnalyticsService.Trends tank_id
                    (Spec.trend_between ph0 ph1 0.3)
                    (Spec.trend_between turbidity0 turbidity1 1)
                    (Spec.trend_between temperature0 temperature1 1)
                    (len history)))
  /\ (forall first last,
        ((last - first)%float = 0.3%float \/ (first - last)%float = 0.3%float ->
         Spec.trend_between first last 0.3 = AnalyticsService.stable)
        /\ ((last - first)%float = 1%float \/ (first - last)%float = 1%float ->
            Spec.trend_between first last 1 = AnalyticsService.stable)).
Proof.
  intros history outcome. subst outcome.
  unfold AnalyticsService.get_trend_analysis.
  destruct (JsonLoader.get_tank_by_id s tank_id) as [s' found]. simpl in Hfound.
  subst found. fold history. simpl.
  split_and!.
  - intros Hshort. apply Nat.ltb_lt in Hshort. now rewrite Hshort.
  - intros first middle last ph0 tu0 te0 ph1 tu1 te1 Hshape Hp0 Ht0 He0 Hp1 Ht1 He1.
    rewrite Hshape.
    assert ((length (first :: middle ++ [last]) <? 2)%nat = false) as ->.
    { apply Nat.ltb_ge. simpl. rewrite length_app. simpl. lia. }
    change (first :: middle ++ [last]) with ((first :: middle) ++ [last]).
    rewrite List.last_last. simpl List.hd.
    rewrite Hp0, Ht0, He0, Hp1, Ht1, He1. reflexivity.
  - intros first last. split; intros Htie.
    + now apply (trend_of_tie last first 0.3 5404319552844595 (-54)).
    + now apply (trend_of_tie last first 1 4503599627370496 (-52)).
Qed.

Lemma trend_analysis_thresholds_witness :
  snd (AnalyticsService.get_trend_analysis Samples.cold "T4")
  = Return (AnalyticsService.Trends "T4" AnalyticsService.increasing
              AnalyticsService.stable AnalyticsService.decreasing 3).
Proof.
  exact (proj1 (proj2 (trend_analysis_thresholds Samples.cold "T4" Samples.tank_H eq_refl))
           Samples.oldest [Samples.midweek] Samples.newest _ _ _ _ _ _
           eq_refl eq_refl eq_refl eq_refl eq_refl eq_refl eq_refl).
Defined.

(** ** Missing readings *)

Section MissingReadings.

Import Calendar AiPredictionService.


(** The maintenance fallback can only fail on its date. *)
Lemma predict_maintenance_raises (t : tank) (now : date) (e : exn) :
  predict_maintenance_fallback t now = Raise e -> e = OverflowError.
Proof.
  unfold predict_maintenance_fallback, add_days.
  destruct (urgency_of _ _) as [u lead].
  destruct (_ && _); simpl; [discriminate | now intros [= <-]].
Qed.


End MissingReadings.




(** ** The analytics rollup *)

Section RollupCounts.

Import AnalyticsService.

Lemma risk_level_by_count (t : tank) :
  risk_level (analyze_water_quality t)
  = if (2 <=? Spec.issue_count t)%nat then critical
    else if (Spec.issue_count t =? 1)%nat then warning
    else normal.
Proof.
  unfold analyze_water_quality, Spec.issue_count, TankService.no_readings.
  destruct (PrimFloat.ltb (get (ph _) _) 6.5), (PrimFloat.ltb 8.5 (get (ph _) _)),
    (PrimFloat.ltb 5 (get (turbidity _) _)), (PrimFloat.ltb 3 (get (turbidity _) _)),
    (PrimFloat.ltb 25 (get (temperature _) _)); reflexivity.
Qed.

Lemma is_risk_critical (t : tank) : is_risk critical t = (2 <=? Spec.issue_count t)%nat.
Proof.
  unfold is_risk. rewrite risk_level_by_count.
  destruct (Nat.leb_spec 2 (Spec.issue_count t)); [reflexivity |].
  now destruct (Nat.eqb_spec (Spec.issue_count t) 1).
Qed.

Lemma is_risk_warning (t : tank) : is_risk warning t = (Spec.issue_count t =? 1)%nat.
Proof.
  unfold is_risk. rewrite risk_level_by_count.
  destruct (Nat.leb_spec 2 (Spec.issue_count t)),
    (Nat.eqb_spec (Spec.issue_count t) 1); (reflexivity || lia).
Qed.

Lemma filter_ext_bool {A : Type} (f g : A -> bool) (l : list A) :
  (forall a, f a = g a) -> List.filter f l = List.filter g l.
Proof.
  intros Hext. induction l as [| a l IH]; simpl; [reflexivity |].
  now rewrite Hext, IH.
Qed.

Lemma each_subscript {A : Type} (key : string) (field : tank -> option A) (dflt : A)
  (l : list tank) :
  Forall (fun t => is_Some (field t)) l ->
  each (fun t => subscript key (field t)) l
  = Return (List.map (fun t => get (field t) dflt) l).
Proof.
  induction 1 as [| t l [a Ha] _ IH]; simpl; [reflexivity |].
  rewrite Ha. simpl. rewrite IH. reflexivity.
Qed.

Lemma each_reading (key : string) (field : readings -> option float) (l : list tank) :
  Forall (fun t => exists r a, current_readings t = Some r /\ field r = Some a) l ->
  exists values, each (reading_of key field) l = Return values.
Proof.
  intros Hall. apply each_defined. eapply Forall_impl; [exact Hall |].
  intros t (r & a & Hr & Ha). exists a. unfold reading_of. rewrite Hr. simpl.
  now rewrite Ha.
Qed.

End RollupCounts.

(** C10.  The rollup's critical_count and warning_count count water-quality
    issues per tank (pH outside [6.5, 8.5]; turbidity > 5 or > 3;
    temperature > 25): two or more issues make a tank critical, exactly one
    makes it a warning, and normal_count = total − critical − warning.  The
    rollup returns on every fleet of complete tanks (whose levels add up to
    less than 2^1000).  The issues depend on
    the current readings only, not on days_since_cleaned, so the counts can
    disagree with the status classifier: a tank with ph=7.0, turbidity=0,
    temperature=20 and a cleaning 65 days old has status critical and is
    counted as normal. *)
Theorem rollup_counts_issues (float_sum : list float -> float) (s : JsonLoader.store) :
  let fleet := snd (JsonLoader.get_tanks s) in
  let outcome := snd (AnalyticsService.get_system_analytics float_sum s) in
  (forall r, outcome = Return r ->
     AnalyticsService.critical_count r
     = len (List.filter (fun t => (2 <=? Spec.issue_count t)%nat) fleet)
     /\ AnalyticsService.warning_count r
        = len (List.filter (fun t => (Spec.issue_count t =? 1)%nat) fleet)
     /\ AnalyticsService.total_tanks r = len fleet
     /\ AnalyticsService.normal_count r
        = AnalyticsService.total_tanks r - AnalyticsService.critical_count r
          - AnalyticsService.warning_count r)
  /\ (Forall Spec.complete fleet ->
      Z.abs (sum_ints (List.map (fun t => get (current_level_percent t) 0) fleet))
      < 2 ^ 1000 ->
      exists r, outcome = Return r)
  /\ (forall t t', current_readings t = current_readings t' ->
                   Spec.issue_count t = Spec.issue_count t')
  /\ (TankService.get_tank_status Samples.tank_B Samples.today = Return critical
      /\ Spec.issue_count Samples.tank_B = 0%nat
      /\ (fun a => (AnalyticsService.critical_count a, AnalyticsService.warning_count a,
                    AnalyticsService.normal_count a))
           <$> snd (AnalyticsService.get_system_analytics sum_plain Samples.only_B)
         = Return (0, 0, 1)).
Proof.
  intros fleet outcome. subst outcome fleet.
  unfold AnalyticsService.get_system_analytics.
  destruct (JsonLoader.get_tanks s) as [s1 fleet].
  destruct (JsonLoader.get_alerts s1) as [s2 notices]. simpl snd.
  split_and!.
  - intros r H.
    apply bind_Return in H as (capacities & _ & H).
    apply bind_Return in H as (avg_level & _ & H).
    apply bind_Return in H as (ph_values & _ & H).
    apply bind_Return in H as (turbidity_values & _ & H).
    apply bind_Return in H as (temp_values & _ & [= <-]).
    simpl.
    rewrite (filter_ext_bool _ _ fleet is_risk_critical).
    rewrite (filter_ext_bool _ _ fleet is_risk_warning).
    split_and!; reflexivity.
  - intros Hcomplete Hlevels.
    rewrite (each_subscript "capacity_liters" capacity_liters 0), ret_bind
      by (eapply Forall_impl; [exact Hcomplete | intros t Ht; apply Ht]).
    assert (exists avg_level,
              match fleet with
              | [] => Return 0%float
              | _ :: _ =>
                  levels ← each (fun t => subscript "current_level_percent"
                                            (current_level_percent t)) fleet;
                  int_true_div (sum_ints levels) (len fleet)
              end = Return avg_level) as [avg_level Havg].
    { destruct fleet as [| t0 fleet'] eqn:Hfleet; [eauto |]. rewrite <- Hfleet in *.
      rewrite (each_subscript "current_level_percent" current_level_percent 0), ret_bind
        by (eapply Forall_impl; [exact Hcomplete | intros t Ht; apply Ht]).
      apply int_true_div_defined; [| exact Hlevels].
      rewrite Hfleet. unfold len. simpl. lia. }
    rewrite Havg, ret_bind.
    destruct (each_reading "ph" ph fleet) as [ph_values ->].
    { eapply Forall_impl; [exact Hcomplete |].
      intros t (_ & _ & p & u & c & ->). eauto. }
    destruct (each_reading "turbidity" turbidity fleet) as [turbidity_values ->].
    { eapply Forall_impl; [exact Hcomplete |].
      intros t (_ & _ & p & u & c & ->). eauto. }
    destruct (each_reading "temperature" temperature fleet) as [temp_values ->].
    { eapply Forall_impl; [exact Hcomplete |].
      intros t (_ & _ & p & u & c & ->). eauto. }
    rewrite !ret_bind. eauto.
  - intros t t' Hsame. unfold Spec.issue_count. now rewrite Hsame.
  - reflexivity.
  - reflexivity.
  - reflexivity.
Qed.

Lemma rollup_counts_issues_witness :
  exists r,
    snd (AnalyticsService.get_system_analytics sum_plain Samples.only_B) = Return r
    /\ AnalyticsService.critical_count r = 0
    /\ AnalyticsService.normal_count r = 1.
Proof.
  eexists. split; [reflexivity |].
  split.
  - etransitivity;
      [exact (proj1 (proj1 (rollup_counts_issues sum_plain Samples.only_B) _ eq_refl))
      | reflexivity].
  - reflexivity.
Defined.

(** ** The dates that the maintenance update writes *)

(** X1.  The two date texts that a successful update_maintenance stores in the
    tank, and the day counts of the tank service on them.  last_cleaned is the
    cleanedDate, and days_since_cleaned counts from it.  next_maintenance is the
    text written for the date one cleaning interval later: when that date is in
    year 1000 or later, calculate_days_until_maintenance reads it and counts the
    days to it; when it is before year 1000 the text has a year of fewer than
    four digits, and calculate_days_until_maintenance raises ValueError on it. *)
Theorem maintenance_dates_read_back (s s' : JsonLoader.store)
  (tank_id cleaned_date : string) (notes : option string) (msg : string) (t' : tank)
  (today : Calendar.date) :
  JsonLoader.update_maintenance s tank_id cleaned_date notes
  = (s', Return (JsonLoader.Success msg t')) ->
  exists cleaned next j e text,
    Calendar.strptime cleaned_date = Return cleaned
    /\ JsonLoader.find_entry tank_id (snd (JsonLoader.get_maintenance_schedule s))
       = Some (j, e)
    /\ Calendar.add_days cleaned (get (cleaning_interval_days e) 30) = Return next
    /\ last_cleaned t' = Some cleaned_date
    /\ next_maintenance t' = Some text
    /\ TankService.calculate_days_since_cleaned cleaned_date today
       = Return (Calendar.days_between today cleaned)
    /\ (1000 <= Calendar.year next ->
        TankService.calculate_days_until_maintenance text today
        = Return (Calendar.days_between next today))
    /\ (Calendar.year next < 1000 ->
        TankService.calculate_days_until_maintenance text today = Raise ValueError).
Proof.
  intros Hcall. unfold JsonLoader.update_maintenance in Hcall.
  unfold JsonLoader.get_maintenance_schedule.
  rewrite load_data_loaded in Hcall |- *. cbn [snd].
  destruct (JsonLoader.find_tank _ _) as [[i t] |]; [| discriminate].
  destruct (JsonLoader.find_entry _ _) as [[j e] |]; [| discriminate].
  destruct (Calendar.strptime cleaned_date) as [cleaned | []] eqn:Hparse;
    try discriminate.
  destruct (Calendar.add_days _ _) as [next |] eqn:Hnext; [| discriminate].
  injection Hcall as _ _ <-.
  destruct (add_days_read_back _ _ _ Hnext) as (Hlong & Hshort & _).
  exists cleaned, next, j, e, (Calendar.strftime next).
  unfold TankService.calculate_days_since_cleaned,
    TankService.calculate_days_until_maintenance.
  rewrite Hparse.
  split_and!; try reflexivity; try assumption.
  - intros Hyear. now rewrite (Hlong Hyear).
  - intros Hyear. now rewrite (Hshort Hyear).
Qed.

Lemma maintenance_dates_read_back_witness :
  TankService.calculate_days_until_maintenance "999-01-31" Samples.today
  = Raise ValueError
  /\ next_maintenance
       (JsonLoader.set_tank Samples.tank_A "0999-01-01" "999-01-31" None)
     = Some "999-01-31"%string.
Proof.
  destruct (maintenance_dates_read_back Samples.cold _ "T1" "0999-01-01" None _ _
              Samples.today eq_refl)
    as (cleaned & next & j & e & text & Hparse & Hentry & Hnext & _ & Htext & _ & _
        & Hshort).
  vm_compute in Hparse. injection Hparse as <-.
  vm_compute in Hentry. injection Hentry as <- <-.
  vm_compute in Hnext. injection Hnext as <-.
  injection Htext as <-.
  split; [| reflexivity].
  apply Hshort. vm_compute. reflexivity.
Defined.

(** ** The maintenance update and the rest of the document *)

Section UpdateFrame.

Import JsonLoader.

(** Replacing an object that fails a test by one that fails it too does not
    change what a search with that test finds. *)
Lemma list_find_insert_failing {A : Type} (P : A -> Prop) `{!forall x, Decision (P x)}
  (l : list A) (i : nat) (x x' : A) :
  l !! i = Some x -> ~ P x -> ~ P x' -> list_find P (<[i := x']> l) = list_find P l.
Proof.
  revert i. induction l as [| a l IH]; intros i Hi Hx Hx'; [reflexivity |].
  destruct i as [| i]; simpl in *.
  - injection Hi as ->. rewrite !decide_False by assumption. reflexivity.
  - destruct (decide (P a)); [reflexivity |]. now rewrite (IH i).
Qed.

(** What a successful call has found and computed. *)
Lemma update_maintenance_success (s s' : store) (tank_id cleaned_date : string)
  (notes : option string) (msg : string) (t' : tank) :
  update_maintenance s tank_id cleaned_date notes = (s', Return (Success msg t')) ->
  exists i j t e cleaned next,
    find_tank tank_id (get (tanks (loaded s)) []) = Some (i, t)
    /\ find_entry tank_id (get (maintenance_schedule (loaded s)) []) = Some (j, e)
    /\ Calendar.strptime cleaned_date = Return cleaned
    /\ Calendar.add_days cleaned (get (cleaning_interval_days e) 30) = Return next
    /\ t' = set_tank t cleaned_date (Calendar.strftime next) notes
    /\ s' = (let data' :=
               {| tanks := Some (<[i := t']> (get (tanks (loaded s)) []));
                  maintenance_schedule :=
                    Some (<[j := set_entry e cleaned_date (Calendar.strftime next)]>
                            (get (maintenance_schedule (loaded s)) []));
                  alerts := alerts (loaded s) |} in
             Store data' data').
Proof.
  unfold update_maintenance. rewrite load_data_loaded.
  destruct (find_tank _ _) as [[i t] |] eqn:Htank; [| discriminate].
  destruct (find_entry _ _) as [[j e] |] eqn:Hentry; [| discriminate].
  destruct (Calendar.strptime cleaned_date) as [cleaned | []] eqn:Hparse;
    try discriminate.
  destruct (Calendar.add_days _ _) as [next |] eqn:Hnext; [| discriminate].
  intros [= <- <- <-]. exists i, j, t, e, cleaned, next.
  split_and!; first [reflexivity | assumption].
Qed.

Lemma loaded_warm (data : document) :
  is_empty_dict data = false -> load_data (Store data data) = (Store data data, data).
Proof. intros H. unfold load_data. simpl. now rewrite H. Qed.

(** After a successful call the tank id names the tank that the call
    returned. *)
Lemma updated_lookup (s s' : store) (tank_id cleaned_date : string)
  (notes : option string) (msg : string) (t' : tank) :
  update_maintenance s tank_id cleaned_date notes = (s', Return (Success msg t')) ->
  get_tank_by_id s' tank_id = (s', Some t').
Proof.
  intros Hcall.
  apply update_maintenance_success in Hcall
    as (i & j & t & e & cleaned & next & Htank & Hentry & _ & _ & Ht' & Hs').
  cbv zeta in Hs'.
  set (data' := {| tanks := _; maintenance_schedule := _; alerts := _ |}) in Hs'.
  assert (load_data s' = (s', data')) as Hload' by (rewrite Hs'; now apply loaded_warm).
  unfold get_tank_by_id, get_tanks. rewrite Hload'. simpl.
  unfold find_tank in *.
  rewrite (list_find_replaced _ _ _ _ t' Htank); [reflexivity |].
  apply list_find_Some in Htank as (_ & Hid & _). now rewrite Ht'.
Qed.

End UpdateFrame.

(** X2.  A successful update_maintenance changes one tank and one schedule entry
    and nothing else: the alerts and the number of tanks and of entries are
    kept, a lookup of any other tank id gives what it gave before, and a lookup
    of the tank id gives the tank that the call returned, which has the id,
    name, location, capacity, level, readings and history of the old one. *)
Theorem update_maintenance_leaves_the_rest (s s' : JsonLoader.store)
  (tank_id cleaned_date : string) (notes : option string) (msg : string) (t' : tank) :
  JsonLoader.update_maintenance s tank_id cleaned_date notes
  = (s', Return (JsonLoader.Success msg t')) ->
  alerts (JsonLoader.loaded s') = alerts (JsonLoader.loaded s)
  /\ length (get (tanks (JsonLoader.loaded s')) [])
     = length (get (tanks (JsonLoader.loaded s)) [])
  /\ length (get (maintenance_schedule (JsonLoader.loaded s')) [])
     = length (get (maintenance_schedule (JsonLoader.loaded s)) [])
  /\ (forall other, other <> tank_id ->
        snd (JsonLoader.get_tank_by_id s' other) = snd (JsonLoader.get_tank_by_id s other)
        /\ JsonLoader.find_entry other (snd (JsonLoader.get_maintenance_schedule s'))
           = JsonLoader.find_entry other (snd (JsonLoader.get_maintenance_schedule s)))
  /\ JsonLoader.get_tank_by_id s' tank_id = (s', Some t')
  /\ exists t, snd (JsonLoader.get_tank_by_id s tank_id) = Some t
       /\ id t' = id t /\ name t' = name t /\ tank_location t' = tank_location t
       /\ capacity_liters t' = capacity_liters t
       /\ current_level_percent t' = current_level_percent t
       /\ current_readings t' = current_readings t /\ history t' = history t.
Proof.
  intros Hcall.
  apply update_maintenance_success in Hcall
    as (i & j & t & e & cleaned & next & Htank & Hentry & _ & _ & Ht' & Hs').
  set (tanks0 := get (tanks (JsonLoader.loaded s)) []) in *.
  set (entries0 := get (maintenance_schedule (JsonLoader.loaded s)) []) in *.
  cbv zeta in Hs'.
  set (data' := {| tanks := _; maintenance_schedule := _; alerts := _ |}) in Hs'.
  assert (JsonLoader.load_data s' = (s', data')) as Hload'.
  { rewrite Hs'. now apply loaded_warm. }
  assert (JsonLoader.loaded s' = data') as Hloaded'.
  { unfold JsonLoader.loaded. now rewrite Hload'. }
  pose proof Htank as Hfound. apply list_find_Some in Hfound as (Hi & Hid & _).
  pose proof Hentry as Hfound. apply list_find_Some in Hfound as (Hj & Hsid & _).
  assert (id t' = tank_id) as Hid' by (rewrite Ht'; exact Hid).
  unfold JsonLoader.get_tank_by_id, JsonLoader.get_tanks,
    JsonLoader.get_maintenance_schedule.
  rewrite Hload', (load_data_loaded s). fold tanks0 entries0.
  rewrite Hloaded'. simpl.
  split_and!.
  - reflexivity.
  - apply length_insert.
  - apply length_insert.
  - intros other Hother. unfold JsonLoader.find_tank, JsonLoader.find_entry. split.
    + f_equal. apply (list_find_insert_failing _ _ _ t); [exact Hi | |]; congruence.
    + apply (list_find_insert_failing _ _ _ e); [exact Hj | |]; simpl; congruence.
  - unfold JsonLoader.find_tank.
    rewrite (list_find_replaced _ _ _ _ t' Htank Hid'). reflexivity.
  - exists t. rewrite Htank, Ht'. split_and!; reflexivity.
Qed.

Lemma update_maintenance_leaves_the_rest_witness :
  snd (JsonLoader.get_tank_by_id
         (fst (JsonLoader.update_maintenance Samples.cold "T1" "2025-06-01" None)) "T2")
  = Some Samples.tank_B.
Proof.
  destruct (update_maintenance_leaves_the_rest Samples.cold _ "T1" "2025-06-01" None
              _ _ eq_refl) as (_ & _ & _ & Hothers & _).
  exact (proj1 (Hothers "T2"%string ltac:(discriminate))).
Defined.

(** X3.  A successful update_maintenance repeated with the same arguments
    returns the same result and leaves the store as the first call left it; so
    does a reload of the file, which holds what the cache holds. *)
Theorem update_maintenance_is_idempotent (s s' : JsonLoader.store)
  (tank_id cleaned_date : string) (notes : option string) (msg : string) (t' : tank) :
  JsonLoader.update_maintenance s tank_id cleaned_date notes
  = (s', Return (JsonLoader.Success msg t')) ->
  JsonLoader.update_maintenance s' tank_id cleaned_date notes
  = (s', Return (JsonLoader.Success msg t'))
  /\ JsonLoader.reload_data s' = (s', JsonLoader.loaded s').
Proof.
  intros Hcall. pose proof Hcall as Hmsg.
  apply update_maintenance_success in Hcall
    as (i & j & t & e & cleaned & next & Htank & Hentry & Hparse & Hnext & Ht' & Hs').
  set (tanks0 := get (tanks (JsonLoader.loaded s)) []) in *.
  set (entries0 := get (maintenance_schedule (JsonLoader.loaded s)) []) in *.
  cbv zeta in Hs'.
  set (e' := JsonLoader.set_entry e cleaned_date (Calendar.strftime next)) in *.
  set (data' := {| tanks := _; maintenance_schedule := _; alerts := _ |}) in Hs'.
  assert (JsonLoader.load_data s' = (s', data')) as Hload'.
  { rewrite Hs'. now apply loaded_warm. }
  assert (msg = ("Maintenance updated for " ++ tank_id)%string) as ->.
  { unfold JsonLoader.update_maintenance in Hmsg. rewrite load_data_loaded in Hmsg.
    fold tanks0 entries0 in Hmsg. rewrite Htank, Hentry, Hparse, Hnext in Hmsg.
    now injection Hmsg as _ <- _. }
  pose proof Htank as Hfound. apply list_find_Some in Hfound as (Hi & Hid & _).
  pose proof Hentry as Hfound. apply list_find_Some in Hfound as (Hj & Hsid & _).
  assert (id t' = tank_id) as Hid' by (rewrite Ht'; exact Hid).
  split.
  - unfold JsonLoader.update_maintenance. rewrite Hload'. simpl.
    unfold JsonLoader.find_tank, JsonLoader.find_entry.
    rewrite (list_find_replaced _ _ _ _ t' Htank Hid').
    rewrite (list_find_replaced _ _ _ _ e' Hentry Hsid).
    rewrite Hparse. simpl. rewrite Hnext.
    assert (JsonLoader.set_entry e' cleaned_date (Calendar.strftime next) = e')
      as -> by reflexivity.
    assert (JsonLoader.set_tank t' cleaned_date (Calendar.strftime next) notes = t') as ->.
    { rewrite Ht'. unfold JsonLoader.set_tank, JsonLoader.set_maintenance. simpl.
      destruct (JsonLoader.truthy notes); reflexivity. }
    rewrite !list_insert_insert_eq. rewrite Hs'. reflexivity.
  - unfold JsonLoader.reload_data, JsonLoader.loaded. rewrite Hload'.
    rewrite Hs'. simpl. reflexivity.
Qed.

Lemma update_maintenance_is_idempotent_witness :
  let s' := fst (JsonLoader.update_maintenance Samples.cold "T1" "2025-06-01" None) in
  JsonLoader.reload_data s' = (s', JsonLoader.loaded s').
Proof.
  apply (update_maintenance_is_idempotent Samples.cold _ "T1" "2025-06-01" None
           "Maintenance updated for T1"
           (JsonLoader.set_tank Samples.tank_A "2025-06-01" "2025-07-01" None)).
  reflexivity.
Defined.

(** X4.  Reading a tank that update_maintenance has updated.  When the date one
    cleaning interval after the cleanedDate is in year 1000 or later,
    get_single_tank returns the tank on any day, with days_since_cleaned counted
    from the cleanedDate and days_until_maintenance counted to the date written,
    so that the two add up to the cleaning interval of the schedule entry (30
    when it has none).  When that date is before year 1000, the text written for
    it is not read back: get_single_tank raises ValueError for the tank, and the
    listing of all the tanks does not return any more. *)
Theorem updated_tank_is_readable (s s' : JsonLoader.store)
  (tank_id cleaned_date : string) (notes : option string) (msg : string) (t' : tank)
  (today : Calendar.date) :
  JsonLoader.update_maintenance s tank_id cleaned_date notes
  = (s', Return (JsonLoader.Success msg t')) ->
  exists cleaned next j e,
    Calendar.strptime cleaned_date = Return cleaned
    /\ JsonLoader.find_entry tank_id (snd (JsonLoader.get_maintenance_schedule s))
       = Some (j, e)
    /\ Calendar.add_days cleaned (get (cleaning_interval_days e) 30) = Return next
    /\ (1000 <= Calendar.year next ->
        exists st since until,
          TankService.get_single_tank s' tank_id today
          = (s', Return (Some (TankService.with_derived t' st since until)))
          /\ since = Calendar.days_between today cleaned
          /\ since + until = get (cleaning_interval_days e) 30)
    /\ (Calendar.year next < 1000 ->
        TankService.get_single_tank s' tank_id today = (s', Raise ValueError)
        /\ forall tanks,
             snd (TankService.get_all_tanks_with_status s' today) <> Return tanks).
Proof.
  intros Hcall. pose proof (updated_lookup _ _ _ _ _ _ _ Hcall) as Hlookup.
  apply update_maintenance_success in Hcall
    as (i & j & t & e & cleaned & next & _ & Hentry & Hparse & Hnext & Ht' & _).
  destruct (add_days_read_back _ _ _ Hnext) as (Hlong & Hshort & _).
  pose proof (add_days_later _ _ _ Hnext) as Hlater.
  set (text := Calendar.strftime next) in *. clearbody text.
  exists cleaned, next, j, e.
  split_and!.
  - exact Hparse.
  - unfold JsonLoader.get_maintenance_schedule. rewrite load_data_loaded. exact Hentry.
  - exact Hnext.
  - intros Hyear.
    eexists _, (Calendar.days_between today cleaned), (Calendar.days_between next today).
    split_and!.
    + unfold TankService.get_single_tank. rewrite Hlookup.
      unfold TankService.get_tank_status, TankService.calculate_days_since_cleaned,
        TankService.calculate_days_until_maintenance.
      rewrite Ht'. simpl. rewrite Hparse. simpl. rewrite (Hlong Hyear). simpl.
      reflexivity.
    + reflexivity.
    + unfold Calendar.days_between in *. lia.
  - intros Hyear. split.
    + unfold TankService.get_single_tank. rewrite Hlookup.
      unfold TankService.calculate_days_since_cleaned,
        TankService.calculate_days_until_maintenance.
      rewrite Ht'. simpl. rewrite Hparse. simpl. rewrite (Hshort Hyear). reflexivity.
    + intros listed Hlisted.
      unfold TankService.get_all_tanks_with_status in Hlisted.
      unfold JsonLoader.get_tank_by_id in Hlookup.
      destruct (JsonLoader.get_tanks s') as [s2 fleet]. cbn [snd] in Hlisted.
      injection Hlookup as _ Hfound.
      destruct (JsonLoader.find_tank tank_id fleet) as [[k found] |] eqn:Hfind;
        [| discriminate].
      injection Hfound as ->.
      apply list_find_Some in Hfind as (Hk & _).
      apply each_Return in Hlisted.
      destruct (Forall2_lookup_l _ _ _ _ _ Hlisted Hk) as (shown & _ & Hshown).
      unfold TankService.tank_with_status in Hshown.
      apply bind_Return in Hshown as (last & _ & Hshown).
      apply bind_Return in Hshown as (since & _ & Hshown).
      apply bind_Return in Hshown as (written & Htext & Hshown).
      apply bind_Return in Hshown as (until & Huntil & _).
      rewrite Ht' in Htext. cbn in Htext. injection Htext as <-.
      unfold TankService.calculate_days_until_maintenance in Huntil.
      rewrite (Hshort Hyear) in Huntil. discriminate.
Qed.

Lemma updated_tank_is_readable_witness :
  exists t,
    snd (TankService.get_single_tank
           (fst (JsonLoader.update_maintenance Samples.cold "T1" "2025-06-01" None))
           "T1" Samples.today)
    = Return (Some t).
Proof.
  destruct (updated_tank_is_readable Samples.cold _ "T1" "2025-06-01" None _ _
              Samples.today eq_refl)
    as (cleaned & next & j & e & Hparse & Hentry & Hnext & Hlong & _).
  vm_compute in Hparse. injection Hparse as <-.
  vm_compute in Hentry. injection Hentry as <- <-.
  vm_compute in Hnext. injection Hnext as <-.
  destruct Hlong as (st & since & until & Hread & _); [vm_compute; discriminate |].
  eexists. exact (f_equal snd Hread).
Defined.

(** X5.  POST /api/maintenance/update answers what update_maintenance gives on
    the notes of the request, the empty text standing for notes that are missing
    or empty.  Every failure value is answered with status 404 and the error
    text of the failure: "not found" for a tank id without a tank or without a
    schedule entry, and the invalid-date text for a date that does not parse.  A
    success is answered with its message and its tank, which has the cleanedDate
    in its maintenance record and the notes of the request, or those stored
    before when the request has none or empty ones.  An exception of the update
    is raised by the endpoint. *)
Theorem api_update_maintenance_answers (s : JsonLoader.store)
  (tank_id cleaned_date : string) (notes : option string) :
  let sent := if JsonLoader.truthy notes then notes else Some ""%string in
  let outcome := JsonLoader.update_maintenance s tank_id cleaned_date sent in
  let answer := Main.api_update_maintenance s tank_id cleaned_date notes in
  fst answer = fst outcome
  /\ (forall error,
        snd outcome = Return (JsonLoader.Failure error) ->
        snd answer = Return (Main.HTTPException 404 error))
  /\ (forall msg t',
        snd outcome = Return (JsonLoader.Success msg t') ->
        snd answer = Return (Main.Ok (msg, t'))
        /\ exists t,
             snd (JsonLoader.get_tank_by_id s tank_id) = Some t
             /\ maintenance t'
                = Some {| m_last_cleaned := Some cleaned_date;
                          m_notes := if JsonLoader.truthy notes then notes
                                     else maintenance t ≫= m_notes |})
  /\ (forall e, snd outcome = Raise e -> snd answer = Raise e)
  /\ (snd (JsonLoader.get_tank_by_id s tank_id) = None ->
      snd answer
      = Return (Main.HTTPException 404 (JsonLoader.tank_not_found tank_id)))
  /\ (is_Some (snd (JsonLoader.get_tank_by_id s tank_id)) ->
      JsonLoader.find_entry tank_id (snd (JsonLoader.get_maintenance_schedule s)) = None ->
      snd answer
      = Return (Main.HTTPException 404 (JsonLoader.schedule_not_found tank_id)))
  /\ (is_Some (snd (JsonLoader.get_tank_by_id s tank_id)) ->
      is_Some (JsonLoader.find_entry tank_id
                 (snd (JsonLoader.get_maintenance_schedule s))) ->
      (forall d, Calendar.strptime cleaned_date <> Return d) ->
      snd answer
      = Return (Main.HTTPException 404 (JsonLoader.invalid_date cleaned_date))).
Proof.
  intros sent outcome answer. subst outcome answer.
  unfold Main.api_update_maintenance. fold sent.
  assert (JsonLoader.truthy sent = JsonLoader.truthy notes) as Hsent.
  { unfold sent. destruct (JsonLoader.truthy notes) eqn:H; [exact H | reflexivity]. }
  unfold JsonLoader.get_tank_by_id, JsonLoader.get_tanks,
    JsonLoader.get_maintenance_schedule.
  rewrite (load_data_loaded s). cbn [snd].
  destruct (JsonLoader.update_maintenance s tank_id cleaned_date sent)
    as [s1 outcome] eqn:Hcall. cbn [fst snd].
  split; [reflexivity |].
  split; [intros error ->; reflexivity |].
  split.
  { intros msg t' ->. split; [reflexivity |].
    apply update_maintenance_success in Hcall
      as (i & j & t & e & cleaned & next & Htank & _ & _ & _ & Ht' & _).
    exists t. rewrite Htank. split; [reflexivity |].
    rewrite Ht'. unfold JsonLoader.set_tank, JsonLoader.set_maintenance. simpl.
    rewrite Hsent. unfold sent.
    destruct (JsonLoader.truthy notes); [reflexivity |].
    now destruct (maintenance t). }
  split; [intros e ->; reflexivity |].
  unfold JsonLoader.update_maintenance in Hcall. rewrite load_data_loaded in Hcall.
  destruct (JsonLoader.find_tank _ _) as [[i t] |]; cbn [fmap option_fmap option_map snd].
  - split; [discriminate |].
    destruct (JsonLoader.find_entry _ _) as [[j e] |].
    + split; [discriminate |].
      intros _ _ Hdate.
      destruct (Calendar.strptime cleaned_date) as [cleaned | e0] eqn:Hparse;
        [now destruct (Hdate cleaned) |].
      pose proof (strptime_raises _ _ Hparse) as ->.
      now injection Hcall as _ <-.
    + split; [intros _ _; now injection Hcall as _ <- |].
      intros _ [x Hx]. discriminate.
  - split; [intros _; now injection Hcall as _ <- |].
    split; intros [x Hx]; discriminate.
Qed.

Lemma api_update_maintenance_answers_witness :
  snd (Main.api_update_maintenance Samples.cold "T1" "yesterday" None)
  = Return (Main.HTTPException 404
              "Invalid date format for cleaned_date: 'yesterday'. Expected 'YYYY-MM-DD'.").
Proof.
  apply (api_update_maintenance_answers Samples.cold "T1" "yesterday" None).
  - eexists. reflexivity.
  - eexists. reflexivity.
  - intros d. vm_compute. discriminate.
Defined.

(** ** The tank service: listing, single tank, history and summary *)

Section TankListing.

Import TankService.

Lemma sum_ints_from (l : list Z) (z : Z) : fold_left Z.add l z = z + sum_ints l.
Proof.
  unfold sum_ints. revert z. induction l as [| a l IH]; intros z; simpl; [lia |].
  rewrite (IH (z + a)), (IH (0 + a)). lia.
Qed.

Lemma sum_ints_cons (a : Z) (l : list Z) : sum_ints (a :: l) = a + sum_ints l.
Proof. unfold sum_ints at 1. simpl. apply sum_ints_from. Qed.

Lemma sum_ints_app (l l' : list Z) : sum_ints (l ++ l') = sum_ints l + sum_ints l'.
Proof.
  induction l as [| a l IH]; simpl; [reflexivity |].
  rewrite !sum_ints_cons, IH. lia.
Qed.

Lemma len_cons {A : Type} (a : A) (l : list A) : len (a :: l) = 1 + len l.
Proof. unfold len. simpl length. lia. Qed.

(** What a turn of the listing loop returns. *)
Lemma tank_with_status_Return (t listed : tank) (today : Calendar.date) :
  tank_with_status t today = Return listed <->
  exists last since next until st loc capacity current_level current,
    last_cleaned t = Some last
    /\ calculate_days_since_cleaned last today = Return since
    /\ next_maintenance t = Some next
    /\ calculate_days_until_maintenance next today = Return until
    /\ get_tank_status t today = Return st
    /\ tank_location t = Some loc
    /\ capacity_liters t = Some capacity
    /\ current_level_percent t = Some current_level
    /\ current_readings t = Some current
    /\ listed = {| id := id t; name := name t; tank_location := Some loc;
                   capacity_liters := Some capacity;
                   current_level_percent := Some current_level;
                   last_cleaned := Some last; next_maintenance := Some next;
                   current_readings := Some current; history := None;
                   maintenance := None; tank_status := Some st;
                   days_since_cleaned := Some since;
                   days_until_maintenance := Some until |}.
Proof.
  unfold tank_with_status. split.
  - intros H.
    destruct (last_cleaned t) as [last |]; [| discriminate]. simpl in H.
    destruct (calculate_days_since_cleaned last today) as [since |] eqn:Hs;
      [| discriminate].
    simpl in H.
    destruct (next_maintenance t) as [next |]; [| discriminate]. simpl in H.
    destruct (calculate_days_until_maintenance next today) as [until |] eqn:Hu;
      [| discriminate].
    simpl in H.
    destruct (get_tank_status t today) as [st |] eqn:Hst; [| discriminate].
    simpl in H.
    destruct (tank_location t) as [loc |]; [| discriminate]. simpl in H.
    destruct (capacity_liters t) as [capacity |]; [| discriminate]. simpl in H.
    destruct (current_level_percent t) as [current_level |]; [| discriminate].
    simpl in H.
    destruct (current_readings t) as [current |]; [| discriminate]. simpl in H.
    injection H as <-.
    exists last, since, next, until, st, loc, capacity, current_level, current.
    split_and!; first [reflexivity | assumption].
  - intros (last & since & next & until & st & loc & capacity & current_level & current
            & -> & Hs & -> & Hu & Hst & -> & -> & -> & Hc & ->).
    simpl. rewrite Hs. simpl. rewrite Hu. simpl. rewrite Hst. simpl.
    rewrite Hc. reflexivity.
Qed.

(** The count of a status over tanks that all have one. *)
Lemma count_status_listed (st : status) (tanks : list tank) :
  Forall (fun t => is_Some (tank_status t)) tanks ->
  count_status st tanks
  = Return (len (List.filter (fun t => status_eqb (get (tank_status t) normal) st) tanks)).
Proof.
  unfold count_status. intros Hall.
  assert (each (fun t => found ← subscript "status" (tank_status t);
                         mret (if status_eqb found st then [1] else [])) tanks
          = Return (List.map (fun t => if status_eqb (get (tank_status t) normal) st
                                       then [1] else []) tanks)) as ->.
  { induction Hall as [| t l [found Hfound] _ IH]; simpl; [reflexivity |].
    rewrite Hfound. simpl. rewrite IH. reflexivity. }
  simpl. f_equal. clear Hall.
  induction tanks as [| t l IH]; simpl; [reflexivity |].
  rewrite sum_ints_app, IH.
  destruct (status_eqb _ st); [rewrite len_cons |]; reflexivity.
Qed.

(** Every status is one of the three. *)
Lemma three_statuses {A : Type} (f : A -> status) (l : list A) :
  len (List.filter (fun a => status_eqb (f a) normal) l)
  + len (List.filter (fun a => status_eqb (f a) warning) l)
  + len (List.filter (fun a => status_eqb (f a) critical) l)
  = len l.
Proof.
  induction l as [| a l IH]; simpl; [reflexivity |].
  destruct (f a); simpl; rewrite !len_cons; lia.
Qed.

Lemma get_tank_by_id_loaded (s : JsonLoader.store) (tank_id : string) :
  JsonLoader.get_tank_by_id s tank_id
  = (fst (JsonLoader.load_data s),
     snd <$> JsonLoader.find_tank tank_id (get (tanks (JsonLoader.loaded s)) [])).
Proof.
  unfold JsonLoader.get_tank_by_id, JsonLoader.get_tanks.
  rewrite load_data_loaded. reflexivity.
Qed.

(** A second lookup finds what the first found. *)
Lemma get_tank_by_id_again (s : JsonLoader.store) (tank_id : string) :
  snd (JsonLoader.get_tank_by_id (fst (JsonLoader.get_tank_by_id s tank_id)) tank_id)
  = snd (JsonLoader.get_tank_by_id s tank_id).
Proof. rewrite !get_tank_by_id_loaded. simpl. now rewrite loaded_after_load. Qed.

End TankListing.

(** X6.  get_tanks_summary counts the statuses that get_tank_status gives the
    tanks of the document: total is the number of tanks and normal + warning +
    critical = total.  An empty fleet gives zeros, average level included,
    without a division by zero.  The summary raises what the listing raises, and
    it returns whenever the listing does (for levels that add up to less than
    2^1000). *)
Theorem tanks_summary_counts (s : JsonLoader.store) (today : Calendar.date) :
  let fleet := snd (JsonLoader.get_tanks s) in
  let listing := snd (TankService.get_all_tanks_with_status s today) in
  let outcome := snd (TankService.get_tanks_summary s today) in
  (forall r, outcome = Return r ->
     exists statuses,
       Forall2 (fun t st => TankService.get_tank_status t today = Return st) fleet statuses
       /\ TankService.sum_total r = len fleet
       /\ TankService.sum_normal r
          = len (List.filter (fun st => TankService.status_eqb st normal) statuses)
       /\ TankService.sum_warning r
          = len (List.filter (fun st => TankService.status_eqb st warning) statuses)
       /\ TankService.sum_critical r
          = len (List.filter (fun st => TankService.status_eqb st critical) statuses)
       /\ TankService.sum_normal r + TankService.sum_warning r
          + TankService.sum_critical r = TankService.sum_total r)
  /\ (fleet = [] -> outcome = Return (TankService.TanksSummary 0 0 0 0 0))
  /\ (forall e, listing = Raise e -> outcome = Raise e)
  /\ (forall tanks, listing = Return tanks ->
        Z.abs (sum_ints (List.map (fun t => get (current_level_percent t) 0) tanks))
        < 2 ^ 1000 ->
        exists r, outcome = Return r).
Proof.
  intros fleet listing outcome. subst fleet listing outcome.
  unfold TankService.get_tanks_summary, TankService.get_all_tanks_with_status.
  destruct (JsonLoader.get_tanks s) as [s1 fleet]. simpl snd.
  assert (forall tanks,
            each (fun t => TankService.tank_with_status t today) fleet = Return tanks ->
            Forall (fun t => is_Some (tank_status t) /\ is_Some (current_level_percent t))
              tanks
            /\ Forall2 (fun t st => TankService.get_tank_status t today = Return st)
                 fleet (List.map (fun t => get (tank_status t) normal) tanks)) as Hlisted.
  { intros tanks Hlist. apply each_Return in Hlist.
    induction Hlist as [| t listed fleet' tanks' Hone _ [IH1 IH2]]; simpl.
    - split; constructor.
    - apply tank_with_status_Return in Hone
        as (last & since & next & until & st & loc & capacity & current_level & current
            & _ & _ & _ & _ & Hst & _ & _ & _ & _ & ->).
      split; constructor; simpl; eauto. }
  split_and!.
  - intros r H.
    apply bind_Return in H as (tanks & Hlist & H).
    destruct (Hlisted tanks Hlist) as [Hall Hstatuses].
    assert (Forall (fun t => is_Some (tank_status t)) tanks) as Hst
      by (eapply Forall_impl; [exact Hall | intros t Ht; apply Ht]).
    rewrite !(count_status_listed _ tanks Hst), !ret_bind in H.
    apply bind_Return in H as (avg & _ & [= <-]). simpl.
    exists (List.map (fun t => get (tank_status t) normal) tanks).
    assert (len tanks = len fleet) as Hlen.
    { unfold len. f_equal. apply each_Return in Hlist.
      symmetry. exact (Forall2_length _ _ _ Hlist). }
    assert (forall st,
              len (List.filter
                     (fun t => TankService.status_eqb (get (tank_status t) normal) st) tanks)
              = len (List.filter (fun st' => TankService.status_eqb st' st)
                       (List.map (fun t => get (tank_status t) normal) tanks))) as Hmap.
    { intros st. clear. induction tanks as [| t l IH]; simpl; [reflexivity |].
      destruct (TankService.status_eqb _ st); [rewrite !len_cons |]; now rewrite IH. }
    split_and!; try (apply Hmap); [exact Hstatuses | exact Hlen |].
    apply (three_statuses (fun t => get (tank_status t) normal)).
  - intros ->. reflexivity.
  - intros e ->. reflexivity.
  - intros tanks Hlist Hlevels. rewrite Hlist, ret_bind.
    destruct (Hlisted tanks Hlist) as [Hall _].
    assert (Forall (fun t => is_Some (tank_status t)) tanks) as Hst
      by (eapply Forall_impl; [exact Hall | intros t Ht; apply Ht]).
    rewrite !(count_status_listed _ tanks Hst), !ret_bind.
    destruct (0 <? len tanks) eqn:Hsome.
    + rewrite (each_subscript "current_level_percent" current_level_percent 0), ret_bind
        by (eapply Forall_impl; [exact Hall | intros t Ht; apply Ht]).
      apply Z.ltb_lt in Hsome.
      destruct (int_true_div_defined _ (len tanks) ltac:(lia) Hlevels) as [avg ->].
      rewrite ret_bind. eauto.
    + rewrite ret_bind. eauto.
Qed.

Lemma tanks_summary_counts_witness :
  exists r,
    snd (TankService.get_tanks_summary Samples.only_B Samples.today) = Return r
    /\ TankService.sum_normal r + TankService.sum_warning r + TankService.sum_critical r
       = TankService.sum_total r.
Proof.
  destruct (proj2 (proj2 (proj2 (tanks_summary_counts Samples.only_B Samples.today)))
              _ eq_refl ltac:(vm_compute; reflexivity)) as [r Hr].
  exists r. split; [exact Hr |].
  destruct (proj1 (tanks_summary_counts Samples.only_B Samples.today) r Hr)
    as (statuses & _ & _ & _ & _ & _ & Hsum).
  exact Hsum.
Defined.

(** X7.  The listing and the single-tank lookup agree on a tank.  When the turn
    of the listing loop returns for the tank that an id names, so does
    get_single_tank, with the same status, day counts, dates and readings; the
    listing leaves the history and the maintenance record out, the lookup keeps
    them.  The lookup asks less: where it returns, the listing does if the tank
    also has its location, capacity, level and readings, and a tank without a
    location that the lookup serves makes the listing raise KeyError. *)
Theorem listing_agrees_with_single_tank (s : JsonLoader.store) (tank_id : string)
  (t : tank) (today : Calendar.date) :
  snd (JsonLoader.get_tank_by_id s tank_id) = Some t ->
  (forall listed,
     TankService.tank_with_status t today = Return listed ->
     exists single,
       snd (TankService.get_single_tank s tank_id today) = Return (Some single)
       /\ tank_status single = tank_status listed
       /\ days_since_cleaned single = days_since_cleaned listed
       /\ days_until_maintenance single = days_until_maintenance listed
       /\ last_cleaned single = last_cleaned listed
       /\ next_maintenance single = next_maintenance listed
       /\ current_readings single = current_readings listed
       /\ current_level_percent single = current_level_percent listed
       /\ history single = history t /\ maintenance single = maintenance t
       /\ history listed = None /\ maintenance listed = None)
  /\ (forall single,
        snd (TankService.get_single_tank s tank_id today) = Return (Some single) ->
        is_Some (tank_location t) -> is_Some (capacity_liters t) ->
        is_Some (current_level_percent t) -> is_Some (current_readings t) ->
        exists listed, TankService.tank_with_status t today = Return listed)
  /\ (forall single,
        snd (TankService.get_single_tank s tank_id today) = Return (Some single) ->
        tank_location t = None ->
        TankService.tank_with_status t today = Raise (KeyError "location")).
Proof.
  intros Hfound. unfold TankService.get_single_tank.
  destruct (JsonLoader.get_tank_by_id s tank_id) as [s1 found]. simpl in Hfound.
  subst found. simpl snd.
  split_and!.
  - intros listed Hlisted.
    apply tank_with_status_Return in Hlisted
      as (last & since & next & until & st & loc & capacity & current_level & current
          & Hlast & Hs & Hnext & Hu & Hst & _ & _ & Hlevel & Hcurrent & ->).
    rewrite Hlast, Hnext. simpl. rewrite Hs. simpl. rewrite Hu. simpl. rewrite Hst.
    simpl. eexists. split; [reflexivity |]. simpl.
    rewrite Hlast, Hnext, Hlevel, Hcurrent. split_and!; reflexivity.
  - intros single Hsingle [loc Hloc] [capacity Hcap] [current_level Hlevel]
      [current Hcurrent].
    destruct (last_cleaned t) as [last |] eqn:Hlast; [| discriminate]. simpl in Hsingle.
    destruct (TankService.calculate_days_since_cleaned last today) as [since |] eqn:Hs;
      [| discriminate].
    simpl in Hsingle.
    destruct (next_maintenance t) as [next |] eqn:Hnext; [| discriminate].
    simpl in Hsingle.
    destruct (TankService.calculate_days_until_maintenance next today) as [until |] eqn:Hu;
      [| discriminate].
    simpl in Hsingle.
    destruct (TankService.get_tank_status t today) as [st |] eqn:Hst; [| discriminate].
    eexists. apply tank_with_status_Return.
    exists last, since, next, until, st, loc, capacity, current_level, current.
    split_and!; first [reflexivity | assumption].
  - intros single Hsingle Hloc.
    destruct (last_cleaned t) as [last |] eqn:Hlast; [| discriminate]. simpl in Hsingle.
    destruct (TankService.calculate_days_since_cleaned last today) as [since |] eqn:Hs;
      [| discriminate].
    simpl in Hsingle.
    destruct (next_maintenance t) as [next |] eqn:Hnext; [| discriminate].
    simpl in Hsingle.
    destruct (TankService.calculate_days_until_maintenance next today) as [until |] eqn:Hu;
      [| discriminate].
    simpl in Hsingle.
    destruct (TankService.get_tank_status t today) as [st |] eqn:Hst; [| discriminate].
    unfold TankService.tank_with_status.
    rewrite Hlast, Hnext, Hloc. simpl. rewrite Hs. simpl. rewrite Hu. simpl.
    rewrite Hst. reflexivity.
Qed.

Lemma listing_agrees_with_single_tank_witness :
  exists single,
    snd (TankService.get_single_tank Samples.cold "T2" Samples.today)
    = Return (Some single)
    /\ tank_status single = Some critical.
Proof.
  destruct (proj1 (listing_agrees_with_single_tank Samples.cold "T2" Samples.tank_B
                     Samples.today eq_refl) _ eq_refl)
    as (single & Hsingle & Hstatus & _).
  exists single. split; [exact Hsingle | exact Hstatus].
Defined.

(** X8.  The tank endpoints agree on which tanks there are, and the trend of a
    tank that is there is never the "Tank not found" error.  GET
    /api/tanks/{id}/history answers 404 exactly for the ids for which GET
    /api/tanks/{id} does (when that one returns), and otherwise gives the
    history of the tank, empty when the tank has none; the trend given with a
    tank that has fewer than two samples is insufficient_data, and one with more
    counts all the samples. *)
Theorem tank_endpoints_agree (s : JsonLoader.store) (tank_id : string)
  (today : Calendar.date)
  (r : Main.response (tank * AnalyticsService.quality_analysis
                      * AnalyticsService.trend_analysis)) :
  snd (Main.get_tank s tank_id today) = Return r ->
  match r with
  | Main.HTTPException status_code detail =>
      status_code = 404
      /\ snd (JsonLoader.get_tank_by_id s tank_id) = None
      /\ snd (Main.get_history s tank_id) = Main.HTTPException 404 "Tank not found"
  | Main.Ok (single, analysis, trend) =>
      exists t,
        snd (JsonLoader.get_tank_by_id s tank_id) = Some t
        /\ snd (Main.get_history s tank_id) = Main.Ok (get (history t) [])
        /\ history single = history t
        /\ analysis = AnalyticsService.analyze_water_quality t
        /\ (forall error, trend <> AnalyticsService.TrendError error)
        /\ ((length (get (history t) []) < 2)%nat ->
            trend = AnalyticsService.InsufficientData)
        /\ (forall id' a b c n, trend = AnalyticsService.Trends id' a b c n ->
              id' = tank_id /\ n = len (get (history t) []))
  end.
Proof.
  unfold Main.get_tank, Main.get_history, TankService.get_single_tank,
    TankService.get_tank_history, AnalyticsService.get_trend_analysis.
  pose proof (get_tank_by_id_again s tank_id) as Hagain.
  destruct (JsonLoader.get_tank_by_id s tank_id) as [s1 [t |]]; simpl in Hagain |- *.
  - destruct (x ← subscript "last_cleaned" (last_cleaned t); _) as [[single |] |] eqn:Hs;
      [| | discriminate].
    + destruct (JsonLoader.get_tank_by_id s1 tank_id) as [s2 found].
      simpl in Hagain. subst found.
      apply bind_Return in Hs as (last & _ & Hs).
      apply bind_Return in Hs as (since & _ & Hs).
      apply bind_Return in Hs as (next & _ & Hs).
      apply bind_Return in Hs as (until & _ & Hs).
      apply bind_Return in Hs as (st & _ & [= <-]).
      destruct (length (get (history t) []) <? 2)%nat eqn:Hshort; simpl.
      * intros [= <-]. exists t. split_and!; try reflexivity; try discriminate.
      * intros Htrend. apply bind_Return in Htrend as (trend & Htrend & [= <-]).
        apply bind_Return in Htrend as (a1 & _ & Htrend).
        apply bind_Return in Htrend as (a2 & _ & Htrend).
        apply bind_Return in Htrend as (a3 & _ & Htrend).
        apply bind_Return in Htrend as (a4 & _ & Htrend).
        apply bind_Return in Htrend as (a5 & _ & Htrend).
        apply bind_Return in Htrend as (a6 & _ & [= <-]).
        exists t. split_and!; try reflexivity; try discriminate.
        -- intros Hlt. apply Nat.ltb_ge in Hshort. lia.
        -- intros id' a b c n [= <- _ _ _ <-]. split; reflexivity.
    + apply bind_Return in Hs as (last & _ & Hs).
      apply bind_Return in Hs as (since & _ & Hs).
      apply bind_Return in Hs as (next & _ & Hs).
      apply bind_Return in Hs as (until & _ & Hs).
      apply bind_Return in Hs as (st & _ & [=]).
  - intros [= <-]. split_and!; reflexivity.
Qed.

Lemma tank_endpoints_agree_witness :
  snd (Main.get_history Samples.cold "T9") = Main.HTTPException 404 "Tank not found".
Proof.
  exact (proj2 (proj2 (tank_endpoints_agree Samples.cold "T9" Samples.today
                         (Main.HTTPException 404 "Tank not found") eq_refl))).
Defined.

(** ** The wards *)

Section Wards2.

Import GisService Notions.

Lemma has_ward_false (k : string) (wd : list (string * ward)) :
  has_ward k wd = false <-> ~ In k (List.map fst wd).
Proof.
  unfold has_ward. induction wd as [| [k' w'] wd IH]; simpl; [tauto |].
  rewrite orb_false_iff, IH.
  destruct (String.eqb_spec k' k); intuition (congruence || auto).
Qed.

Lemma set_ward_absent (k : string) (w : ward) (wd : list (string * ward)) :
  has_ward k wd = false -> set_ward k w wd = wd ++ [(k, w)].
Proof.
  unfold has_ward. induction wd as [| [k' w'] wd IH]; simpl; [reflexivity |].
  intros H. apply orb_false_iff in H as [Hk Hrest].
  rewrite Hk, (IH Hrest). reflexivity.
Qed.

Lemma the_ward_last (k : string) (w : ward) (wd : list (string * ward)) :
  has_ward k wd = false -> the_ward k (wd ++ [(k, w)]) = Return w.
Proof.
  unfold has_ward, the_ward. induction wd as [| [k' w'] wd IH]; simpl.
  - now rewrite String.eqb_refl.
  - intros H. apply orb_false_iff in H as [Hk Hrest]. rewrite Hk. exact (IH Hrest).
Qed.

Lemma ward_present (k : string) (wd : list (string * ward)) :
  has_ward k wd = true ->
  exists pre w0 post,
    wd = pre ++ (k, w0) :: post
    /\ ~ In k (List.map fst pre)
    /\ the_ward k wd = Return w0
    /\ forall w, set_ward k w wd = pre ++ (k, w) :: post.
Proof.
  unfold has_ward, the_ward. induction wd as [| [k' w'] wd IH]; simpl; [discriminate |].
  destruct (String.eqb_spec k' k) as [-> | Hne]; simpl.
  - intros _. exists [], w', wd. split_and!; auto.
  - intros H. destruct (IH H) as (pre & w0 & post & -> & Hpre & Hthe & Hset).
    exists ((k', w') :: pre), w0, post. split_and!; simpl.
    + reflexivity.
    + intros [-> | Hin]; [now apply Hne | now apply Hpre].
    + exact Hthe.
    + intros w. now rewrite Hset.
Qed.

(** The two ways in which a turn of the first loop changes [ward_data]. *)
Lemma file_tank_cases (wd wd' : list (string * ward)) (t : tank) :
  file_tank wd t = Return wd' ->
  exists k,
    ward_id t = Return k
    /\ ((~ In k (List.map fst wd)
         /\ wd' = wd ++ [(k, add_tank t (new_ward (fst (coordinates t))
                                           (snd (coordinates t))))])
        \/ exists pre w0 post,
             wd = pre ++ (k, w0) :: post
             /\ ~ In k (List.map fst pre)
             /\ wd' = pre ++ (k, add_tank t w0) :: post).
Proof.
  unfold file_tank. destruct (coordinates t) as [lat lng]. simpl.
  destruct (ward_id t) as [k | e]; [| discriminate]. simpl.
  intros H. exists k. split; [reflexivity |].
  destruct (has_ward k wd) eqn:Hhas.
  - right. destruct (ward_present k wd Hhas) as (pre & w0 & post & Hwd & Hpre & Hthe & Hset).
    rewrite Hthe in H. simpl in H. rewrite Hset in H. injection H as <-.
    exists pre, w0, post. auto.
  - left. rewrite (set_ward_absent _ _ _ Hhas), (the_ward_last _ _ _ Hhas) in H.
    simpl in H.
    assert (has_ward k (wd ++ [(k, new_ward lat lng)]) = true) as Hnow.
    { unfold has_ward. rewrite existsb_app. simpl. rewrite String.eqb_refl.
      now rewrite orb_true_r. }
    destruct (ward_present _ _ Hnow) as (pre & w0 & post & Hwd & Hpre & _ & Hset).
    rewrite Hset in H. injection H as <-.
    apply has_ward_false in Hhas. split; [exact Hhas |].
    (* the entry that was appended is the one that is replaced *)
    assert (pre = wd /\ post = []) as [-> ->].
    { clear Hset Hnow. revert pre Hwd Hpre.
      induction wd as [| [k' w'] wd IH]; intros pre Hwd Hpre; simpl in *.
      - destruct pre as [| p pre]; simpl in Hwd.
        + injection Hwd as _ <-. auto.
        + injection Hwd as <- Hrest. destruct pre; discriminate.
      - destruct pre as [| p pre]; simpl in Hwd.
        + injection Hwd as -> _ _. exfalso. apply Hhas. now left.
        + injection Hwd as <- Hrest.
          destruct (IH ltac:(intros Hin; apply Hhas; now right) pre Hrest
                      ltac:(intros Hin; apply Hpre; now right)) as [-> ->].
          auto. }
    reflexivity.
Qed.

Lemma count_in_app (st : status) (l l' : list tank) :
  count_in st (l ++ l') = count_in st l + count_in st l'.
Proof.
  unfold count_in, len. rewrite List.filter_app, length_app. lia.
Qed.

Lemma count_in_one (st : status) (t : tank) :
  count_in st [t] = if TankService.status_eqb (status_of t) st then 1 else 0.
Proof. unfold count_in. simpl. now destruct (TankService.status_eqb _ st). Qed.

(** What [add_tank] makes of a good entry is a good entry. *)
Lemma add_tank_ok (k : string) (w : ward) (t : tank) :
  ward_id t = Return k ->
  (ward_tanks w = [] -> critical_count w = 0 /\ warning_count w = 0
                        /\ normal_count w = 0 /\ total_capacity w = 0) ->
  (ward_tanks w <> [] -> ward_entry_ok (k, w)) ->
  ward_entry_ok (k, add_tank t w)
  /\ len (ward_tanks (add_tank t w)) = len (ward_tanks w) + 1
  /\ total_capacity (add_tank t w) = total_capacity w + get (capacity_liters t) 0.
Proof.
  intros Hk Hnew Hold.
  assert (Forall (fun t => ward_id t = Return k) (ward_tanks w)
          /\ critical_count w = count_in critical (ward_tanks w)
          /\ warning_count w = count_in warning (ward_tanks w)
          /\ normal_count w = count_in normal (ward_tanks w)
          /\ total_capacity w
             = sum_ints (List.map (fun t => get (capacity_liters t) 0) (ward_tanks w)))
    as (Hall & Hc & Hw & Hn & Hcap).
  { destruct (ward_tanks w) as [| t0 ts] eqn:Hts.
    - destruct (Hnew eq_refl) as (-> & -> & -> & ->). split_and!; auto.
    - destruct (Hold ltac:(discriminate)) as (_ & H1 & H2 & H3 & H4 & H5).
      simpl in *. rewrite Hts in *. split_and!; assumption. }
  pose proof (count_in_one critical t) as Hone_c.
  pose proof (count_in_one warning t) as Hone_w.
  pose proof (count_in_one normal t) as Hone_n.
  unfold ward_entry_ok, add_tank. fold (status_of t).
  destruct (status_of t); simpl in *;
    rewrite !count_in_app, Hone_c, Hone_w, Hone_n, List.map_app, sum_ints_app;
    simpl; rewrite sum_ints_cons; unfold len; rewrite length_app; simpl;
    (split_and!;
     [ now destruct (ward_tanks w)
     | apply Forall_app; split; [exact Hall | now constructor]
     | unfold len in *; lia | unfold len in *; lia | unfold len in *; lia
     | unfold sum_ints at 2; simpl; lia
     | lia
     | reflexivity ]).
Qed.

(** A turn of the loop keeps [ward_data] good. *)
Lemma file_tank_ok (filed : list tank) (wd wd' : list (string * ward)) (t : tank) :
  wards_ok filed wd -> file_tank wd t = Return wd' -> wards_ok (filed ++ [t]) wd'.
Proof.
  intros (Hnodup & Hentries & Hcount & Hcap & Hfiled & Hfrom) Hturn.
  assert (In t (filed ++ [t])) as Hlast by (apply in_or_app; right; now left).
  assert (forall w, Forall (fun t' => In t' filed) (ward_tanks w) ->
                    Forall (fun t' => In t' (filed ++ [t])) (ward_tanks (add_tank t w)))
    as Hgrown.
  { intros w Hw. unfold add_tank. destruct (get (tank_status t) normal); simpl;
      (apply Forall_app; split;
       [ eapply Forall_impl; [exact Hw | intros t' Ht'; apply in_or_app; now left]
       | constructor; [exact Hlast | constructor] ]). }
  assert (forall kv : string * ward,
            Forall (fun t' => In t' filed) (ward_tanks (snd kv)) ->
                     Forall (fun t' => In t' (filed ++ [t])) (ward_tanks (snd kv)))
    as Hwider.
  { intros kv Hkv. eapply Forall_impl; [exact Hkv |].
    intros t' Ht'. apply in_or_app. now left. }
  assert (forall w, In t (ward_tanks (add_tank t w))) as Hmember.
  { intros w. unfold add_tank. destruct (get (tank_status t) normal); simpl;
      apply in_or_app; right; now left. }
  assert (forall w t', In t' (ward_tanks w) -> In t' (ward_tanks (add_tank t w)))
    as Hkept.
  { intros w t' Hin. unfold add_tank. destruct (get (tank_status t) normal); simpl;
      apply in_or_app; now left. }
  apply file_tank_cases in Hturn as (k & Hk & [[Hfresh ->] | Hthere]).
  - destruct (add_tank_ok k (new_ward (fst (coordinates t)) (snd (coordinates t))) t Hk)
      as (Hok & Hlen & Htotal).
    { intros _. simpl. auto. }
    { intros H. now destruct H. }
    specialize (Hmember (new_ward (fst (coordinates t)) (snd (coordinates t)))).
    specialize (Hgrown (new_ward (fst (coordinates t)) (snd (coordinates t)))
                  ltac:(constructor)).
    set (w1 := add_tank t _) in *. clearbody w1. cbn [new_ward ward_tanks total_capacity] in *.
    unfold wards_ok. rewrite !List.map_app, !sum_ints_app. cbn [List.map fst snd].
    split_and!.
    + apply NoDup_app. split_and!; [exact Hnodup | | apply NoDup_singleton].
      intros x Hx Hx'. apply list_elem_of_In in Hx.
      apply list_elem_of_singleton in Hx'. now subst.
    + apply Forall_app. split; [exact Hentries | now constructor].
    + rewrite Hcount, sum_ints_cons, Hlen. unfold sum_ints, len. simpl.
      rewrite length_app. simpl. lia.
    + rewrite Hcap, !sum_ints_cons, Htotal. unfold sum_ints at 2 4. simpl. lia.
    + apply Forall_app. split.
      * eapply Forall_impl; [exact Hfiled |]. intros t' (kv & Hin & Ht').
        exists kv. split; [apply in_or_app; now left | exact Ht'].
      * constructor; [| constructor]. exists (k, w1).
        split; [apply in_or_app; right; now left | exact Hmember].
    + apply Forall_app. split.
      * eapply Forall_impl; [exact Hfrom | exact Hwider].
      * constructor; [exact Hgrown | constructor].
  - destruct Hthere as (pre & w0 & post & -> & Hpre & ->).
    apply Forall_app in Hentries as [Hentries_pre Hentries_post].
    apply Forall_cons in Hentries_post as [Hw0 Hentries_post].
    destruct (add_tank_ok k w0 t Hk) as (Hok & Hlen & Htotal).
    { intros Hnone. now destruct Hw0. }
    { intros _. exact Hw0. }
    apply Forall_app in Hfrom as [Hfrom_pre Hfrom_post].
    apply Forall_cons in Hfrom_post as [Hfrom_w0 Hfrom_post].
    specialize (Hmember w0). specialize (Hkept w0). specialize (Hgrown w0 Hfrom_w0).
    set (w1 := add_tank t w0) in *. clearbody w1.
    unfold wards_ok. rewrite !List.map_app, !sum_ints_app in *.
    cbn [List.map fst snd] in *. rewrite !sum_ints_cons in *.
    split_and!.
    + exact Hnodup.
    + apply Forall_app. split; [exact Hentries_pre |]. now constructor.
    + rewrite Hlen. unfold len in *. rewrite length_app. simpl. lia.
    + rewrite Htotal. unfold sum_ints at 4. simpl. lia.
    + apply Forall_app. split.
      * eapply Forall_impl; [exact Hfiled |]. intros t' (kv & Hin & Ht').
        apply in_app_or in Hin as [Hin | [<- | Hin]].
        -- exists kv. split; [apply in_or_app; now left | exact Ht'].
        -- exists (k, w1). split; [apply in_or_app; right; now left |].
           apply Hkept. exact Ht'.
        -- exists kv. split; [apply in_or_app; right; now right | exact Ht'].
      * constructor; [| constructor]. exists (k, w1).
        split; [apply in_or_app; right; now left | exact Hmember].
    + apply Forall_app. split.
      * eapply Forall_impl; [exact Hfrom_pre | exact Hwider].
      * constructor; [exact Hgrown |].
        eapply Forall_impl; [exact Hfrom_post | exact Hwider].
Qed.

(** The first loop as a whole. *)
Lemma fold_file_tank_ok (tanks filed : list tank) (wd wd' : list (string * ward)) :
  wards_ok filed wd -> fold_each file_tank tanks wd = Return wd' ->
  wards_ok (filed ++ tanks) wd'.
Proof.
  revert filed wd. induction tanks as [| t tanks IH]; intros filed wd Hok; simpl.
  - intros [= <-]. now rewrite app_nil_r.
  - intros H. apply bind_Return in H as (wd1 & Hturn & Hrest).
    replace (filed ++ t :: tanks) with ((filed ++ [t]) ++ tanks)
      by (now rewrite <- app_assoc).
    apply (IH _ wd1); [| exact Hrest]. now apply (file_tank_ok filed wd).
Qed.

Lemma wards_ok_start : wards_ok [] [].
Proof. unfold wards_ok. simpl. split_and!; constructor. Qed.

(** What the second loop makes of an entry. *)
Lemma feature_of_Return (k : string) (w : ward) (f : feature) :
  feature_of k w = Return f ->
  f_ward_id f = k
  /\ f_ward_name f = ward_name k
  /\ tank_count f = len (ward_tanks w)
  /\ total_capacity_liters f = total_capacity w
  /\ critical_tanks f = critical_count w
  /\ warning_tanks f = warning_count w
  /\ normal_tanks f = normal_count w
  /\ (health_score f, f_status f)
     = (if 0 <? critical_count w then (30, critical)
        else if 0 <? warning_count w then (60, warning)
        else (90, normal))
  /\ Forall2 (fun t m => m = (id t, name t, status_of t)) (ward_tanks w) (f_tanks f).
Proof.
  unfold feature_of.
  destruct (0 <? len (ward_tanks w)); destruct (0 <? critical_count w);
    destruct (0 <? warning_count w); cbv zeta;
    (intros H; apply bind_Return in H as (members & Hmembers & [= <-]); simpl;
     split_and!; try reflexivity;
     apply each_Return in Hmembers;
     (eapply Forall2_impl; [exact Hmembers |]);
     intros t m Hm; apply bind_Return in Hm as (st & Hst & [= <-]);
     unfold status_of; destruct (tank_status t); [now injection Hst as -> | discriminate]).
Qed.

Lemma count_in_positive (st : status) (l : list tank) :
  0 < count_in st l <-> exists t, In t l /\ status_of t = st.
Proof.
  unfold count_in. induction l as [| t l IH]; simpl.
  - split; [unfold len; simpl; lia | intros (t & [] & _)].
  - destruct (TankService.status_eqb (status_of t) st) eqn:Hst.
    + split; [| rewrite len_cons; unfold len; lia].
      intros _. exists t. split; [now left |].
      destruct (status_of t), st; (reflexivity || discriminate).
    + rewrite IH. split.
      * intros (t' & Hin & Ht'). exists t'. split; [now right | exact Ht'].
      * intros (t' & [<- | Hin] & Ht'); [| eauto].
        rewrite Ht' in Hst. destruct st; discriminate.
Qed.

Lemma count_in_bounds (st : status) (l : list tank) : 0 <= count_in st l.
Proof. unfold count_in, len. lia. Qed.

(** The features are those of a good [ward_data]. *)
Lemma ward_features_ok (tanks : list tank) (features : list feature) :
  ward_features tanks = Return features ->
  exists wd,
    wards_ok tanks wd
    /\ Forall2 (fun kv f => feature_of (fst kv) (snd kv) = Return f) wd features.
Proof.
  unfold ward_features. intros H. apply bind_Return in H as (wd & Hfold & Heach).
  exists wd. split.
  - exact (fold_file_tank_ok tanks [] [] wd wards_ok_start Hfold).
  - now apply each_Return.
Qed.

(** Every tank is listed by the feature of its ward id. *)
Lemma tank_feature (tanks : list tank) (features : list feature) (t : tank) :
  ward_features tanks = Return features -> In t tanks ->
  exists f,
    In f features
    /\ ward_id t = Return (f_ward_id f)
    /\ In (id t, name t, status_of t) (f_tanks f).
Proof.
  intros H Ht. apply ward_features_ok in H
    as (wd & (_ & Hentries & _ & _ & Hfiled & _) & Hfeatures).
  destruct (proj1 (List.Forall_forall _ _) Hfiled t Ht) as (kv & Hin & Hmember).
  assert (exists f, In f features /\ feature_of (fst kv) (snd kv) = Return f)
    as (f & Hf & Hfeature).
  { clear -Hfeatures Hin. induction Hfeatures as [| kv' f wd fs Hf _ IH]; [destruct Hin |].
    destruct Hin as [-> | Hin].
    - exists f. split; [now left | exact Hf].
    - destruct (IH Hin) as (f' & Hf' & Hfeature).
      exists f'. split; [now right | exact Hfeature]. }
  exists f. split; [exact Hf |].
  pose proof (proj1 (List.Forall_forall _ _) Hentries kv Hin) as (_ & Hward & _).
  apply feature_of_Return in Hfeature as (-> & _ & _ & _ & _ & _ & _ & _ & Hmembers).
  split; [exact (proj1 (List.Forall_forall _ _) Hward t Hmember) |].
  clear -Hmembers Hmember.
  induction Hmembers as [| t' m ts ms Hm _ IH]; [destruct Hmember |].
  destruct Hmember as [-> | Hmember]; [left; now symmetry | right; now apply IH].
Qed.

End Wards2.

(** X9.  get_ward_geojson files every tank in one ward.  The features have
    pairwise different ward ids; their tank counts add up to the number of tanks
    and their capacities to the capacity of the fleet; a feature has at least
    one tank, lists as many tanks as it counts, and its critical, warning and
    normal counts add up to its tank count; every tank is listed by the feature
    of its own ward id. *)
Theorem wards_partition_the_fleet (tanks : list tank) (features : list GisService.feature) :
  GisService.ward_features tanks = Return features ->
  NoDup (List.map GisService.f_ward_id features)
  /\ sum_ints (List.map GisService.tank_count features) = len tanks
  /\ sum_ints (List.map GisService.total_capacity_liters features)
     = sum_ints (List.map (fun t => get (capacity_liters t) 0) tanks)
  /\ Forall (fun f =>
               0 < GisService.tank_count f
               /\ GisService.tank_count f = len (GisService.f_tanks f)
               /\ GisService.critical_tanks f + GisService.warning_tanks f
                  + GisService.normal_tanks f = GisService.tank_count f)
       features
  /\ Forall (fun t =>
               exists f,
                 In f features
                 /\ GisService.ward_id t = Return (GisService.f_ward_id f)
                 /\ In (id t, name t, Notions.status_of t) (GisService.f_tanks f))
       tanks.
Proof.
  intros H. pose proof (tank_feature tanks features) as Hlisted.
  specialize (fun t => Hlisted t H).
  apply ward_features_ok in H
    as (wd & (Hnodup & Hentries & Hcount & Hcap & Hfiled & _) & Hfeatures).
  assert (List.map GisService.f_ward_id features = List.map fst wd) as Hkeys.
  { clear -Hfeatures. induction Hfeatures as [| kv f wd fs Hf _ IH]; simpl; [reflexivity |].
    apply feature_of_Return in Hf as (-> & _). now rewrite IH. }
  assert (List.map GisService.tank_count features
          = List.map (fun kv => len (GisService.ward_tanks (snd kv))) wd) as Hcounts.
  { clear -Hfeatures. induction Hfeatures as [| kv f wd fs Hf _ IH]; simpl; [reflexivity |].
    apply feature_of_Return in Hf as (_ & _ & -> & _). now rewrite IH. }
  assert (List.map GisService.total_capacity_liters features
          = List.map (fun kv => GisService.total_capacity (snd kv)) wd) as Hcaps.
  { clear -Hfeatures. induction Hfeatures as [| kv f wd fs Hf _ IH]; simpl; [reflexivity |].
    apply feature_of_Return in Hf as (_ & _ & _ & -> & _). now rewrite IH. }
  rewrite Hkeys, Hcounts, Hcaps.
  split_and!; [exact Hnodup | exact Hcount | exact Hcap | |].
  - clear -Hfeatures Hentries.
    induction Hfeatures as [| kv f wd fs Hf _ IH]; [constructor |].
    apply Forall_cons in Hentries as [Hkv Hentries].
    constructor; [| exact (IH Hentries)].
    apply feature_of_Return in Hf as (_ & _ & -> & _ & -> & -> & -> & _ & Hmembers).
    destruct Hkv as (Hsome & _ & -> & -> & -> & _).
    split_and!.
    + unfold len. destruct (GisService.ward_tanks (snd kv)); [now destruct Hsome |].
      simpl. lia.
    + unfold len. f_equal. exact (Forall2_length _ _ _ Hmembers).
    + pose proof (three_statuses Notions.status_of (GisService.ward_tanks (snd kv)))
        as Hthree.
      unfold Notions.count_in. lia.
  - apply List.Forall_forall. exact Hlisted.
Qed.

Lemma wards_partition_the_fleet_witness :
  exists features,
    GisService.ward_features Examples.fleet = Return features
    /\ sum_ints (List.map GisService.tank_count features) = 3.
Proof.
  eexists. split; [vm_compute; reflexivity |].
  exact (proj1 (proj2 (wards_partition_the_fleet Examples.fleet _
                         ltac:(vm_compute; reflexivity)))).
Defined.

Section WardHealth.

Import GisService Notions.

(** The tanks that a feature lists are those of its entry. *)
Lemma members_of (l : list tank) (ms : list (string * string * status)) :
  Forall2 (fun t m => m = (id t, name t, status_of t)) l ms ->
  forall st, (exists m, In m ms /\ snd m = st) <-> exists t, In t l /\ status_of t = st.
Proof.
  induction 1 as [| t m l ms Hm _ IH]; intros st.
  - split; intros (x & [] & _).
  - split.
    + intros (m' & [<- | Hin] & Hst).
      * exists t. split; [now left |]. now rewrite Hm in Hst.
      * destruct (proj1 (IH st) (ex_intro _ m' (conj Hin Hst))) as (t' & Hin' & Ht').
        exists t'. split; [now right | exact Ht'].
    + intros (t' & [<- | Hin] & Hst).
      * exists m. split; [now left |]. now rewrite Hm.
      * destruct (proj2 (IH st) (ex_intro _ t' (conj Hin Hst))) as (m' & Hin' & Hm').
        exists m'. split; [now right | exact Hm'].
Qed.

(** A feature comes from a good entry. *)
Lemma feature_entry (tanks : list tank) (features : list feature) (f : feature) :
  ward_features tanks = Return features -> In f features ->
  exists kv,
    ward_entry_ok kv
    /\ feature_of (fst kv) (snd kv) = Return f
    /\ Forall (fun t => In t tanks) (ward_tanks (snd kv)).
Proof.
  intros H Hf. apply ward_features_ok in H
    as (wd & (_ & Hentries & _ & _ & _ & Hfrom) & Hfeatures).
  induction Hfeatures as [| kv f' wd fs Hf' _ IH]; [destruct Hf |].
  apply Forall_cons in Hentries as [Hkv Hentries].
  apply Forall_cons in Hfrom as [Hkv' Hfrom].
  destruct Hf as [-> | Hf]; [exists kv; auto | exact (IH Hentries Hfrom Hf)].
Qed.

End WardHealth.

(** X10.  The health of a ward is that of its worst tank.  A feature of
    get_ward_geojson is critical (health score 30) exactly when it lists a
    critical tank, normal (90) exactly when all the tanks it lists are normal,
    and warning (60) otherwise, that is when it lists a warning tank and no
    critical one. *)
Theorem ward_health_is_worst_tank (tanks : list tank)
  (features : list GisService.feature) (f : GisService.feature) :
  GisService.ward_features tanks = Return features -> In f features ->
  (GisService.f_status f = critical
   <-> exists m, In m (GisService.f_tanks f) /\ snd m = critical)
  /\ (GisService.f_status f = warning
      <-> (forall m, In m (GisService.f_tanks f) -> snd m <> critical)
          /\ exists m, In m (GisService.f_tanks f) /\ snd m = warning)
  /\ (GisService.f_status f = normal
      <-> forall m, In m (GisService.f_tanks f) -> snd m = normal)
  /\ GisService.health_score f
     = match GisService.f_status f with
       | critical => 30
       | warning => 60
       | normal => 90
       end.
Proof.
  intros H Hf.
  destruct (feature_entry _ _ _ H Hf) as (kv & Hkv & Hfeature & _).
  apply feature_of_Return in Hfeature
    as (_ & _ & _ & _ & _ & _ & _ & Hhealth & Hmembers).
  destruct Hkv as (_ & _ & Hc & Hw & _).
  pose proof (members_of _ _ Hmembers) as Hsame.
  pose proof (count_in_positive critical (GisService.ward_tanks (snd kv))) as Hpos_c.
  pose proof (count_in_positive warning (GisService.ward_tanks (snd kv))) as Hpos_w.
  rewrite <- Hc, <- (Hsame critical) in Hpos_c.
  rewrite <- Hw, <- (Hsame warning) in Hpos_w.
  assert (forall m, In m (GisService.f_tanks f) ->
                    snd m = critical \/ snd m = warning \/ snd m = normal) as Hthree.
  { intros m _. destruct (snd m); auto. }
  destruct (0 <? GisService.critical_count (snd kv)) eqn:Hcrit.
  - injection Hhealth as -> ->. apply Z.ltb_lt, Hpos_c in Hcrit.
    destruct Hcrit as (m & Hin & Hm).
    split_and!; [| | | reflexivity].
    + split; [eauto | reflexivity].
    + split; [discriminate | intros [Hnone _]; now destruct (Hnone m Hin)].
    + split; [discriminate | intros Hall; specialize (Hall m Hin); congruence].
  - assert (~ exists m, In m (GisService.f_tanks f) /\ snd m = critical) as Hnone.
    { intros Hsome. apply Hpos_c in Hsome. apply Z.ltb_ge in Hcrit. lia. }
    destruct (0 <? GisService.warning_count (snd kv)) eqn:Hwarn.
    + injection Hhealth as -> ->. apply Z.ltb_lt, Hpos_w in Hwarn.
      destruct Hwarn as (m & Hin & Hm).
      split_and!; [| | | reflexivity].
      * split; [discriminate | intros Hsome; now destruct Hnone].
      * split; [| reflexivity]. intros _. split; [| eauto].
        intros m' Hin' Hm'. apply Hnone. eauto.
      * split; [discriminate | intros Hall; specialize (Hall m Hin); congruence].
    + injection Hhealth as -> ->.
      assert (~ exists m, In m (GisService.f_tanks f) /\ snd m = warning) as Hnone'.
      { intros Hsome. apply Hpos_w in Hsome. apply Z.ltb_ge in Hwarn. lia. }
      split_and!; [| | | reflexivity].
      * split; [discriminate | intros Hsome; now destruct Hnone].
      * split; [discriminate | intros [_ Hsome]; now destruct Hnone'].
      * split; [| reflexivity]. intros _ m Hin.
        destruct (Hthree m Hin) as [Hm | [Hm | Hm]]; [| | exact Hm].
        -- destruct Hnone. eauto.
        -- destruct Hnone'. eauto.
Qed.

Lemma ward_health_is_worst_tank_witness :
  exists features f,
    GisService.ward_features Examples.fleet = Return features
    /\ In f features
    /\ GisService.f_ward_id f = "ward_3_7"%string
    /\ GisService.f_status f = critical.
Proof.
  eexists _, _. split; [vm_compute; reflexivity |].
  split; [left; reflexivity |]. split; [reflexivity |].
  apply (proj2 (proj1 (ward_health_is_worst_tank Examples.fleet _ _
                         ltac:(vm_compute; reflexivity) ltac:(left; reflexivity)))).
  eexists. split; [left; reflexivity | reflexivity].
Defined.

(** X11.  GET /api/gis/wards/{ward_id} answers with a feature exactly when some
    tank of the fleet has that ward id, and with status 404 and "Ward not found"
    when none has; the feature is the one of that ward id and lists that tank. *)
Theorem ward_details_found_iff (s : JsonLoader.store) (today : Calendar.date)
  (ward_id : string) (r : Main.response GisService.feature) :
  snd (Main.api_get_ward_details s today ward_id) = Return r ->
  exists tanks,
    snd (TankService.get_all_tanks_with_status s today) = Return tanks
    /\ match r with
       | Main.Ok f =>
           GisService.f_ward_id f = ward_id
           /\ exists t, In t tanks /\ GisService.ward_id t = Return ward_id
       | Main.HTTPException status_code detail =>
           status_code = 404 /\ detail = "Ward not found"%string
           /\ forall t, In t tanks -> GisService.ward_id t <> Return ward_id
       end.
Proof.
  unfold Main.api_get_ward_details, GisService.get_ward_details,
    GisService.get_ward_geojson.
  destruct (TankService.get_all_tanks_with_status s today) as [s1 listed]. simpl.
  intros H. apply bind_Return in H as (result & H & [= <-]).
  apply bind_Return in H as (features & H & [= <-]).
  apply bind_Return in H as (tanks & -> & Hfeatures).
  exists tanks. split; [reflexivity |].
  destruct (list_find _ features) as [[i f] |] eqn:Hfind.
  - apply list_find_Some in Hfind as (Hi & Hid & _).
    split; [exact Hid |].
    assert (In f features) as Hf.
    { apply list_elem_of_In. eapply list_elem_of_lookup_2. exact Hi. }
    destruct (feature_entry _ _ _ Hfeatures Hf) as (kv & (Hsome & Hward & _) & Hfeature & Hfrom).
    apply feature_of_Return in Hfeature as (Hkey & _).
    destruct (GisService.ward_tanks (snd kv)) as [| t ts]; [now destruct Hsome |].
    exists t. split.
    + now apply Forall_cons in Hfrom as [Ht _].
    + apply Forall_cons in Hward as [Ht _]. now rewrite Ht, <- Hid, Hkey.
  - split_and!; try reflexivity.
    intros t Ht Hward.
    destruct (tank_feature _ _ t Hfeatures Ht) as (f & Hf & Hid & _).
    apply list_find_None in Hfind.
    apply list_elem_of_In in Hf.
    apply (proj1 (Forall_forall _ _) Hfind f Hf). congruence.
Qed.

Lemma ward_details_found_iff_witness :
  snd (Main.api_get_ward_details Samples.only_B Samples.today "ward_0_0")
  = Return (Main.HTTPException 404 "Ward not found").
Proof.
  destruct (ward_details_found_iff Samples.only_B Samples.today "ward_0_0" _ eq_refl)
    as (tanks & _ & _).
  reflexivity.
Defined.

(** X12.  The name of a ward: the id of a tank's ward is "ward_A_B" for two
    digits A and B, and the feature of the ward is named "Ward A-B". *)
Theorem ward_names (t : tank) (ward_id : string) :
  GisService.ward_id t = Return ward_id ->
  exists a b,
    0 <= a <= 9 /\ 0 <= b <= 9
    /\ ward_id = ("ward_" ++ GisService.str a ++ "_" ++ GisService.str b)%string
    /\ GisService.ward_name ward_id
       = ("Ward " ++ GisService.str a ++ "-" ++ GisService.str b)%string.
Proof.
  unfold GisService.ward_id. destruct (GisService.coordinates t) as [lat lng].
  intros H. apply bind_Return in H as (a & Ha & H).
  apply bind_Return in H as (b & Hb & [= <-]).
  apply grid_index_range in Ha, Hb. exists a, b. split_and!; try lia; [reflexivity |].
  assert (a = 0 \/ a = 1 \/ a = 2 \/ a = 3 \/ a = 4 \/ a = 5 \/ a = 6 \/ a = 7
          \/ a = 8 \/ a = 9) as Hcases by lia.
  assert (b = 0 \/ b = 1 \/ b = 2 \/ b = 3 \/ b = 4 \/ b = 5 \/ b = 6 \/ b = 7
          \/ b = 8 \/ b = 9) as Hcases' by lia.
  clear Ha Hb.
  repeat (destruct Hcases as [-> | Hcases]);
    try subst a;
    repeat (destruct Hcases' as [-> | Hcases']; [reflexivity |]); subst b; reflexivity.
Qed.

Lemma ward_names_witness :
  GisService.ward_name "ward_3_7" = "Ward 3-7"%string.
Proof.
  destruct (ward_names Samples.tank_A "ward_3_7" eq_refl) as (a & b & _ & _ & _ & _).
  reflexivity.
Defined.

(** ** The frame of a map *)

Section FloatMaxMin.

Import Notions.

Lemma no_later_total (a b : Z * Z * Z) : no_later a b \/ no_later b a.
Proof. unfold no_later. lia. Qed.

Lemma no_later_trans (a b c : Z * Z * Z) : no_later a b -> no_later b c -> no_later a c.
Proof. unfold no_later. lia. Qed.

Lemma no_later_refl (a : Z * Z * Z) : no_later a a.
Proof. unfold no_later. lia. Qed.

(** The comparison of two floats that are not NaN is that of their places. *)
Lemma SFcompare_place (f1 f2 : spec_float) :
  f1 <> S754_nan -> f2 <> S754_nan ->
  (SFleb f1 f2 = true <-> no_later (place f1) (place f2))
  /\ (SFltb f1 f2 = true <-> ~ no_later (place f2) (place f1)).
Proof.
  intros H1 H2. unfold SFleb, SFltb, SFcompare, no_later.
  destruct f1 as [s1 | s1 | | s1 m1 e1]; [| | now destruct H1 |];
    (destruct f2 as [s2 | s2 | | s2 m2 e2]; [| | now destruct H2 |]);
    try destruct s1; try destruct s2; simpl;
    try (split; split; (discriminate || lia || reflexivity || (intros; exfalso; lia)
                        || (intros; lia))).
  - change (PosDef.Pos.compare_cont Eq m1 m2) with (Pos.compare m1 m2).
    destruct (Z.compare_spec e1 e2); destruct (Pos.compare_spec m1 m2); simpl;
      split; split; try discriminate; try reflexivity; intros; try lia; exfalso; lia.
  - change (PosDef.Pos.compare_cont Eq m1 m2) with (Pos.compare m1 m2).
    destruct (Z.compare_spec e1 e2); destruct (Pos.compare_spec m1 m2); simpl;
      split; split; try discriminate; try reflexivity; intros; try lia; exfalso; lia.
Qed.

Lemma not_nan (x : float) : PrimFloat.is_nan x = false -> Prim2SF x <> S754_nan.
Proof.
  unfold PrimFloat.is_nan. rewrite FloatAxioms.eqb_spec. intros H Hnan.
  rewrite Hnan in H. discriminate.
Qed.

Lemma leb_place (x y : float) :
  PrimFloat.is_nan x = false -> PrimFloat.is_nan y = false ->
  (PrimFloat.leb x y = true <-> no_later (place (Prim2SF x)) (place (Prim2SF y)))
  /\ (PrimFloat.ltb x y = true <-> ~ no_later (place (Prim2SF y)) (place (Prim2SF x))).
Proof.
  intros Hx Hy. rewrite FloatAxioms.leb_spec, FloatAxioms.ltb_spec.
  apply SFcompare_place; now apply not_nan.
Qed.

(** [max(l)] is an item of [l] that no item exceeds, when no item is a
    NaN; likewise [min(l)]. *)
Lemma max_of_greatest (l : list float) (m : float) :
  Forall (fun x => PrimFloat.is_nan x = false) l ->
  max_of l = Return m ->
  In m l /\ Forall (fun x => PrimFloat.leb x m = true) l.
Proof.
  unfold max_of. destruct l as [| first rest]; [discriminate |].
  intros Hall [= <-]. apply Forall_cons in Hall as [Hfirst Hrest].
  assert (forall seen acc,
            PrimFloat.is_nan acc = false -> In acc (first :: seen) ->
            Forall (fun x => PrimFloat.is_nan x = false) (first :: seen) ->
            Forall (fun x => PrimFloat.leb x acc = true) (first :: seen) ->
            Forall (fun x => PrimFloat.is_nan x = false) rest ->
            let m := fold_left (fun m x => if PrimFloat.ltb m x then x else m) rest acc in
            In m (first :: seen ++ rest)
            /\ Forall (fun x => PrimFloat.leb x m = true) (first :: seen ++ rest)) as Hloop.
  { clear Hrest. induction rest as [| x rest IH]; intros seen acc Hacc Hin Hnan Hle Hrest.
    - simpl. rewrite app_nil_r. auto.
    - apply Forall_cons in Hrest as [Hx Hrest]. simpl fold_left.
      replace (first :: seen ++ x :: rest) with (first :: (seen ++ [x]) ++ rest)
        by (now rewrite <- app_assoc).
      destruct (leb_place acc x Hacc Hx) as [_ Hlt].
      destruct (PrimFloat.ltb acc x) eqn:Hcmp.
      + apply IH; [exact Hx | | | | exact Hrest].
        * right. apply in_or_app. right. now left.
        * rewrite app_comm_cons. apply Forall_app. split; [exact Hnan | now constructor].
        * rewrite app_comm_cons. apply Forall_app. split.
          -- apply List.Forall_forall. intros y Hy.
             pose proof (proj1 (List.Forall_forall _ _) Hle y Hy) as Hya.
             pose proof (proj1 (List.Forall_forall _ _) Hnan y Hy) as Hynan.
             apply (leb_place y x Hynan Hx).
             apply (leb_place y acc Hynan Hacc) in Hya.
             apply (no_later_trans _ _ _ Hya).
             destruct (no_later_total (place (Prim2SF acc)) (place (Prim2SF x)));
               [assumption | now destruct (proj1 Hlt eq_refl)].
          -- constructor; [| constructor]. apply (leb_place x x Hx Hx), no_later_refl.
      + apply IH; [exact Hacc | | | | exact Hrest].
        * rewrite app_comm_cons. apply in_or_app. now left.
        * rewrite app_comm_cons. apply Forall_app. split; [exact Hnan | now constructor].
        * rewrite app_comm_cons. apply Forall_app. split; [exact Hle |].
          constructor; [| constructor]. apply (leb_place x acc Hx Hacc).
          destruct (no_later_total (place (Prim2SF x)) (place (Prim2SF acc))) as [H | H];
            [exact H |].
          destruct (no_later_total (place (Prim2SF acc)) (place (Prim2SF x))) as [H' | H'];
            [| exact H'].
          (* acc <= x and not acc < x: the two are at the same place *)
          assert (~ ~ no_later (place (Prim2SF x)) (place (Prim2SF acc))) as Hnn.
          { intros Hn. apply Hlt in Hn. congruence. }
          unfold no_later in *. lia. }
  apply (Hloop [] first Hfirst); auto.
  - now left.
  - constructor; [| constructor]. apply (leb_place first first Hfirst Hfirst), no_later_refl.
Qed.

Lemma min_of_least (l : list float) (m : float) :
  Forall (fun x => PrimFloat.is_nan x = false) l ->
  min_of l = Return m ->
  In m l /\ Forall (fun x => PrimFloat.leb m x = true) l.
Proof.
  unfold min_of. destruct l as [| first rest]; [discriminate |].
  intros Hall [= <-]. apply Forall_cons in Hall as [Hfirst Hrest].
  assert (forall seen acc,
            PrimFloat.is_nan acc = false -> In acc (first :: seen) ->
            Forall (fun x => PrimFloat.is_nan x = false) (first :: seen) ->
            Forall (fun x => PrimFloat.leb acc x = true) (first :: seen) ->
            Forall (fun x => PrimFloat.is_nan x = false) rest ->
            let m := fold_left (fun m x => if PrimFloat.ltb x m then x else m) rest acc in
            In m (first :: seen ++ rest)
            /\ Forall (fun x => PrimFloat.leb m x = true) (first :: seen ++ rest)) as Hloop.
  { clear Hrest. induction rest as [| x rest IH]; intros seen acc Hacc Hin Hnan Hle Hrest.
    - simpl. rewrite app_nil_r. auto.
    - apply Forall_cons in Hrest as [Hx Hrest]. simpl fold_left.
      replace (first :: seen ++ x :: rest) with (first :: (seen ++ [x]) ++ rest)
        by (now rewrite <- app_assoc).
      destruct (leb_place x acc Hx Hacc) as [_ Hlt].
      destruct (PrimFloat.ltb x acc) eqn:Hcmp.
      + apply IH; [exact Hx | | | | exact Hrest].
        * right. apply in_or_app. right. now left.
        * rewrite app_comm_cons. apply Forall_app. split; [exact Hnan | now constructor].
        * rewrite app_comm_cons. apply Forall_app. split.
          -- apply List.Forall_forall. intros y Hy.
             pose proof (proj1 (List.Forall_forall _ _) Hle y Hy) as Hya.
             pose proof (proj1 (List.Forall_forall _ _) Hnan y Hy) as Hynan.
             apply (leb_place x y Hx Hynan).
             apply (leb_place acc y Hacc Hynan) in Hya.
             refine (no_later_trans _ _ _ _ Hya).
             destruct (no_later_total (place (Prim2SF x)) (place (Prim2SF acc)));
               [assumption | now destruct (proj1 Hlt eq_refl)].
          -- constructor; [| constructor]. apply (leb_place x x Hx Hx), no_later_refl.
      + apply IH; [exact Hacc | | | | exact Hrest].
        * rewrite app_comm_cons. apply in_or_app. now left.
        * rewrite app_comm_cons. apply Forall_app. split; [exact Hnan | now constructor].
        * rewrite app_comm_cons. apply Forall_app. split; [exact Hle |].
          constructor; [| constructor]. apply (leb_place acc x Hacc Hx).
          destruct (no_later_total (place (Prim2SF acc)) (place (Prim2SF x))) as [H | H];
            [exact H |].
          assert (~ ~ no_later (place (Prim2SF acc)) (place (Prim2SF x))) as Hnn.
          { intros Hn. apply Hlt in Hn. congruence. }
          unfold no_later in *. lia. }
  apply (Hloop [] first Hfirst); auto.
  - now left.
  - constructor; [| constructor]. apply (leb_place first first Hfirst Hfirst), no_later_refl.
Qed.

End FloatMaxMin.

Section ListedTanks.

(** A tank of the listing has every key that the listing writes. *)
Lemma listed_tanks_complete (fleet tanks : list tank) (today : Calendar.date) :
  each (fun t => TankService.tank_with_status t today) fleet = Return tanks ->
  Forall (fun t => is_Some (tank_status t) /\ is_Some (current_level_percent t)
                   /\ is_Some (days_since_cleaned t)
                   /\ is_Some (days_until_maintenance t)
                   /\ is_Some (tank_location t)) tanks.
Proof.
  intros H. apply each_Return in H.
  induction H as [| t listed fleet' tanks' Hone _ IH]; constructor; [| exact IH].
  apply tank_with_status_Return in Hone
    as (last & since & next & until & st & loc & capacity & current_level & current
        & _ & _ & _ & _ & _ & _ & _ & _ & _ & ->).
  simpl. split_and!; eauto.
Qed.

Lemma listing_loaded (s : JsonLoader.store) (today : Calendar.date) :
  TankService.get_all_tanks_with_status s today
  = (fst (JsonLoader.load_data s),
     each (fun t => TankService.tank_with_status t today)
       (get (tanks (JsonLoader.loaded s)) [])).
Proof.
  unfold TankService.get_all_tanks_with_status, JsonLoader.get_tanks.
  rewrite load_data_loaded. reflexivity.
Qed.

(** A second listing in the same request is the first one. *)
Lemma listing_again (s : JsonLoader.store) (today : Calendar.date) :
  snd (TankService.get_all_tanks_with_status
         (fst (JsonLoader.load_data s)) today)
  = snd (TankService.get_all_tanks_with_status s today).
Proof. rewrite !listing_loaded. simpl. now rewrite loaded_after_load. Qed.

Lemma each_cons {A B : Type} (f : A -> result B) (a : A) (l : list A) :
  each f (a :: l) = (b ← f a; bs ← each f l; mret (b :: bs)).
Proof. reflexivity. Qed.

(** The first tank without a coordinate stops the comprehension. *)
Lemma each_coordinate_missing (key : string) (field : location -> option float)
  (tanks : list tank) :
  Forall (fun t => is_Some (tank_location t)) tanks ->
  (exists t, In t tanks /\ tank_location t ≫= field = None) ->
  each (MapService.coordinate key field) tanks = Raise (KeyError key).
Proof.
  intros Hall (t & Hin & Hnone).
  induction tanks as [| t' tanks IH]; [destruct Hin |].
  apply Forall_cons in Hall as [[loc Hloc] Hall].
  assert (MapService.coordinate key field t' = subscript key (field loc)) as Hc
    by (unfold MapService.coordinate; rewrite Hloc; reflexivity).
  rewrite each_cons, Hc.
  destruct (field loc) as [x |] eqn:Hx; simpl.
  - destruct Hin as [-> | Hin]; [rewrite Hloc in Hnone; simpl in Hnone; congruence |].
    now rewrite (IH Hall Hin).
  - reflexivity.
Qed.

End ListedTanks.

(** X13.  The map markers follow the listing: when the listing returns, so does
    get_map_markers, with one marker per tank, in order, that has the id and the
    status of the tank, the colour of that status (green for normal, yellow for
    warning, red for critical) and the coordinates of the tank, 0 standing for a
    missing one.  get_map_bounds does not stand a missing coordinate: a tank
    without a latitude makes it, and get_map_data with it, raise KeyError. *)
Theorem map_markers_follow_listing (float_sum : list float -> float)
  (s : JsonLoader.store) (today : Calendar.date) (tanks : list tank) :
  snd (TankService.get_all_tanks_with_status s today) = Return tanks ->
  (exists markers,
     snd (MapService.get_map_markers s today) = Return markers
     /\ Forall2
          (fun t m =>
             MapService.marker_id m = id t
             /\ tank_status t = Some (MapService.marker_status m)
             /\ MapService.marker_color m
                = match MapService.marker_status m with
                  | normal => MapService.green
                  | warning => MapService.yellow
                  | critical => MapService.red
                  end
             /\ (MapService.marker_lat m, MapService.marker_lng m)
                = GisService.coordinates t)
          tanks markers)
  /\ ((exists t, In t tanks /\ tank_location t ≫= lat = None) ->
      snd (MapService.get_map_bounds float_sum s today) = Raise (KeyError "lat")
      /\ snd (MapService.get_map_data float_sum s today) = Raise (KeyError "lat")).
Proof.
  intros Hlisting.
  pose proof (listing_again s today) as Hagain.
  pose proof (listing_loaded s today) as Hloaded.
  unfold MapService.get_map_data, MapService.get_map_markers, MapService.get_map_bounds.
  destruct (TankService.get_all_tanks_with_status s today) as [s1 listed].
  simpl in Hlisting. subst listed. injection Hloaded as -> Hlisting.
  symmetry in Hlisting. cbn [fst snd]. rewrite !ret_bind.
  pose proof (listed_tanks_complete _ _ _ Hlisting) as Hcomplete.
  assert (exists markers,
            each MapService.marker_of tanks = Return markers
            /\ Forall2
                 (fun t m =>
                    MapService.marker_id m = id t
                    /\ tank_status t = Some (MapService.marker_status m)
                    /\ MapService.marker_color m
                       = match MapService.marker_status m with
                         | normal => MapService.green
                         | warning => MapService.yellow
                         | critical => MapService.red
                         end
                    /\ (MapService.marker_lat m, MapService.marker_lng m)
                       = GisService.coordinates t)
                 tanks markers) as (markers & Hmarkers & Hfollow).
  { clear -Hcomplete.
    induction Hcomplete as [| t tanks ([st Hst] & [lv Hlv] & [si Hsi] & [un Hun] & _) _
                              (markers & Hmarkers & Hfollow)].
    - exists []. split; [reflexivity | constructor].
    - assert (exists m, MapService.marker_of t = Return m
                          /\ MapService.marker_id m = id t
                          /\ MapService.marker_status m = st
                          /\ MapService.marker_color m
                             = match st with
                               | normal => MapService.green
                               | warning => MapService.yellow
                               | critical => MapService.red
                               end
                          /\ (MapService.marker_lat m, MapService.marker_lng m)
                             = GisService.coordinates t) as (m & Hm & H1 & H2 & H3 & H4).
      { unfold MapService.marker_of. rewrite Hst, Hlv, Hsi, Hun. simpl.
        eexists. split; [reflexivity |]. simpl. split_and!; try reflexivity.
        now destruct st. }
      exists (m :: markers). rewrite each_cons, Hm, Hmarkers. simpl.
      split; [reflexivity |]. constructor; [| exact Hfollow].
      rewrite H2. auto.
}
  split.
  - exists markers. split; [exact Hmarkers | exact Hfollow].
  - intros Hmissing. rewrite Hmarkers.
    destruct (TankService.get_all_tanks_with_status (fst (JsonLoader.load_data s)) today)
      as [s2 listed].
    simpl in Hagain. subst listed. cbn [fst snd]. rewrite !ret_bind.
    assert (each (MapService.coordinate "lat" lat) tanks = Raise (KeyError "lat")) as Hlat.
    { apply each_coordinate_missing; [| exact Hmissing].
      eapply Forall_impl; [exact Hcomplete |]. intros t Ht. apply Ht. }
    destruct tanks as [| t0 tanks']; [destruct Hmissing as (t & [] & _) |].
    rewrite Hlat. split; reflexivity.
Qed.

Lemma map_markers_follow_listing_witness :
  (exists markers,
     snd (MapService.get_map_markers Examples.with_lake Samples.today) = Return markers)
  /\ snd (MapService.get_map_data sum_plain Examples.with_lake Samples.today)
     = Raise (KeyError "lat").
Proof.
  destruct (map_markers_follow_listing sum_plain Examples.with_lake Samples.today _ eq_refl)
    as [(markers & Hmarkers & _) Hbounds].
  split; [exists markers; exact Hmarkers |].
  apply Hbounds. eexists. split; [right; left; reflexivity | reflexivity].
Defined.

Section Frames.

(** The four sides of a frame around coordinates that are not NaN. *)
Lemma frame_sides (values : list float) (high low : float) :
  max_of values = Return high -> min_of values = Return low ->
  Forall (fun x => PrimFloat.is_nan x = false) values ->
  In high values /\ In low values
  /\ Forall (fun x => PrimFloat.leb low x = true /\ PrimFloat.leb x high = true) values.
Proof.
  intros Hmax Hmin Hnan.
  destruct (max_of_greatest _ _ Hnan Hmax) as [Hin Hle].
  destruct (min_of_least _ _ Hnan Hmin) as [Hin' Hle'].
  split_and!; [exact Hin | exact Hin' |].
  apply List.Forall_forall. intros x Hx. split.
  - exact (proj1 (List.Forall_forall _ _) Hle' x Hx).
  - exact (proj1 (List.Forall_forall _ _) Hle x Hx).
Qed.

Lemma max_of_defined (values : list float) :
  values <> [] -> exists m, max_of values = Return m.
Proof. destruct values; [congruence | simpl; eauto]. Qed.

Lemma min_of_defined (values : list float) :
  values <> [] -> exists m, min_of values = Return m.
Proof. destruct values; [congruence | simpl; eauto]. Qed.

End Frames.

(** X14.  get_map_bounds frames the fleet.  Without tanks it gives the default
    centre at zoom 12, and divides by nothing.  With tanks the centre is the
    mean of the latitudes and of the longitudes, and the four sides are
    coordinates of tanks between which every tank lies: south <= lat <= north
    and west <= lng <= east (for coordinates that are not NaN). *)
Theorem map_bounds_frame_the_fleet (float_sum : list float -> float)
  (s : JsonLoader.store) (today : Calendar.date) (v : view) :
  snd (MapService.get_map_bounds float_sum s today) = Return v ->
  exists tanks lats lngs,
    snd (TankService.get_all_tanks_with_status s today) = Return tanks
    /\ Forall2 (fun t x => tank_location t ≫= lat = Some x) tanks lats
    /\ Forall2 (fun t x => tank_location t ≫= lng = Some x) tanks lngs
    /\ zoom v = 12
    /\ (tanks = [] -> center v = (40.7128, -74.006)%float /\ bounds v = None)
    /\ (tanks <> [] ->
        center v = (float_sum lats / float_of_len lats,
                    float_sum lngs / float_of_len lngs)%float
        /\ exists b,
             bounds v = Some b
             /\ (Forall (fun x => PrimFloat.is_nan x = false) lats ->
                 In (north b) lats /\ In (south b) lats
                 /\ Forall (fun x => PrimFloat.leb (south b) x = true
                                     /\ PrimFloat.leb x (north b) = true) lats)
             /\ (Forall (fun x => PrimFloat.is_nan x = false) lngs ->
                 In (east b) lngs /\ In (west b) lngs
                 /\ Forall (fun x => PrimFloat.leb (west b) x = true
                                     /\ PrimFloat.leb x (east b) = true) lngs)).
Proof.
  unfold MapService.get_map_bounds.
  destruct (TankService.get_all_tanks_with_status s today) as [s1 listed]. cbn [snd].
  intros H. apply bind_Return in H as (tanks & -> & H).
  destruct tanks as [| t0 tanks'] eqn:Htanks.
  - injection H as <-. exists [], [], []. simpl.
    split_and!; [reflexivity | apply Forall2_nil_2 | apply Forall2_nil_2 | reflexivity
                | auto | congruence].
  - rewrite <- Htanks in *.
    apply bind_Return in H as (lats & Hlats & H).
    apply bind_Return in H as (lngs & Hlngs & H).
    apply bind_Return in H as (northmost & Hn & H).
    apply bind_Return in H as (southmost & Hs & H).
    apply bind_Return in H as (eastmost & He & H).
    apply bind_Return in H as (westmost & Hw & [= <-]).
    assert (forall key field values,
              each (MapService.coordinate key field) tanks = Return values ->
              Forall2 (fun t x => tank_location t ≫= field = Some x) tanks values)
      as Hcoordinates.
    { intros key field values Hvalues. apply each_Return in Hvalues.
      eapply Forall2_impl; [exact Hvalues |]. intros t x Hx. simpl in Hx.
      unfold MapService.coordinate in Hx.
      destruct (tank_location t) as [loc |]; [| discriminate]. simpl in *.
      destruct (field loc); [now injection Hx as -> | discriminate]. }
    exists tanks, lats, lngs. simpl.
    split_and!; try reflexivity;
      [exact (Hcoordinates _ _ _ Hlats) | exact (Hcoordinates _ _ _ Hlngs)
      | intros Hnone; rewrite Hnone in Htanks; discriminate |].
    intros _. split; [reflexivity |]. eexists. split; [reflexivity |]. simpl.
    split; intros Hnan; [exact (frame_sides _ _ _ Hn Hs Hnan)
                        | exact (frame_sides _ _ _ He Hw Hnan)].
Qed.

Lemma map_bounds_frame_the_fleet_witness :
  exists v b,
    snd (MapService.get_map_bounds sum_plain Examples.two_tanks Samples.today) = Return v
    /\ bounds v = Some b
    /\ In (north b) [12.34; 12.39]%float.
Proof.
  destruct (map_bounds_frame_the_fleet sum_plain Examples.two_tanks Samples.today _ eq_refl)
    as (tanks & lats & lngs & Htanks & Hlats & _ & _ & _ & Hframe).
  vm_compute in Htanks. injection Htanks as <-.
  destruct (Hframe ltac:(discriminate)) as (_ & b & Hb & Hsides & _).
  assert (lats = [12.34; 12.39]%float) as ->.
  { inversion Hlats as [| t1 x1 ts1 xs1 H1 Hrest1]; subst.
    inversion Hrest1 as [| t2 x2 ts2 xs2 H2 Hrest2]; subst.
    inversion Hrest2; subst.
    vm_compute in H1. vm_compute in H2. congruence. }
  eexists _, b. split; [reflexivity |]. split; [exact Hb |].
  apply Hsides. repeat constructor.
Defined.

(** ** The heat map *)

(** X15.  get_heatmap_data adds no failure to the listing: it raises what the
    listing raises and returns whenever the listing returns, with one point per
    tank, in order, that carries the coordinates of the tank (0 for a missing
    one), and with the legend of the metric.  The bounds frame the points:
    without tanks the default centre at zoom 12; with tanks zoom 11 and four
    sides between which every point lies (for coordinates that are not NaN). *)
Theorem heatmap_frames_the_points (float_sum : list float -> float)
  (s : JsonLoader.store) (today : Calendar.date) (metric : string) :
  let listing := snd (TankService.get_all_tanks_with_status s today) in
  let outcome := snd (GisService.get_heatmap_data float_sum s today metric) in
  (forall e, listing = Raise e -> outcome = Raise e)
  /\ (forall tanks,
        listing = Return tanks ->
        exists h,
          outcome = Return h
          /\ GisService.metric_name h = metric
          /\ GisService.points h = List.map (GisService.point_of metric) tanks
          /\ Forall2 (fun t p => (GisService.p_lat p, GisService.p_lng p)
                                 = GisService.coordinates t
                                 /\ GisService.p_tank_id p = id t)
               tanks (GisService.points h)
          /\ GisService.heat_legend h = GisService.get_legend_for_metric metric
          /\ (tanks = [] ->
              GisService.heat_bounds h
              = {| center := (40.7128, -74.006)%float; zoom := 12; bounds := None |})
          /\ (tanks <> [] ->
              zoom (GisService.heat_bounds h) = 11
              /\ exists b,
                   bounds (GisService.heat_bounds h) = Some b
                   /\ (Forall (fun p => PrimFloat.is_nan (GisService.p_lat p) = false)
                         (GisService.points h) ->
                       Forall (fun p =>
                                 PrimFloat.leb (south b) (GisService.p_lat p) = true
                                 /\ PrimFloat.leb (GisService.p_lat p) (north b) = true)
                         (GisService.points h))
                   /\ (Forall (fun p => PrimFloat.is_nan (GisService.p_lng p) = false)
                         (GisService.points h) ->
                       Forall (fun p =>
                                 PrimFloat.leb (west b) (GisService.p_lng p) = true
                                 /\ PrimFloat.leb (GisService.p_lng p) (east b) = true)
                         (GisService.points h)))).
Proof.
  intros listing outcome. subst listing outcome.
  unfold GisService.get_heatmap_data.
  destruct (TankService.get_all_tanks_with_status s today) as [s1 listed]. cbn [snd].
  split; [intros e ->; reflexivity |].
  intros tanks ->. rewrite ret_bind.
  assert (forall tanks,
            Forall2 (fun t p => (GisService.p_lat p, GisService.p_lng p)
                                = GisService.coordinates t
                                /\ GisService.p_tank_id p = id t)
              tanks (List.map (GisService.point_of metric) tanks)) as Hpoints.
  { clear. intros l. induction l as [| t l IH]; simpl; constructor; auto. }
  specialize (Hpoints tanks).
  destruct tanks as [| t0 tanks'].
  - simpl. eexists. split; [reflexivity |]. simpl.
    split_and!; try reflexivity; [constructor | congruence].
  - remember (t0 :: tanks') as tanks eqn:Htanks.
    assert (tanks <> []) as Hsome by (subst tanks; discriminate).
    clear Htanks t0 tanks'.
    set (points := List.map (GisService.point_of metric) tanks) in *.
    assert (points <> []) as Hpts by (subst points; now destruct tanks).
    destruct (max_of_defined (List.map GisService.p_lat points)) as [n Hn];
      [now destruct points |].
    destruct (min_of_defined (List.map GisService.p_lat points)) as [so Hso];
      [now destruct points |].
    destruct (max_of_defined (List.map GisService.p_lng points)) as [e He];
      [now destruct points |].
    destruct (min_of_defined (List.map GisService.p_lng points)) as [w Hw];
      [now destruct points |].
    assert (GisService.calculate_bounds float_sum points
            = Return {| center :=
                          (float_sum (List.map GisService.p_lat points)
                           / float_of_len (List.map GisService.p_lat points),
                           float_sum (List.map GisService.p_lng points)
                           / float_of_len (List.map GisService.p_lng points))%float;
                        zoom := 11;
                        bounds := Some {| north := n; south := so;
                                          east := e; west := w |} |}) as ->.
    { unfold GisService.calculate_bounds.
      destruct points as [| p0 points'] eqn:Hp; [congruence |]. rewrite <- Hp in *.
      rewrite Hn, Hso, He, Hw. reflexivity. }
    rewrite ret_bind. eexists. split; [reflexivity |]. simpl.
    split_and!; try reflexivity; [exact Hpoints | congruence |].
    intros _. split; [reflexivity |]. eexists. split; [reflexivity |]. simpl.
    split; intros Hnan.
    + destruct (frame_sides _ _ _ Hn Hso) as (_ & _ & Hsides).
      { apply Forall_map. exact Hnan. }
      apply Forall_map in Hsides. exact Hsides.
    + destruct (frame_sides _ _ _ He Hw) as (_ & _ & Hsides).
      { apply Forall_map. exact Hnan. }
      apply Forall_map in Hsides. exact Hsides.
Qed.

Lemma heatmap_frames_the_points_witness :
  exists h,
    snd (GisService.get_heatmap_data sum_plain Examples.two_tanks Samples.today "ph")
    = Return h
    /\ zoom (GisService.heat_bounds h) = 11.
Proof.
  destruct (proj2 (heatmap_frames_the_points sum_plain Examples.two_tanks Samples.today
                     "ph") _ eq_refl)
    as (h & Hh & _ & _ & _ & _ & _ & Hframe).
  exists h. split; [exact Hh |]. apply Hframe. discriminate.
Defined.

(** X16.  The health-score heat map and its legend agree: the value of a tank is
    30, 60 or 90 and lies inside the range of the legend that is named after the
    status of the tank (Critical 0 to 40, Warning 40 to 70, Normal 70 to 100).
    A metric that is none of the five known ones is given the health-score
    legend too, with every tank at 50, in the Warning range whatever its status. *)
Theorem heatmap_values_fit_the_legend (metric : string) (t : tank) :
  (metric = "health_score"%string ->
   exists v low high colour,
     GisService.value_of metric t = GisService.Int v
     /\ In (GisService.LegendRange (GisService.Int low) (GisService.Int high) colour
              match Notions.status_of t with
              | critical => "Critical"
              | warning => "Warning"
              | normal => "Normal"
              end%string)
          (GisService.ranges (GisService.get_legend_for_metric metric))
     /\ low < v < high)
  /\ (metric <> "health_score"%string -> metric <> "ph"%string ->
      metric <> "turbidity"%string -> metric <> "temperature"%string ->
      metric <> "water_level"%string ->
      GisService.value_of metric t = GisService.Int 50
      /\ GisService.get_legend_for_metric metric = GisService.health_score_legend
      /\ In (GisService.LegendRange (GisService.Int 40) (GisService.Int 70)
               "#f59e0b" "Warning")
           (GisService.ranges (GisService.get_legend_for_metric metric))).
Proof.
  split.
  - intros ->. unfold GisService.value_of, Notions.status_of. cbn.
    destruct (get (tank_status t) normal); eexists _, _, _, _;
      (split; [reflexivity |]); (split; [| split]);
      try (left; reflexivity); try (right; left; reflexivity);
      try (right; right; left; reflexivity); lia.
  - intros H1 H2 H3 H4 H5.
    apply String.eqb_neq in H1, H2, H3, H4, H5.
    unfold GisService.value_of, GisService.get_legend_for_metric, GisService.legends.
    cbn -[String.eqb]. rewrite H1, H2, H3, H4, H5.
    rewrite (String.eqb_sym "health_score" metric), (String.eqb_sym "ph" metric),
      (String.eqb_sym "turbidity" metric), (String.eqb_sym "temperature" metric),
      (String.eqb_sym "water_level" metric), H1, H2, H3, H4, H5.
    split_and!; try reflexivity. right. left. reflexivity.
Qed.

Lemma heatmap_values_fit_the_legend_witness :
  GisService.value_of "oxygen" Examples.listed_A = GisService.Int 50.
Proof.
  apply (proj2 (heatmap_values_fit_the_legend "oxygen" Examples.listed_A));
    discriminate.
Defined.

(** ** Sessions *)

Section Sessions.

Import AuthService.

(** What the loop over the users comes to. *)
Lemma try_users_outcome (users : list user) (active : gmap string session)
  (name pass token : string) (now : datetime) (active' : gmap string session) (r : result login) :
  try_users users active name pass token now = (active', r) ->
  match r with
  | Return (LoginFailed error) =>
      active' = active
      /\ error = "Invalid username or password"%string
      /\ Forall (fun u => credentials_match u name pass = Return false) users
  | Return (LoggedIn token' profile) =>
      token' = token
      /\ exists u data before_u,
           (exists after_u, users = before_u ++ u :: after_u)
           /\ Forall (fun u' => credentials_match u' name pass = Return false) before_u
           /\ credentials_match u name pass = Return true
           /\ open_session u now = Return data
           /\ active' = <[token := data]> active
           /\ profile = (session_user_id data, session_username data,
                         session_name data, session_role data)
  | Raise e => active' = active
  end.
Proof.
  revert active' r. induction users as [| u users IH]; intros active' r; simpl.
  - intros [= <- <-]. split_and!; [reflexivity | reflexivity | apply Forall_nil_2].
  - destruct (credentials_match u name pass) as [[|] | e] eqn:Hmatch.
    + destruct (open_session u now) as [data | e] eqn:Hopen.
      * intros [= <- <-]. split; [reflexivity |].
        exists u, data, [].
        split_and!;
          first [reflexivity | assumption | apply Forall_nil_2 | (exists users; reflexivity)].
      * intros [= <- <-]. reflexivity.
    + intros H. specialize (IH _ _ H).
      destruct r as [[error | token' profile] | e]; [| | exact IH].
      * destruct IH as (-> & -> & Hall). split_and!; try reflexivity.
        constructor; assumption.
      * destruct IH as (-> & u' & data & before_u & (after_u & ->) & Hbefore & Hu'
                        & Hopen & -> & ->).
        split; [reflexivity |].
        exists u', data, (u :: before_u).
        split_and!;
          first [reflexivity | assumption | (constructor; assumption)
                | (exists after_u; reflexivity)].
    + intros [= <- <-]. reflexivity.
Qed.

Lemma credentials_match_true (u : user) (name pass : string) :
  credentials_match u name pass = Return true <->
  username u = Some name /\ password u = Some pass.
Proof.
  unfold credentials_match.
  destruct (username u) as [n |]; simpl;
    [| split; [discriminate | intros [H _]; discriminate]].
  destruct (String.eqb_spec n name) as [-> | Hne];
    [| split; [discriminate | intros [H _]; congruence]].
  destruct (password u) as [p |]; simpl;
    [| split; [discriminate | intros [_ H]; discriminate]].
  destruct (String.eqb_spec p pass) as [-> | Hne']; split; intros H;
    [auto | reflexivity | discriminate | destruct H; congruence].
Qed.

Lemma credentials_match_false (u : user) (name pass : string) :
  credentials_match u name pass = Return false ->
  ~ (username u = Some name /\ password u = Some pass).
Proof.
  intros H Hboth. apply credentials_match_true in Hboth. congruence.
Qed.

End Sessions.

(** X17.  authenticate_user checks the credentials.  It logs in a user of
    users.json whose username and password are both the ones given, under the
    token drawn, with the id, username, name and role of that user; it fails
    with "Invalid username or password", which the login endpoint answers with
    status 401, exactly when no user has both.  A call that fails or raises
    leaves the sessions as they were. *)
Theorem login_checks_credentials (users_file : option (option (list AuthService.user)))
  (users : list AuthService.user) (active active' : gmap string AuthService.session)
  (name pass token : string) (now : AuthService.datetime)
  (r : result AuthService.login) :
  AuthService.load_users users_file = Return users ->
  AuthService.authenticate_user users_file active name pass token now = (active', r) ->
  match r with
  | Return (AuthService.LoginFailed error) =>
      active' = active
      /\ Forall (fun u => ~ (AuthService.username u = Some name
                             /\ AuthService.password u = Some pass)) users
      /\ Main.api_login users_file active name pass token now
         = (active, Return (Main.HTTPException 401 "Invalid username or password"))
  | Return (AuthService.LoggedIn token' (i, n, full_name, user_role)) =>
      token' = token /\ n = name
      /\ exists u,
           In u users
           /\ AuthService.username u = Some name /\ AuthService.password u = Some pass
           /\ AuthService.user_id u = Some i /\ AuthService.user_name u = Some full_name
           /\ AuthService.role u = Some user_role
           /\ exists data,
                active' = <[token := data]> active
                /\ AuthService.plus_24_hours now = Return (AuthService.expires data)
                /\ AuthService.session_username data = name
  | Raise e => active' = active
  end.
Proof.
  intros Husers Hcall. pose proof Hcall as Hlogin.
  unfold AuthService.authenticate_user in Hcall. rewrite Husers in Hcall.
  apply try_users_outcome in Hcall.
  destruct r as [[error | token' [[[i n] full_name] user_role]] | e]; [| | exact Hcall].
  - destruct Hcall as (-> & -> & Hall). split_and!; [reflexivity | |].
    + eapply Forall_impl; [exact Hall |]. intros u. apply credentials_match_false.
    + unfold Main.api_login. rewrite Hlogin. reflexivity.
  - destruct Hcall as (-> & u & data & before_u & (after_u & ->) & _ & Hmatch & Hopen
                       & -> & Hprofile).
    apply credentials_match_true in Hmatch as [Hname Hpass].
    unfold AuthService.open_session in Hopen.
    apply bind_Return in Hopen as (i' & Hi & Hopen).
    apply bind_Return in Hopen as (n' & Hn & Hopen).
    apply bind_Return in Hopen as (full' & Hfull & Hopen).
    apply bind_Return in Hopen as (r' & Hr & Hopen).
    apply bind_Return in Hopen as (e' & He & [= <-]).
    simpl in Hprofile. injection Hprofile as -> -> -> ->.
    rewrite Hname in Hn. injection Hn as <-.
    destruct (AuthService.user_id u) as [x |] eqn:Hid; [injection Hi as -> | discriminate].
    destruct (AuthService.user_name u) as [x |] eqn:Hfn;
      [injection Hfull as -> | discriminate].
    destruct (AuthService.role u) as [x |] eqn:Hrole; [injection Hr as -> | discriminate].
    split_and!; try reflexivity.
    exists u. split_and!; try reflexivity; try assumption.
    + apply in_or_app. right. now left.
    + eexists. split_and!; [reflexivity | exact He | reflexivity].
Qed.

Lemma login_checks_credentials_witness :
  snd (AuthService.authenticate_user Examples.users_json ∅ "officer" "water" "t0k3n"
         Examples.noon)
  = Return (AuthService.LoggedIn "t0k3n" ("2", "officer", "Field Officer", "officer")%string)
  /\ Main.api_login Examples.users_json ∅ "officer" "guess" "t0k3n" Examples.noon
     = (∅, Return (Main.HTTPException 401 "Invalid username or password")).
Proof.
  split; [reflexivity |].
  exact (proj2 (proj2 (login_checks_credentials Examples.users_json _ ∅ _ "officer" "guess"
                         "t0k3n" Examples.noon
                         (Return (AuthService.LoginFailed "Invalid username or password"))
                         eq_refl eq_refl))).
Defined.

Section Expiry.

Import Calendar AuthService.

(** The day after a day of the calendar comes later in the order of the
    fields; inside one 400-year cycle by evaluation. *)
Lemma next_day_in_cycle (o : Z) :
  1 <= o < DI400Y ->
  before (DateTime (ord2ymd o) 0) (DateTime (ord2ymd (o + 1)) 0) = false ->
  False.
Proof.
  intros Ho.
  pose proof
    (all_from_spec
       (fun z => before (DateTime (ord2ymd z) 0) (DateTime (ord2ymd (z + 1)) 0)
                 || (DI400Y <=? z))
       (Z.to_nat DI400Y) 1 ltac:(vm_compute; reflexivity) o) as Hcheck.
  rewrite Z2Nat.id in Hcheck by (unfold DI400Y; lia).
  specialize (Hcheck ltac:(lia)). apply orb_prop in Hcheck as [Hcheck | Hcheck].
  - congruence.
  - apply Z.leb_le in Hcheck. lia.
Qed.

Lemma before_dates (a b : date) (us us' : Z) :
  before (DateTime a 0) (DateTime b 0) = true ->
  before (DateTime a us) (DateTime b us') = true.
Proof.
  unfold before. simpl.
  destruct (year a <? year b); [reflexivity |]. simpl.
  destruct (year a =? year b); [| discriminate]. simpl.
  destruct (month a <? month b); [reflexivity |]. simpl.
  destruct (month a =? month b); [| discriminate]. simpl.
  destruct (day a <? day b); [reflexivity |]. simpl.
  destruct (day a =? day b); discriminate.
Qed.

Lemma before_shift (a b : date) (q : Z) :
  before (DateTime a 0) (DateTime b 0)
  = before (DateTime (Date (year a + 400 * q) (month a) (day a)) 0)
      (DateTime (Date (year b + 400 * q) (month b) (day b)) 0).
Proof.
  unfold before. simpl.
  replace (year a + 400 * q <? year b + 400 * q) with (year a <? year b)
    by (destruct (Z.ltb_spec (year a) (year b)), (Z.ltb_spec (year a + 400 * q) (year b + 400 * q));
        (reflexivity || lia)).
  replace (year a + 400 * q =? year b + 400 * q) with (year a =? year b)
    by (destruct (Z.eqb_spec (year a) (year b)), (Z.eqb_spec (year a + 400 * q) (year b + 400 * q));
        (reflexivity || lia)).
  reflexivity.
Qed.

(** A day later is later. *)
Lemma next_day_is_later (o us : Z) :
  1 <= o -> before (DateTime (ord2ymd o) us) (DateTime (ord2ymd (o + 1)) us) = true.
Proof.
  intros Ho. apply before_dates.
  pose proof (Z.div_mod (o - 1) DI400Y ltac:(unfold DI400Y; lia)) as Hdm.
  pose proof (Z.mod_pos_bound (o - 1) DI400Y ltac:(unfold DI400Y; lia)) as Hr.
  set (q := (o - 1) / DI400Y) in *. set (r := (o - 1) mod DI400Y) in *. clearbody q r.
  destruct (Z.eq_dec (r + 1) DI400Y) as [Hend | Hinside].
  - replace o with (DI400Y + DI400Y * q) by lia.
    replace (DI400Y + DI400Y * q + 1) with (1 + DI400Y * (q + 1)) by lia.
    rewrite !ord2ymd_shift by (unfold DI400Y; lia).
    change (ord2ymd DI400Y) with (Date 400 12 31). change (ord2ymd 1) with (Date 1 1 1).
    unfold before. simpl.
    destruct (Z.ltb_spec (400 + 400 * q) (1 + 400 * (q + 1))); [reflexivity | lia].
  - replace o with (r + 1 + DI400Y * q) by lia.
    replace (r + 1 + DI400Y * q + 1) with (r + 1 + 1 + DI400Y * q) by lia.
    rewrite !ord2ymd_shift by lia.
    rewrite <- before_shift.
    destruct (before _ _) eqn:Hb; [reflexivity |].
    exfalso. apply (next_day_in_cycle (r + 1)); [lia | exact Hb].
Qed.

End Expiry.

(** X18.  A session lasts 24 hours.  After a login at a time [now] that is a day
    of the calendar, the session of the token expires at the same time of the
    next day.  validate_token accepts the token at once and at every time before
    the expiry, and gives the session back; at the expiry or after it, it
    refuses the token and deletes the session, so that the token stays refused
    at any time. *)
Theorem sessions_last_24_hours (users_file : option (option (list AuthService.user)))
  (active active' : gmap string AuthService.session) (name pass token token' : string)
  (now : AuthService.datetime) (o : Z)
  (profile : string * string * string * string) :
  1 <= o -> AuthService.date_part now = Calendar.ord2ymd o ->
  AuthService.authenticate_user users_file active name pass token now
  = (active', Return (AuthService.LoggedIn token' profile)) ->
  token' = token
  /\ exists data,
       active' !! token = Some data
       /\ AuthService.expires data
          = AuthService.DateTime (Calendar.ord2ymd (o + 1)) (AuthService.microseconds now)
       /\ AuthService.validate_token active' token now = (active', Some data)
       /\ forall now',
            (AuthService.before now' (AuthService.expires data) = true ->
             AuthService.validate_token active' token now' = (active', Some data))
            /\ (AuthService.before now' (AuthService.expires data) = false ->
                AuthService.validate_token active' token now'
                = (delete token active', None)
                /\ forall later,
                     AuthService.validate_token (delete token active') token later
                     = (delete token active', None)).
Proof.
  intros Ho Hnow Hcall.
  unfold AuthService.authenticate_user in Hcall.
  destruct (AuthService.load_users users_file) as [users | e]; [| discriminate].
  apply try_users_outcome in Hcall
    as (-> & u & data & _ & _ & _ & _ & Hopen & -> & _).
  split; [reflexivity |]. exists data.
  assert (AuthService.expires data
          = AuthService.DateTime (Calendar.ord2ymd (o + 1)) (AuthService.microseconds now))
    as Hexpires.
  { unfold AuthService.open_session in Hopen.
    apply bind_Return in Hopen as (i' & _ & Hopen).
    apply bind_Return in Hopen as (n' & _ & Hopen).
    apply bind_Return in Hopen as (full' & _ & Hopen).
    apply bind_Return in Hopen as (r' & _ & Hopen).
    apply bind_Return in Hopen as (e' & He & [= <-]). simpl.
    unfold AuthService.plus_24_hours, Calendar.add_days in He.
    rewrite Hnow, toordinal_ord2ymd in He by exact Ho.
    destruct (_ && _); [| discriminate]. simpl in He. now injection He as <-. }
  assert (forall now',
            AuthService.before now' (AuthService.expires data) = true ->
            AuthService.validate_token (<[token := data]> active) token now'
            = (<[token := data]> active, Some data)) as Hvalid.
  { intros now' Hbefore. unfold AuthService.validate_token.
    rewrite lookup_insert_eq, Hbefore. reflexivity. }
  split_and!.
  - apply lookup_insert_eq.
  - exact Hexpires.
  - apply Hvalid. rewrite Hexpires. destruct now as [d us]. simpl in Hnow. subst d.
    simpl. now apply next_day_is_later.
  - intros now'. split; [apply Hvalid |].
    intros Hafter. unfold AuthService.validate_token.
    rewrite lookup_insert_eq, Hafter. split; [reflexivity |].
    intros later. now rewrite lookup_delete_eq.
Qed.

Lemma sessions_last_24_hours_witness :
  let active' :=
    fst (AuthService.authenticate_user Examples.users_json ∅ "admin" "admin123" "t0k3n"
           Examples.noon) in
  exists data, AuthService.validate_token active' "t0k3n" Examples.noon = (active', Some data).
Proof.
  destruct (sessions_last_24_hours Examples.users_json ∅ _ "admin" "admin123" "t0k3n" _
              Examples.noon 739407 _ ltac:(lia) ltac:(vm_compute; reflexivity) eq_refl)
    as (_ & data & _ & _ & Hvalid & _).
  exists data. exact Hvalid.
Defined.

(** X19.  logout and validate_token never open a session.  logout succeeds
    exactly when the token has a session and ends it: the token is refused
    afterwards, a second logout fails, and the other sessions are as they were.
    validate_token leaves the sessions alone when it accepts a token, and
    removes nothing but the session of the token when it refuses it. *)
Theorem logout_ends_the_session (active : gmap string AuthService.session) (token : string)
  (now : AuthService.datetime) :
  let after_logout := fst (AuthService.logout active token) in
  let after_check := fst (AuthService.validate_token active token now) in
  (snd (AuthService.logout active token) = true <-> is_Some (active !! token))
  /\ AuthService.validate_token after_logout token now = (after_logout, None)
  /\ AuthService.logout after_logout token = (after_logout, false)
  /\ (forall other, other <> token ->
        after_logout !! other = active !! other
        /\ after_check !! other = active !! other)
  /\ (forall data, snd (AuthService.validate_token active token now) = Some data ->
        after_check = active /\ active !! token = Some data
        /\ AuthService.before now (AuthService.expires data) = true)
  /\ (snd (AuthService.validate_token active token now) = None ->
      after_check !! token = None).
Proof.
  unfold AuthService.logout, AuthService.validate_token.
  destruct (active !! token) as [data |] eqn:Hsession; simpl.
  - rewrite lookup_delete_eq.
    destruct (AuthService.before now (AuthService.expires data)) eqn:Hbefore; simpl;
      (split_and!;
       [ split; [intros _; eauto | reflexivity]
       | reflexivity | reflexivity
       | intros other Hother;
         rewrite ?lookup_delete_ne by (intros Heq; now apply Hother); auto
       | intros data'; try discriminate; intros [= <-]; auto
       | try discriminate; intros _; try apply lookup_delete_eq ]).
  - rewrite Hsession.
    split_and!; try reflexivity; try discriminate; auto.
    split; [discriminate | intros [x Hx]; discriminate].
Qed.

Lemma logout_ends_the_session_witness :
  snd (AuthService.logout
         {[ "t0k3n"%string :=
              AuthService.Session "1" "admin" "Administrator" "admin" Examples.noon ]}
         "t0k3n")
  = true.
Proof.
  apply (logout_ends_the_session _ "t0k3n" Examples.noon).
  eexists. apply lookup_singleton_eq.
Defined.

(** ** The rule-based recommendations *)

Section Recommendations.

Import AiService Notions.

(** One turn of the loop, by the verdict on the tank. *)
Lemma review_tank_verdict (r : review) (t : tank) :
  review_tank r t
  = match verdict t with
    | critical =>
        {| critical_tanks := critical_tanks r ++ [Finding (name t) (reviewed_issues t)];
           warning_tanks := warning_tanks r;
           actions := actions r ++ List.map (fun i => (name t, i)) (reviewed_issues t) |}
    | warning =>
        {| critical_tanks := critical_tanks r;
           warning_tanks := warning_tanks r ++ [Finding (name t) (reviewed_issues t)];
           actions := actions r |}
    | normal => r
    end.
Proof.
  unfold review_tank, verdict, reviewed_issues, reviewed.
  destruct (_ || _); [reflexivity |].
  destruct (issues_of _ _ _); reflexivity.
Qed.

(** The loop as a whole. *)
Lemma review_all (tanks : list tank) (r : review) :
  fold_left review_tank tanks r
  = {| critical_tanks :=
         critical_tanks r
         ++ List.map (fun t => Finding (name t) (reviewed_issues t))
              (List.filter (has_verdict critical) tanks);
       warning_tanks :=
         warning_tanks r
         ++ List.map (fun t => Finding (name t) (reviewed_issues t))
              (List.filter (has_verdict warning) tanks);
       actions :=
         actions r
         ++ List.flat_map (fun t => List.map (fun i => (name t, i)) (reviewed_issues t))
              (List.filter (has_verdict critical) tanks) |}.
Proof.
  revert r. induction tanks as [| t tanks IH]; intros r; simpl.
  - rewrite !app_nil_r. now destruct r.
  - rewrite IH, review_tank_verdict. unfold has_verdict.
    destruct (verdict t); simpl; rewrite <- ?app_assoc; reflexivity.
Qed.

(** The verdict is normal where the status classifier says normal, on the
    same three values. *)
Lemma verdict_normal (t : tank) :
  verdict t = normal
  <-> TankService.classify (fst (fst (reviewed t))) (snd (fst (reviewed t)))
        (snd (reviewed t)) = normal.
Proof.
  unfold verdict, reviewed_issues, TankService.classify, issues_of.
  destruct (reviewed t) as [[ph turbidity] days]. simpl.
  pose proof (above_7_above_5 turbidity) as H7.
  pose proof (above_9_above_8_5 ph) as H9.
  pose proof (below_6_below_6_5 ph) as H6.
  destruct (PrimFloat.ltb 7 turbidity); [rewrite (H7 eq_refl) |];
    destruct (PrimFloat.ltb ph 6.0); try rewrite (H6 eq_refl);
    destruct (PrimFloat.ltb 9.0 ph); try rewrite (H9 eq_refl);
    destruct (PrimFloat.ltb ph 6.5); destruct (PrimFloat.ltb 8.5 ph);
    destruct (PrimFloat.ltb 5 turbidity); destruct (30 <? days);
    destruct (60 <? days); simpl; split; (discriminate || reflexivity).
Qed.

Lemma verdict_issues (t : tank) : verdict t <> normal -> reviewed_issues t <> [].
Proof.
  unfold verdict, reviewed_issues, issues_of.
  destruct (reviewed t) as [[ph turbidity] days]. simpl.
  pose proof (above_7_above_5 turbidity) as H7.
  pose proof (above_9_above_8_5 ph) as H9.
  pose proof (below_6_below_6_5 ph) as H6.
  destruct (PrimFloat.ltb 7 turbidity); [rewrite (H7 eq_refl) |];
    destruct (PrimFloat.ltb ph 6.0); try rewrite (H6 eq_refl);
    destruct (PrimFloat.ltb 9.0 ph); try rewrite (H9 eq_refl);
    destruct (PrimFloat.ltb ph 6.5); destruct (PrimFloat.ltb 8.5 ph);
    destruct (PrimFloat.ltb 5 turbidity); destruct (30 <? days);
    simpl; congruence.
Qed.

End Recommendations.

(** X20.  The rule-based recommendations list the tanks that are not well.  The
    risk assessment names, critical ones first and each group in the order of
    the fleet, the tanks whose verdict is critical or warning, each with at
    least one issue; the immediate actions are one per issue of a critical tank;
    the health score is 100 less 20 per critical and 10 per warning tank, and
    never below 0 or above 100.  A tank is left out of the lists exactly when
    the thresholds of the status classifier call it normal; for a tank as the
    listing returns it, exactly when its status is normal.  An overdue cleaning
    alone, however long, is a warning here. *)
Theorem recommendations_list_unwell_tanks (tanks : list tank) :
  let r := AiService.generate_fallback_recommendations tanks in
  let critical_ones := List.filter (Notions.has_verdict critical) tanks in
  let warning_ones := List.filter (Notions.has_verdict warning) tanks in
  AiService.risk_assessment r
  = List.map (fun t => AiService.Assessment (name t) critical (Notions.reviewed_issues t))
      critical_ones
    ++ List.map (fun t => AiService.Assessment (name t) warning (Notions.reviewed_issues t))
         warning_ones
  /\ Forall (fun a => AiService.reason a <> []) (AiService.risk_assessment r)
  /\ AiService.immediate_actions r
     = List.flat_map
         (fun t => List.map (fun i => (name t, i)) (Notions.reviewed_issues t))
         critical_ones
  /\ AiService.overall_health_score r
     = Z.max 0 (100 - 20 * len critical_ones - 10 * len warning_ones)
  /\ 0 <= AiService.overall_health_score r <= 100
  /\ (forall t,
        Notions.verdict t = normal
        <-> TankService.classify (fst (fst (Notions.reviewed t)))
              (snd (fst (Notions.reviewed t))) (snd (Notions.reviewed t)) = normal)
  /\ (forall t0 today t,
        TankService.tank_with_status t0 today = Return t ->
        (Notions.verdict t = normal <-> tank_status t = Some normal))
  /\ (forall t,
        Notions.reviewed_issues t
        = [AiService.OverdueCleaning (get (days_since_cleaned t) 0)] ->
        Notions.verdict t = warning).
Proof.
  intros r critical_ones warning_ones. subst r critical_ones warning_ones.
  unfold AiService.generate_fallback_recommendations.
  rewrite review_all. simpl.
  split_and!.
  - now rewrite !List.map_map.
  - rewrite !List.map_map. simpl. apply Forall_app. split; apply List.Forall_forall;
      intros a Ha; apply List.in_map_iff in Ha as (t & <- & Ht);
      apply List.filter_In in Ht as [_ Ht]; simpl; apply verdict_issues;
      unfold Notions.has_verdict in Ht; destruct (Notions.verdict t); discriminate.
  - reflexivity.
  - unfold len. rewrite !List.length_map. f_equal. lia.
  - unfold len. rewrite !List.length_map. lia.
  - unfold len. rewrite !List.length_map. lia.
  - exact verdict_normal.
  - intros t0 today t Hlisted. rewrite verdict_normal.
    apply tank_with_status_Return in Hlisted
      as (last & since & next & until & st & loc & capacity & current_level & current
          & Hlast & Hsince & _ & _ & Hst & _ & _ & _ & Hcurrent & ->).
    unfold Notions.reviewed. simpl.
    unfold TankService.get_tank_status in Hst. rewrite Hlast, Hcurrent in Hst. simpl in Hst.
    rewrite Hsince in Hst. simpl in Hst. injection Hst as <-.
    split; congruence.
  - intros t Hissues. unfold Notions.verdict. rewrite Hissues.
    unfold Notions.reviewed_issues, AiService.issues_of in Hissues.
    destruct (Notions.reviewed t) as [[ph turbidity] days]. simpl.
    pose proof (above_7_above_5 turbidity) as H7.
    pose proof (above_9_above_8_5 ph) as H9.
    pose proof (below_6_below_6_5 ph) as H6.
    destruct (PrimFloat.ltb 7 turbidity); [rewrite (H7 eq_refl) in Hissues |];
      destruct (PrimFloat.ltb ph 6.0); try rewrite (H6 eq_refl) in Hissues;
      destruct (PrimFloat.ltb 9.0 ph); try rewrite (H9 eq_refl) in Hissues;
      destruct (PrimFloat.ltb ph 6.5); destruct (PrimFloat.ltb 8.5 ph);
      destruct (PrimFloat.ltb 5 turbidity); destruct (30 <? days);
      simpl in *; (discriminate || reflexivity).
Qed.

Lemma recommendations_list_unwell_tanks_witness :
  Notions.verdict Examples.listed_B = warning
  /\ AiService.overall_health_score
       (AiService.generate_fallback_recommendations Examples.fleet) = 70.
Proof.
  pose proof (recommendations_list_unwell_tanks Examples.fleet)
    as (_ & _ & _ & Hscore & _ & _ & _ & Hoverdue).
  split.
  - apply Hoverdue. reflexivity.
  - rewrite Hscore. reflexivity.
Defined.

(** ** The rule-based explanation of an alert *)

Section Explanations.

Import AiCopilotService.

Lemma lower_char_twice (c : ascii) : Text.lower_char (Text.lower_char c) = Text.lower_char c.
Proof. destruct c as [[] [] [] [] [] [] [] []]; reflexivity. Qed.

(** [lower] changes nothing in a text that it has made. *)
Lemma lower_twice (s : string) : Text.lower (Text.lower s) = Text.lower s.
Proof.
  induction s as [| c s IH]; simpl; [reflexivity |].
  now rewrite lower_char_twice, IH.
Qed.

(** There is a cause for every message, and an action for every cause. *)
Lemma causes_and_actions_counts (message : string) :
  exists first others,
    fst (causes_and_actions message) = first :: others
    /\ first <> "Unknown"%string
    /\ (length others <= 2)%nat
    /\ length (snd (causes_and_actions message)) = S (length others).
Proof.
  unfold causes_and_actions.
  destruct (Text.contains "ph" _), (Text.contains "turbidity" _),
    (Text.contains "maintenance" _), (Text.contains "clean" _); simpl;
    eexists _, _; (split; [reflexivity |]); split_and!;
    try discriminate; (reflexivity || (simpl; lia)).
Qed.

End Explanations.

(** X21.  The rule-based explanation of an alert always names a cause: the cause
    "Unknown" cannot come out.  There is one recommended action per cause (the
    primary one and at most two contributing ones).  The keyword tests do not
    tell upper case from lower case, and the tank is not looked at.  The
    compliance flags follow the type of the alert: bis_violation and
    reporting_required hold, and jjm_compliance fails, exactly for a "critical"
    alert, whose impact score is 8; a "warning" has 5 and any other type, a
    missing one included, has 2. *)
Theorem fallback_explanation_names_a_cause (a : alert) (tank_data : option tank) :
  let r := AiCopilotService.generate_fallback_explanation a tank_data in
  let e := AiCopilotService.the_explanation r in
  AiCopilotService.primary_cause e <> "Unknown"%string
  /\ length (AiCopilotService.recommended_actions e)
     = S (length (AiCopilotService.contributing_factors e))
  /\ (length (AiCopilotService.contributing_factors e) <= 2)%nat
  /\ AiCopilotService.primary_cause e :: AiCopilotService.contributing_factors e
     = fst (AiCopilotService.causes_and_actions (get (message a) ""))
  /\ AiCopilotService.causes_and_actions (Text.lower (get (message a) ""))
     = AiCopilotService.causes_and_actions (get (message a) "")
  /\ r = AiCopilotService.generate_fallback_explanation a None
  /\ AiCopilotService.reporting_required e = AiCopilotService.bis_violation e
  /\ AiCopilotService.jjm_compliance e = negb (AiCopilotService.bis_violation e)
  /\ (AiCopilotService.bis_violation e = true <-> alert_type a = Some "critical"%string)
  /\ (alert_type a = Some "critical"%string -> AiCopilotService.impact_score e = 8)
  /\ (alert_type a = Some "warning"%string -> AiCopilotService.impact_score e = 5)
  /\ (alert_type a <> Some "critical"%string -> alert_type a <> Some "warning"%string ->
      AiCopilotService.impact_score e = 2).
Proof.
  intros r e. subst r e. unfold AiCopilotService.generate_fallback_explanation.
  destruct (causes_and_actions_counts (get (message a) ""))
    as (first & others & Hcauses & Hknown & Hfew & Hactions).
  destruct (AiCopilotService.causes_and_actions (get (message a) ""))
    as [causes actions] eqn:Hboth.
  simpl in Hcauses, Hactions. subst causes. simpl.
  split_and!; try reflexivity.
  - exact Hknown.
  - rewrite Hactions. unfold len. simpl length.
    destruct (1 <? Z.of_nat (S (length others))) eqn:Hmore; [reflexivity |].
    apply Z.ltb_ge in Hmore. destruct others; [reflexivity | simpl in Hmore; lia].
  - unfold len. simpl length.
    destruct (1 <? Z.of_nat (S (length others))); [exact Hfew | simpl; lia].
  - unfold len. simpl length.
    destruct (1 <? Z.of_nat (S (length others))) eqn:Hmore; [reflexivity |].
    apply Z.ltb_ge in Hmore. destruct others; [reflexivity | simpl in Hmore; lia].
  - unfold AiCopilotService.causes_and_actions. now rewrite !lower_twice.
  - destruct (alert_type a) as [kind |]; simpl; [| split; discriminate].
    destruct (String.eqb_spec kind "critical") as [-> | Hne]; split;
      congruence.
  - intros ->. reflexivity.
  - intros ->. reflexivity.
  - intros Hc Hw. destruct (alert_type a) as [kind |]; simpl; [| reflexivity].
    destruct (String.eqb_spec kind "critical") as [-> | Hne]; [congruence |].
    destruct (String.eqb_spec kind "warning") as [-> | Hne']; [congruence |].
    reflexivity.
Qed.

Lemma fallback_explanation_names_a_cause_witness :
  AiCopilotService.primary_cause
    (AiCopilotService.the_explanation
       (AiCopilotService.generate_fallback_explanation
          (Alert "A1" (Some "T1"%string) None (Some "PH out of range"%string) None) None))
  = "pH imbalance detected in water"%string
  /\ AiCopilotService.impact_score
       (AiCopilotService.the_explanation
          (AiCopilotService.generate_fallback_explanation
             (Alert "A1" (Some "T1"%string) None (Some "PH out of range"%string) None)
             None))
     = 2.
Proof.
  split; [reflexivity |].
  apply (fallback_explanation_names_a_cause
           (Alert "A1" (Some "T1"%string) None (Some "PH out of range"%string) None) None);
    discriminate.
Defined.

(** ** The JSON object in the text of a reply *)

Section Braces.

Import Text.

Open Scope string_scope.

Lemma append_nil (s : string) : "" ++ s = s.
Proof. reflexivity. Qed.

Lemma append_cons (a : ascii) (s s' : string) : String a s ++ s' = String a (s ++ s').
Proof. reflexivity. Qed.

(** Searching for one character. *)
Lemma prefix_char (c a : ascii) (s : string) :
  String.prefix (String c "") (String a s) = Ascii.eqb c a.
Proof.
  simpl. destruct (ascii_dec c a) as [-> | Hne].
  - rewrite Ascii.eqb_refl. now destruct s.
  - symmetry. now apply Ascii.eqb_neq.
Qed.

Lemma find_cons (c a : ascii) (s : string) :
  find (String c "") (String a s)
  = if Ascii.eqb c a then 0
    else if (find (String c "") s =? -1)%Z then -1 else find (String c "") s + 1.
Proof.
  change (find (String c "") (String a s))
    with (if String.prefix (String c "") (String a s) then 0
          else let i := find (String c "") s in if (i =? -1)%Z then -1 else i + 1).
  now rewrite prefix_char.
Qed.

Lemma rfind_cons (c a : ascii) (s : string) :
  rfind (String c "") (String a s)
  = if (rfind (String c "") s =? -1)%Z then (if Ascii.eqb c a then 0 else -1)
    else rfind (String c "") s + 1.
Proof.
  change (rfind (String c "") (String a s))
    with (let i := rfind (String c "") s in
          if (i =? -1)%Z then (if String.prefix (String c "") (String a s) then 0 else -1)
          else i + 1).
  now rewrite prefix_char.
Qed.

Lemma find_range (c : ascii) (s : string) : -1 <= find (String c "") s.
Proof.
  induction s as [| a s IH]; [simpl; lia |].
  rewrite find_cons. destruct (Ascii.eqb c a); [lia |].
  destruct (Z.eqb_spec (find (String c "") s) (-1)); lia.
Qed.

Lemma rfind_range (c : ascii) (s : string) : -1 <= rfind (String c "") s.
Proof.
  induction s as [| a s IH]; [simpl; lia |].
  rewrite rfind_cons. destruct (Z.eqb_spec (rfind (String c "") s) (-1)); [| lia].
  destruct (Ascii.eqb c a); lia.
Qed.

(** A character that is not found from the left is not found from the
    right, and the other way round. *)
Lemma find_none_rfind (c : ascii) (s : string) :
  find (String c "") s = -1 <-> rfind (String c "") s = -1.
Proof.
  induction s as [| a s IH]; [simpl; tauto |].
  rewrite find_cons, rfind_cons.
  pose proof (find_range c s). pose proof (rfind_range c s).
  destruct (Ascii.eqb c a);
    destruct (Z.eqb_spec (find (String c "") s) (-1));
    destruct (Z.eqb_spec (rfind (String c "") s) (-1)); split; intros; try lia;
    tauto.
Qed.

(** The first occurrence comes after a text that has none. *)
Lemma find_after (c : ascii) (pre rest : string) :
  find (String c "") pre = -1 ->
  find (String c "") (pre ++ String c rest) = Z.of_nat (String.length pre).
Proof.
  induction pre as [| a pre IH]; intros Hnone.
  - rewrite ?append_nil, ?append_cons. rewrite find_cons, Ascii.eqb_refl. reflexivity.
  - rewrite find_cons in Hnone. rewrite ?append_nil, ?append_cons. rewrite find_cons.
    destruct (Ascii.eqb c a); [discriminate |].
    destruct (Z.eqb_spec (find (String c "") pre) (-1)) as [Hpre | Hpre].
    + rewrite (IH Hpre).
      destruct (Z.eqb_spec (Z.of_nat (String.length pre)) (-1)); [lia |].
      cbn [String.length]. lia.
    + pose proof (find_range c pre). lia.
Qed.

(** The last occurrence comes before a text that has none. *)
Lemma rfind_before (c : ascii) (x post : string) :
  find (String c "") post = -1 ->
  rfind (String c "") (x ++ String c post) = Z.of_nat (String.length x).
Proof.
  intros Hnone. apply find_none_rfind in Hnone.
  induction x as [| a x IH].
  - rewrite ?append_nil, ?append_cons. rewrite rfind_cons, Hnone, Ascii.eqb_refl. reflexivity.
  - rewrite ?append_nil, ?append_cons. rewrite rfind_cons, IH.
    destruct (Z.eqb_spec (Z.of_nat (String.length x)) (-1)); [lia |].
    cbn [String.length]. lia.
Qed.

(** Stripping keeps what lies between two characters that are not
    spaces, and does not bring those characters in. *)
Lemma lstrip_before (c : ascii) (pre rest : string) :
  isspace c = false -> lstrip (pre ++ String c rest) = lstrip pre ++ String c rest.
Proof.
  intros Hc. induction pre as [| a pre IH]; rewrite ?append_nil, ?append_cons; simpl.
  - now rewrite Hc.
  - destruct (isspace a); [exact IH | reflexivity].
Qed.

Lemma rstrip_after (c : ascii) (x post : string) :
  isspace c = false -> rstrip (x ++ String c post) = x ++ String c (rstrip post).
Proof.
  intros Hc.
  assert (rstrip (String c post) = String c (rstrip post)) as Hlast.
  { simpl. destruct (rstrip post); [now rewrite Hc | reflexivity]. }
  induction x as [| a x IH]; [exact Hlast |].
  rewrite ?append_nil, ?append_cons.
  change (rstrip (String a (x ++ String c post)))
    with (match rstrip (x ++ String c post) with
          | "" => if isspace a then "" else String a ""
          | kept => String a kept
          end).
  rewrite IH. now destruct x.
Qed.

Lemma find_lstrip (c : ascii) (s : string) :
  isspace c = false ->
  (find (String c "") (lstrip s) = -1 <-> find (String c "") s = -1).
Proof.
  intros Hc. induction s as [| a s IH]; [simpl; tauto |].
  simpl lstrip. destruct (isspace a) eqn:Ha; [| tauto].
  rewrite IH, find_cons.
  destruct (Ascii.eqb_spec c a) as [-> | Hne]; [congruence |].
  pose proof (find_range c s).
  destruct (Z.eqb_spec (find (String c "") s) (-1)); split; intros; lia.
Qed.

Lemma find_rstrip (c : ascii) (s : string) :
  isspace c = false ->
  (find (String c "") (rstrip s) = -1 <-> find (String c "") s = -1).
Proof.
  intros Hc. induction s as [| a s IH]; [simpl; tauto |].
  change (rstrip (String a s))
    with (match rstrip s with
          | "" => if isspace a then "" else String a ""
          | kept => String a kept
          end).
  rewrite (find_cons c a s).
  destruct (rstrip s) as [| b kept] eqn:Hkept.
  - simpl in IH. 
    destruct (isspace a) eqn:Ha.
    + destruct (Ascii.eqb_spec c a) as [-> | Hne]; [congruence |].
      destruct (Z.eqb_spec (find (String c "") s) (-1)); [simpl; tauto |].
      tauto.
    + rewrite find_cons. simpl find.
      destruct (Ascii.eqb c a); [tauto |].
      destruct (Z.eqb_spec (find (String c "") s) (-1)); [simpl; tauto | tauto].
  - rewrite find_cons.
    destruct (Ascii.eqb c a); [tauto |].
    pose proof (find_range c s). pose proof (find_range c (String b kept)).
    destruct (Z.eqb_spec (find (String c "") (String b kept)) (-1));
      destruct (Z.eqb_spec (find (String c "") s) (-1)); split; intros; try lia; tauto.
Qed.

(** Slices. *)
Lemma substring_nothing (n : nat) (s : string) : String.substring n 0 s = "".
Proof. revert n. induction s as [| a s IH]; intros [| n]; simpl; auto. Qed.

Lemma substring_middle (pre mid post : string) :
  String.substring (String.length pre) (String.length mid) (pre ++ mid ++ post) = mid.
Proof.
  induction pre as [| a pre IH]; rewrite ?append_nil, ?append_cons; simpl; [| exact IH].
  revert post. induction mid as [| b mid IH]; intros post;
    rewrite ?append_nil, ?append_cons; simpl.
  - apply substring_nothing.
  - now rewrite IH.
Qed.

Lemma length_append (s s' : string) :
  String.length (s ++ s') = (String.length s + String.length s')%nat.
Proof.
  induction s as [| a s IH]; rewrite ?append_nil, ?append_cons; simpl;
    [reflexivity | now rewrite IH].
Qed.

Lemma append_assoc (a b c : string) : (a ++ b) ++ c = a ++ (b ++ c).
Proof.
  induction a as [| x a IH]; rewrite ?append_nil, ?append_cons; [reflexivity | now rewrite IH].
Qed.

(** The stripped text, its two indices and its slice, for a text with an
    object in it. *)
Lemma object_slice (pre body post : string) :
  find "{" pre = -1 -> find "}" post = -1 ->
  let text := strip (pre ++ "{" ++ body ++ "}" ++ post) in
  find "{" text <> -1
  /\ rfind "}" text + 1 <> 0 /\ rfind "}" text + 1 <> -1
  /\ slice (find "{" text) (rfind "}" text + 1) text = "{" ++ body ++ "}".
Proof.
  intros Hpre Hpost text.
  assert (text = lstrip pre ++ String "{" (body ++ String "}" (rstrip post))) as Htext.
  { subst text. unfold strip.
    change (pre ++ "{" ++ body ++ "}" ++ post) with (pre ++ String "{" (body ++ String "}" post)).
    rewrite (lstrip_before "{") by reflexivity.
    replace (lstrip pre ++ String "{" (body ++ String "}" post))
      with ((lstrip pre ++ String "{" body) ++ String "}" post)
      by (rewrite append_assoc; reflexivity).
    rewrite (rstrip_after "}") by reflexivity.
    rewrite append_assoc. reflexivity. }
  clearbody text. subst text.
  apply (find_lstrip "{" pre eq_refl) in Hpre.
  apply (find_rstrip "}" post eq_refl) in Hpost.
  set (pre' := lstrip pre) in *. set (post' := rstrip post) in *.
  rewrite (find_after "{" pre' _ Hpre).
  replace (pre' ++ String "{" (body ++ String "}" post'))
    with ((pre' ++ String "{" body) ++ String "}" post') at 1 2 3
    by (rewrite append_assoc; reflexivity).
  rewrite (rfind_before "}" _ post' Hpost).
  split_and!; try lia.
  unfold slice. rewrite length_append. cbn [String.length].
  rewrite Nat2Z.id.
  replace (Z.to_nat (Z.of_nat (String.length pre' + S (String.length body)) + 1
                     - Z.of_nat (String.length pre')))
    with (String.length ("{" ++ body ++ "}"))
    by (rewrite append_cons, append_nil; cbn [String.length];
        rewrite length_append; cbn [String.length]; lia).
  replace (pre' ++ String "{" (body ++ String "}" post'))
    with (pre' ++ ("{" ++ body ++ "}") ++ post')
    by (rewrite (append_assoc "{"), (append_assoc body); reflexivity).
  apply substring_middle.
Qed.

End Braces.

Section Objects.

Import Text.

Lemma find_strip (c : ascii) (s : string) :
  isspace c = false ->
  (find (String c "") (strip s) = -1 <-> find (String c "") s = -1).
Proof.
  intros Hc. unfold strip. now rewrite (find_rstrip c _ Hc), (find_lstrip c _ Hc).
Qed.

(** What the helper of the predictions makes of a text with an object in
    it, and of a text that lacks a brace. *)
Lemma prediction_object {json : Type} (loads : string -> result json)
  (pre body post : string) :
  find "{" pre = -1 -> find "}" post = -1 ->
  AiPredictionService._extract_json_from_text loads
    (pre ++ "{" ++ body ++ "}" ++ post)%string
  = loads ("{" ++ body ++ "}")%string.
Proof.
  intros Hpre Hpost.
  destruct (object_slice pre body post Hpre Hpost) as (Hstart & Hstop & _ & Hslice).
  set (text := (pre ++ "{" ++ body ++ "}" ++ post)%string) in *.
  unfold AiPredictionService._extract_json_from_text.
  apply Z.eqb_neq in Hstart, Hstop.
  rewrite Hstart, Hstop, Hslice. cbn [orb].
  destruct text eqn:Htext; [| reflexivity].
  subst text. destruct pre; discriminate.
Qed.

Lemma prediction_without_brace {json : Type} (loads : string -> result json)
  (text : string) :
  find "{" text = -1 \/ find "}" text = -1 ->
  AiPredictionService._extract_json_from_text loads text = Raise ValueError.
Proof.
  intros Hnone. unfold AiPredictionService._extract_json_from_text.
  destruct text as [| c text']; [reflexivity |].
  set (text := String c text') in *.
  destruct Hnone as [Hnone | Hnone].
  - apply (find_strip "{" text eq_refl) in Hnone. now rewrite Hnone.
  - apply (find_strip "}" text eq_refl), find_none_rfind in Hnone.
    rewrite Hnone. cbn [Z.add Z.eqb Z.opp Pos.eqb Z.pos_sub]. now rewrite orb_true_r.
Qed.

End Objects.

(** X22.  Of a text that has an object between braces, with no opening brace
    before it and no closing brace after it, the helper of the predictions and
    the helper of the image analysis both parse the object with its braces and
    nothing else, whatever surrounds it. *)
Theorem json_object_is_cut_out {json : Type} (loads : string -> result json)
  (pre body post : string) :
  Text.find "{" pre = -1 -> Text.find "}" post = -1 ->
  let text := (pre ++ "{" ++ body ++ "}" ++ post)%string in
  AiPredictionService._extract_json_from_text loads text
  = loads ("{" ++ body ++ "}")%string
  /\ VisionAiService._extract_json_from_text loads text
     = loads ("{" ++ body ++ "}")%string.
Proof.
  intros Hpre Hpost text. split; [now apply prediction_object |].
  destruct (object_slice pre body post Hpre Hpost) as (Hstart & _ & Hstop & Hslice).
  fold text in Hstart, Hstop, Hslice.
  unfold VisionAiService._extract_json_from_text.
  apply Z.eqb_neq in Hstart, Hstop.
  now rewrite Hstart, Hstop, Hslice.
Qed.

Lemma json_object_is_cut_out_witness :
  AiPredictionService._extract_json_from_text (fun s => Return s)
    "Here it is:  {'risk': 'low'}  I hope it helps."
  = Return "{'risk': 'low'}"%string
  /\ VisionAiService._extract_json_from_text (fun s => Return s)
       "Here it is:  {'risk': 'low'}  I hope it helps."
     = Return "{'risk': 'low'}"%string.
Proof.
  exact (json_object_is_cut_out (fun s => Return s)
           "Here it is:  " "'risk': 'low'" "  I hope it helps." eq_refl eq_refl).
Defined.



(** ** The alerts *)

Section AlertCounts.

Import Main.

Import Notions.

Lemma of_type_typed (kind : string) (l : list alert) :
  Forall (fun a => is_Some (alert_type a)) l ->
  of_type kind l = Return (List.filter (typed kind) l).
Proof.
  unfold of_type. induction 1 as [| a l [found Hfound] _ IH]; [reflexivity |].
  apply bind_Return in IH as (kept & Hkept & [= Hconcat]).
  cbn [each]. rewrite Hfound. cbn -[String.eqb]. rewrite Hkept. cbn -[String.eqb].
  unfold typed at 1. rewrite Hfound.
  destruct (String.eqb found kind); cbn [app]; now rewrite Hconcat.
Qed.

Lemma of_type_untyped (kind : string) (l : list alert) :
  Exists (fun a => alert_type a = None) l -> of_type kind l = Raise (KeyError "type").
Proof.
  unfold of_type. induction 1 as [a l Hnone | a l _ IH].
  - cbn [each]. now rewrite Hnone.
  - cbn [each]. destruct (alert_type a) as [found |]; [| reflexivity].
    cbn -[String.eqb].
    destruct (each _ l) as [kept | e]; [discriminate |].
    cbn in IH |- *. exact IH.
Qed.

Lemma typed_counts (l : list alert) :
  Forall (fun a => is_Some (alert_type a)) l ->
  len (List.filter (typed "critical") l) + len (List.filter (typed "warning") l)
  + len (List.filter (typed "info") l) <= len l
  /\ (len (List.filter (typed "critical") l) + len (List.filter (typed "warning") l)
      + len (List.filter (typed "info") l) = len l
      <-> Forall (fun a => alert_type a = Some "critical"%string
                           \/ alert_type a = Some "warning"%string
                           \/ alert_type a = Some "info"%string) l).
Proof.
  induction 1 as [| a l [found Hfound] _ [IHle IHeq]].
  - split; [reflexivity |]. split; [constructor | reflexivity].
  - cbn [List.filter].
    assert (forall kind, typed kind a = String.eqb found kind) as Ha
      by (intros kind; unfold typed; now rewrite Hfound).
    rewrite !Ha.
    destruct (String.eqb_spec found "critical") as [Hc | Hc],
      (String.eqb_spec found "warning") as [Hw | Hw],
      (String.eqb_spec found "info") as [Hi | Hi]; try congruence;
      rewrite ?len_cons; (split; [lia |]).
    + split.
      * intros H. constructor; [left; congruence |]. apply IHeq. lia.
      * intros H. apply Forall_cons in H as [_ H]. apply IHeq in H. lia.
    + split.
      * intros H. constructor; [right; left; congruence |]. apply IHeq. lia.
      * intros H. apply Forall_cons in H as [_ H]. apply IHeq in H. lia.
    + split.
      * intros H. constructor; [right; right; congruence |]. apply IHeq. lia.
      * intros H. apply Forall_cons in H as [_ H]. apply IHeq in H. lia.
    + split; [lia |].
      intros H. apply Forall_cons in H as [[H | [H | H]] _];
        rewrite Hfound in H; congruence.
Qed.

Lemma len_filter {A : Type} (f : A -> bool) (l : list A) : 0 <= len (List.filter f l) <= len l.
Proof.
  unfold len. pose proof (List.filter_length_le f l). lia.
Qed.

Lemma get_alerts_again (s : JsonLoader.store) :
  snd (JsonLoader.get_alerts (fst (JsonLoader.get_tanks s))) = snd (JsonLoader.get_alerts s).
Proof.
  unfold JsonLoader.get_alerts, JsonLoader.get_tanks.
  rewrite (load_data_loaded s). cbn [fst].
  rewrite (load_data_loaded (fst (JsonLoader.load_data s))), loaded_after_load.
  reflexivity.
Qed.

End AlertCounts.

(** X24.  GET /api/alerts.  When every alert has a type, the endpoint returns
    all the alerts with their counts: the total; the unacknowledged ones, an
    alert that does not say counting as unacknowledged, which is the number that
    the dashboard shows as active alerts; and the critical, warning and info
    ones, which add up to the total exactly when no alert has another type.
    When an alert has no type the endpoint raises KeyError.  The endpoint
    changes nothing but the cache. *)
Theorem alerts_summary_counts (float_sum : list float -> float) (s : JsonLoader.store) :
  let alerts := snd (JsonLoader.get_alerts s) in
  let outcome := snd (Main.get_all_alerts s) in
  (Forall (fun a => is_Some (alert_type a)) alerts ->
   exists summary,
     outcome = Return (alerts, summary)
     /\ Main.total summary = len alerts
     /\ Main.unacknowledged summary
        = len (List.filter (fun a => negb (get (acknowledged a) false)) alerts)
     /\ 0 <= Main.unacknowledged summary <= Main.total summary
     /\ Main.critical_alerts summary + Main.warning_alerts summary
        + Main.info_alerts summary <= Main.total summary
     /\ (Main.critical_alerts summary + Main.warning_alerts summary
         + Main.info_alerts summary = Main.total summary
         <-> Forall (fun a => alert_type a = Some "critical"%string
                              \/ alert_type a = Some "warning"%string
                              \/ alert_type a = Some "info"%string) alerts)
     /\ (forall r, snd (AnalyticsService.get_system_analytics float_sum s) = Return r ->
                   AnalyticsService.active_alerts r = Main.unacknowledged summary))
  /\ (Exists (fun a => alert_type a = None) alerts -> outcome = Raise (KeyError "type"))
  /\ fst (Main.get_all_alerts s) = fst (JsonLoader.load_data s).
Proof.
  intros alerts outcome. subst outcome.
  assert (Main.get_all_alerts s
          = (fst (JsonLoader.load_data s),
             critical ← Main.of_type "critical" alerts;
             warnings ← Main.of_type "warning" alerts;
             info ← Main.of_type "info" alerts;
             mret (alerts,
                   {| Main.total := len alerts;
                      Main.critical_alerts := len critical;
                      Main.warning_alerts := len warnings;
                      Main.info_alerts := len info;
                      Main.unacknowledged :=
                        len (List.filter (fun a => negb (get (acknowledged a) false))
                               alerts) |}))) as ->.
  { subst alerts. unfold Main.get_all_alerts, JsonLoader.get_alerts.
    now destruct (JsonLoader.load_data s). }
  cbn [fst snd]. split_and!; [| | reflexivity].
  - intros Htyped.
    rewrite !(of_type_typed _ _ Htyped). cbn -[Notions.typed].
    eexists. split; [reflexivity |]. cbn -[Notions.typed].
    destruct (typed_counts alerts Htyped) as [Hle Heq].
    split_and!; try reflexivity; try assumption; try apply len_filter.
    intros r Hr. unfold AnalyticsService.get_system_analytics in Hr.
    pose proof (get_alerts_again s) as Hagain. fold alerts in Hagain.
    destruct (JsonLoader.get_tanks s) as [s1 fleet]. cbn [fst] in Hagain.
    destruct (JsonLoader.get_alerts s1) as [s2 notices]. cbn [snd] in Hagain, Hr.
    subst notices.
    apply bind_Return in Hr as (capacities & _ & Hr).
    apply bind_Return in Hr as (avg_level & _ & Hr).
    apply bind_Return in Hr as (ph_values & _ & Hr).
    apply bind_Return in Hr as (turbidity_values & _ & Hr).
    apply bind_Return in Hr as (temp_values & _ & [= <-]).
    reflexivity.
  - intros Huntyped. now rewrite (of_type_untyped "critical" _ Huntyped).
Qed.

Lemma alerts_summary_counts_witness :
  exists summary,
    snd (Main.get_all_alerts Examples.with_alerts)
    = Return ([Examples.alert_1; Examples.alert_2; Examples.alert_3], summary)
    /\ Main.total summary = 3
    /\ Main.unacknowledged summary = 2
    /\ Main.critical_alerts summary + Main.warning_alerts summary
       + Main.info_alerts summary = 2.
Proof.
  destruct (alerts_summary_counts sum_plain Examples.with_alerts) as (Hsummary & _).
  destruct Hsummary as (summary & Hreturn & _).
  { repeat constructor; eexists; reflexivity. }
  exists summary. split; [exact Hreturn |].
  injection Hreturn as <-. split_and!; reflexivity.
Defined.

(** ** The predictions *)

Section FallbackPlans.

Import Calendar AiPredictionService.

(** The date of a daily forecast. *)
Lemma forecast_day_date (avg : float) (now : date) (i : Z) (d : daily_forecast) :
  0 <= i ->
  forecast_day avg now i = Return d ->
  exists dt,
    add_days now (i + 1) = Return dt
    /\ f_date d = strftime dt
    /\ days_between dt now = i + 1
    /\ (toordinal (Date 1000 1 1) <= toordinal now -> strptime (f_date d) = Return dt).
Proof.
  unfold forecast_day. intros Hi H.
  apply bind_Return in H as (dt & Hdt & H).
  apply bind_Return in H as (demand & _ & [= <-]).
  destruct (add_days_read_back _ _ _ Hdt) as (Hlong & _ & Hyear).
  exists dt. cbn [f_date]. split_and!.
  - exact Hdt.
  - reflexivity.
  - exact (add_days_later _ _ _ Hdt).
  - intros Hnow. apply Hlong, Hyear. lia.
Qed.

Lemma urgency_of_cases (turbidity : float) (days : Z) :
  match urgency_of turbidity days with
  | (immediate, lead) => lead = 0 /\ (PrimFloat.ltb 5 turbidity = true \/ 45 < days)
  | (urgent, lead) =>
      lead = 3 /\ PrimFloat.ltb 5 turbidity = false /\ days <= 45
      /\ (PrimFloat.ltb 3 turbidity = true \/ 35 < days)
  | (soon, lead) =>
      lead = 7 /\ PrimFloat.ltb 3 turbidity = false /\ 25 < days <= 35
  | (routine, lead) =>
      lead = Z.max 0 (30 - days) /\ PrimFloat.ltb 3 turbidity = false /\ days <= 25
  end.
Proof.
  unfold urgency_of.
  destruct (PrimFloat.ltb 5 turbidity) eqn:H5; cbn [orb]; [split; [reflexivity | now left] |].
  destruct (Z.ltb_spec 45 days); [split; [reflexivity | now right] |].
  destruct (PrimFloat.ltb 3 turbidity) eqn:H3; cbn [orb];
    [split_and!; try reflexivity; try lia; now left |].
  destruct (Z.ltb_spec 35 days); [split_and!; try reflexivity; try lia; now right |].
  destruct (Z.ltb_spec 25 days); split_and!; try reflexivity; lia.
Qed.

End FallbackPlans.

(** X25.  The dates of the demand forecast are the seven days that follow the
    day of the call, in order: the text of each daily forecast is the text
    written for the date that is as many days after that day as the number of
    the forecast says, and it reads as that date when the day of the call is not
    before 1000-01-01. *)
Theorem forecast_dates_are_the_next_week (tanks_data : list tank) (now : Calendar.date)
  (r : AiPredictionService.tagged AiPredictionService.demand_forecast) :
  AiPredictionService.forecast_demand_fallback tanks_data now = Return r ->
  Forall2
    (fun n d =>
       AiPredictionService.f_day d = n
       /\ exists dt,
            Calendar.add_days now n = Return dt
            /\ AiPredictionService.f_date d = Calendar.strftime dt
            /\ Calendar.days_between dt now = n
            /\ (Calendar.toordinal (Calendar.Date 1000 1 1) <= Calendar.toordinal now ->
                Calendar.strptime (AiPredictionService.f_date d) = Return dt))
    [1; 2; 3; 4; 5; 6; 7]
    (AiPredictionService.daily_forecasts (AiPredictionService.body r)).
Proof.
  intros H. unfold AiPredictionService.forecast_demand_fallback in H.
  apply bind_Return in H as (capacity & _ & H).
  apply bind_Return in H as (forecasts & Hdays & H).
  apply bind_Return in H as (weekly & _ & H).
  apply bind_Return in H as (daily & _ & [= <-]).
  cbn [AiPredictionService.body AiPredictionService.daily_forecasts].
  apply each_Return in Hdays.
  change (AiPredictionService.range 7) with [0; 1; 2; 3; 4; 5; 6] in Hdays.
  repeat
    match goal with
    | H : Forall2 _ (_ :: _) _ |- _ =>
        let d := fresh "d" in
        let Hd := fresh "Hd" in
        apply Forall2_cons_inv_l in H as (d & ? & Hd & H & ->);
        pose proof (forecast_day_Return _ _ _ _ Hd) as [? _];
        apply forecast_day_date in Hd; [| lia]
    | H : Forall2 _ [] _ |- _ => apply Forall2_nil_inv_l in H as ->
    end.
  repeat (constructor; [split; [assumption | assumption] |]). constructor.
Qed.

Lemma forecast_dates_are_the_next_week_witness :
  exists r,
    AiPredictionService.forecast_demand_fallback [Samples.tank_B] Samples.today = Return r
    /\ List.map AiPredictionService.f_date
         (AiPredictionService.daily_forecasts (AiPredictionService.body r))
       = ["2025-06-06"; "2025-06-07"; "2025-06-08"; "2025-06-09"; "2025-06-10";
          "2025-06-11"; "2025-06-12"]%string
    /\ Forall2
         (fun n d =>
            AiPredictionService.f_day d = n
            /\ exists dt,
                 Calendar.add_days Samples.today n = Return dt
                 /\ AiPredictionService.f_date d = Calendar.strftime dt
                 /\ Calendar.days_between dt Samples.today = n
                 /\ (Calendar.toordinal (Calendar.Date 1000 1 1)
                     <= Calendar.toordinal Samples.today ->
                     Calendar.strptime (AiPredictionService.f_date d) = Return dt))
         [1; 2; 3; 4; 5; 6; 7]
         (AiPredictionService.daily_forecasts (AiPredictionService.body r)).
Proof.
  eexists. split; [vm_compute; reflexivity |]. split; [reflexivity |].
  apply (forecast_dates_are_the_next_week [Samples.tank_B] Samples.today).
  vm_compute. reflexivity.
Defined.

(** X26.  The maintenance plan of the rules hangs together.  When the fallback
    returns, its date is the text written for the day that is
    days_until_recommended days after today, and reads as that day when today is
    not before 1000-01-01; the days are 0 for an immediate cleaning, 3 for an
    urgent one, 7 for one due soon, and what is left of 30 days since the last
    cleaning for a routine one; the cleaning is an emergency exactly when it is
    immediate, and the risk of a delay is high exactly when it is immediate or
    urgent, medium otherwise; a tank cleaned more than 30 days ago is not
    compliant and never gets a routine plan, and one cleaned more than 45 days
    ago gets an immediate one. *)
Theorem maintenance_plan_hangs_together (t : tank) (now : Calendar.date)
  (r : AiPredictionService.tagged AiPredictionService.maintenance_plan) :
  AiPredictionService.predict_maintenance_fallback t now = Return r ->
  let plan := AiPredictionService.body r in
  let days := get (days_since_cleaned t) 0 in
  (exists dt,
     Calendar.add_days now (AiPredictionService.days_until_recommended plan) = Return dt
     /\ AiPredictionService.recommended_cleaning_date plan = Calendar.strftime dt
     /\ Calendar.days_between dt now = AiPredictionService.days_until_recommended plan
     /\ (Calendar.toordinal (Calendar.Date 1000 1 1) <= Calendar.toordinal now ->
         Calendar.strptime (AiPredictionService.recommended_cleaning_date plan)
         = Return dt))
  /\ AiPredictionService.reason_days plan = days
  /\ match AiPredictionService.urgency plan with
     | AiPredictionService.immediate =>
         AiPredictionService.days_until_recommended plan = 0
     | AiPredictionService.urgent =>
         AiPredictionService.days_until_recommended plan = 3 /\ days <= 45
     | AiPredictionService.soon =>
         AiPredictionService.days_until_recommended plan = 7 /\ 25 < days <= 35
     | AiPredictionService.routine =>
         AiPredictionService.days_until_recommended plan = Z.max 0 (30 - days)
         /\ days <= 25
     end
  /\ (AiPredictionService.cleaning_type plan = AiPredictionService.emergency
      <-> AiPredictionService.urgency plan = AiPredictionService.immediate)
  /\ (AiPredictionService.risk_if_delayed plan = AiPredictionService.high
      <-> AiPredictionService.urgency plan = AiPredictionService.immediate
          \/ AiPredictionService.urgency plan = AiPredictionService.urgent)
  /\ (AiPredictionService.risk_if_delayed plan = AiPredictionService.medium
      <-> AiPredictionService.urgency plan = AiPredictionService.soon
          \/ AiPredictionService.urgency plan = AiPredictionService.routine)
  /\ (AiPredictionService.bis_compliant plan = true <-> days <= 30)
  /\ (30 < days ->
      AiPredictionService.urgency plan <> AiPredictionService.routine
      /\ AiPredictionService.days_until_recommended plan <= 7)
  /\ (45 < days -> AiPredictionService.urgency plan = AiPredictionService.immediate)
  /\ AiPredictionService.success r = true /\ AiPredictionService.fallback r = true.
Proof.
  intros H plan days. subst plan.
  unfold AiPredictionService.predict_maintenance_fallback in H. fold days in H.
  pose proof (urgency_of_cases
                (get (turbidity (get (current_readings t) TankService.no_readings)) 0%float)
                days) as Hcases.
  destruct (AiPredictionService.urgency_of _ days) as [u lead].
  apply bind_Return in H as (recommended & Hdate & [= <-]).
  cbn [AiPredictionService.body AiPredictionService.recommended_cleaning_date
       AiPredictionService.days_until_recommended AiPredictionService.reason_days
       AiPredictionService.urgency AiPredictionService.cleaning_type
       AiPredictionService.risk_if_delayed AiPredictionService.bis_compliant
       AiPredictionService.success AiPredictionService.fallback].
  split.
  { destruct (add_days_read_back _ _ _ Hdate) as (Hlong & _ & Hyear).
    exists recommended. split_and!.
    - exact Hdate.
    - reflexivity.
    - exact (add_days_later _ _ _ Hdate).
    - intros Hnow. apply Hlong, Hyear. destruct u; lia. }
  split; [reflexivity |].
  rewrite Z.leb_le.
  destruct u; split_and!; try reflexivity; try tauto; try lia;
    try (split; [discriminate | intros [? | ?]; discriminate]);
    try (split; [discriminate | discriminate]);
    try (split; intros; [auto | reflexivity]);
    try (intros; split; [discriminate | lia]);
    try (intros; lia).
Qed.

Lemma maintenance_plan_hangs_together_witness :
  exists r,
    AiPredictionService.predict_maintenance_fallback Examples.listed_S Samples.today
    = Return r
    /\ AiPredictionService.urgency (AiPredictionService.body r)
       = AiPredictionService.routine
    /\ AiPredictionService.recommended_cleaning_date (AiPredictionService.body r)
       = "2025-06-19"%string
    /\ AiPredictionService.days_until_recommended (AiPredictionService.body r) = 14.
Proof.
  eexists. split; [vm_compute; reflexivity |]. split; [reflexivity |].
  split; [reflexivity |].
  exact (proj1 (proj1 (proj2 (proj2
    (maintenance_plan_hangs_together Examples.listed_S Samples.today _ eq_refl))))).
Defined.

Section ModelReplies.

Import AiPredictionService.

Context {json : Type}.
Variable loads : string -> result json.

(** What a predictor answers, by what the model service did. *)
Lemma answer_or_rules {A : Type} (groq_client : option (result string))
  (fallback : result (tagged A)) :
  groq_client = None
  \/ (exists e, groq_client = Some (Raise e))
  \/ (exists raw e, groq_client = Some (Return raw)
                    /\ _extract_json_from_text loads raw = Raise e) ->
  answer_or loads groq_client fallback = ByRule <$> fallback.
Proof.
  unfold answer_or.
  intros [-> | [[e ->] | (raw & e & -> & Hraw)]]; [reflexivity | reflexivity |].
  cbn. now rewrite Hraw.
Qed.

Lemma answer_or_model {A : Type} (raw : string) (parsed : json)
  (fallback : result (tagged A)) :
  _extract_json_from_text loads raw = Return parsed ->
  answer_or loads (Some (Return raw)) fallback = Return (FromModel parsed).
Proof. unfold answer_or. cbn. now intros ->. Qed.

Lemma answer_or_total {A : Type} (groq_client : option (result string))
  (reply : tagged A) :
  exists a, answer_or loads groq_client (Return reply) = Return a.
Proof.
  unfold answer_or. destruct groq_client as [[raw | e] |]; cbn; eauto.
  destruct (_extract_json_from_text loads raw); eauto.
Qed.

End ModelReplies.

(** X27.  The predictions survive the model service.  Whatever the client and
    the parser do, the water-quality and the leakage predictor return.  They
    answer by their rules when there is no client, when the call raises, when
    the text of the reply lacks a brace and when the parser raises on the
    object; they answer with what the parser makes of the object, cut out of the
    text around it, when it returns.  The maintenance predictor does the same,
    but for the OverflowError that its rules can raise. *)
Theorem predictions_survive_the_model {json : Type} (loads : string -> result json)
  (groq_client : option (result string)) (float_sum : list float -> float)
  (t : tank) (history : list history_entry) (now : Calendar.date) :
  let quality := AiPredictionService.predict_water_quality loads groq_client t history in
  let leak :=
    AiPredictionService.detect_leakage_overflow loads groq_client float_sum t history in
  let plan :=
    AiPredictionService.predict_maintenance_schedule loads groq_client t history now in
  let by_rule :=
    quality
    = Return (AiPredictionService.ByRule
                (AiPredictionService.generate_fallback_prediction t history))
    /\ leak
       = Return (AiPredictionService.ByRule
                   (AiPredictionService.detect_leakage_fallback float_sum t history))
    /\ plan
       = AiPredictionService.ByRule
         <$> AiPredictionService.predict_maintenance_fallback t now in
  (exists a, quality = Return a)
  /\ (exists a, leak = Return a)
  /\ (forall e, plan = Raise e -> e = OverflowError)
  /\ (groq_client = None -> by_rule)
  /\ (forall e, groq_client = Some (Raise e) -> by_rule)
  /\ (forall raw,
        groq_client = Some (Return raw) ->
        Text.find "{" raw = -1 \/ Text.find "}" raw = -1 -> by_rule)
  /\ (forall pre body post,
        groq_client = Some (Return (pre ++ "{" ++ body ++ "}" ++ post)%string) ->
        Text.find "{" pre = -1 -> Text.find "}" post = -1 ->
        match loads ("{" ++ body ++ "}")%string with
        | Return parsed =>
            quality = Return (AiPredictionService.FromModel parsed)
            /\ leak = Return (AiPredictionService.FromModel parsed)
            /\ plan = Return (AiPredictionService.FromModel parsed)
        | Raise _ => by_rule
        end).
Proof.
  intros quality leak plan by_rule.
  subst quality leak plan by_rule.
  unfold AiPredictionService.predict_water_quality,
    AiPredictionService.detect_leakage_overflow,
    AiPredictionService.predict_maintenance_schedule.
  split_and!.
  - apply answer_or_total.
  - apply answer_or_total.
  - intros e. unfold AiPredictionService.answer_or.
    destruct groq_client as [[raw | e'] |]; cbn;
      try destruct (AiPredictionService._extract_json_from_text loads raw); try discriminate;
      destruct (AiPredictionService.predict_maintenance_fallback t now) eqn:Hplan;
      try discriminate; intros [= <-];
      exact (predict_maintenance_raises _ _ _ Hplan).
  - intros Hnone. rewrite !answer_or_rules by (left; exact Hnone).
    split_and!; reflexivity.
  - intros e He. rewrite !answer_or_rules by (right; left; eauto).
    split_and!; reflexivity.
  - intros raw Hraw Hbrace.
    pose proof (prediction_without_brace loads raw Hbrace) as Hrefused.
    rewrite !answer_or_rules by (right; right; eauto).
    split_and!; reflexivity.
  - intros pre body post Hraw Hpre Hpost.
    pose proof (prediction_object loads pre body post Hpre Hpost) as Hobject.
    destruct (loads ("{" ++ body ++ "}")%string) as [parsed | e] eqn:Hloads.
    + rewrite Hraw. rewrite !(answer_or_model loads _ parsed) by exact Hobject.
      split_and!; reflexivity.
    + rewrite !answer_or_rules by (right; right; eauto).
      split_and!; reflexivity.
Qed.

Lemma predictions_survive_the_model_witness :
  AiPredictionService.predict_water_quality (fun s => Return s)
    (Some (Return "Sure! {'risk_level': 'low'} Anything else?"%string))
    Samples.tank_B []
  = Return (AiPredictionService.FromModel "{'risk_level': 'low'}"%string).
Proof.
  exact (proj1 (proj2 (proj2 (proj2 (proj2 (proj2 (proj2
    (predictions_survive_the_model (fun s => Return s)
       (Some (Return "Sure! {'risk_level': 'low'} Anything else?"%string))
       sum_plain Samples.tank_B [] Samples.today)))))) "Sure! " "'risk_level': 'low'"
    " Anything else?" eq_refl eq_refl eq_refl)).
Defined.

(** X28.  The three prediction endpoints of a tank.  They raise what
    get_single_tank raises, answer 404 "Tank not found" for an id that no tank
    has, and otherwise give the predictor the tank with its status and day
    counts, and the history stored with the tank (none when it has no history).
    Once the tank is served, /api/ai/predict and /api/ai/leakage always answer;
    the plan that /api/ai/maintenance gives without a model counts the days from
    the last cleaning of the tank to today. *)
Theorem prediction_endpoints_answer {json : Type} (loads : string -> result json)
  (groq_client : option (result string)) (float_sum : list float -> float)
  (s : JsonLoader.store) (tank_id : string) (today : Calendar.date) :
  let served := snd (TankService.get_single_tank s tank_id today) in
  let quality := snd (Main.api_predict_water_quality loads groq_client s tank_id today) in
  let leak := snd (Main.api_detect_leakage loads groq_client float_sum s tank_id today) in
  let plan := snd (Main.api_predict_maintenance loads groq_client s tank_id today) in
  (forall e, served = Raise e -> quality = Raise e /\ leak = Raise e /\ plan = Raise e)
  /\ (served = Return None ->
      snd (JsonLoader.get_tank_by_id s tank_id) = None
      /\ quality = Return (Main.HTTPException 404 "Tank not found")
      /\ leak = Return (Main.HTTPException 404 "Tank not found")
      /\ plan = Return (Main.HTTPException 404 "Tank not found"))
  /\ (forall single,
        served = Return (Some single) ->
        exists t last cleaned,
          snd (JsonLoader.get_tank_by_id s tank_id) = Some t
          /\ last_cleaned t = Some last
          /\ Calendar.strptime last = Return cleaned
          /\ days_since_cleaned single = Some (Calendar.days_between today cleaned)
          /\ quality
             = Main.Ok <$> AiPredictionService.predict_water_quality loads groq_client
                             single (get (history t) [])
          /\ leak
             = Main.Ok <$> AiPredictionService.detect_leakage_overflow loads groq_client
                             float_sum single (get (history t) [])
          /\ plan
             = Main.Ok <$> AiPredictionService.predict_maintenance_schedule loads
                             groq_client single (get (history t) []) today
          /\ (exists a, quality = Return (Main.Ok a))
          /\ (exists a, leak = Return (Main.Ok a))
          /\ (forall p,
                groq_client = None ->
                plan = Return (Main.Ok (AiPredictionService.ByRule p)) ->
                AiPredictionService.reason_days (AiPredictionService.body p)
                = Calendar.days_between today cleaned)).
Proof.
  intros served quality leak plan. subst served quality leak plan.
  unfold Main.api_predict_water_quality, Main.api_detect_leakage,
    Main.api_predict_maintenance, Main.with_tank_and_history,
    TankService.get_tank_history, TankService.get_single_tank.
  pose proof (get_tank_by_id_again s tank_id) as Hagain.
  destruct (JsonLoader.get_tank_by_id s tank_id) as [s1 [t |]]; cbn [fst snd] in Hagain |- *.
  - destruct (JsonLoader.get_tank_by_id s1 tank_id) as [s2 found].
    cbn [snd] in Hagain. subst found.
    destruct (last ← subscript "last_cleaned" (last_cleaned t); _)
      as [[single |] | e] eqn:Hserved; cbn [snd fmap option_fmap option_map].
    + split_and!; [discriminate | discriminate |].
      intros single' [= <-].
      apply bind_Return in Hserved as (last & Hlast & Hserved).
      apply bind_Return in Hserved as (since & Hsince & Hserved).
      apply bind_Return in Hserved as (next & _ & Hserved).
      apply bind_Return in Hserved as (until & _ & Hserved).
      apply bind_Return in Hserved as (st & _ & [= <-]).
      unfold TankService.calculate_days_since_cleaned in Hsince.
      apply bind_Return in Hsince as (cleaned & Hcleaned & [= <-]).
      destruct (last_cleaned t) as [last' |] eqn:Hlast'; [| discriminate].
      injection Hlast as ->.
      exists t, last, cleaned.
      split_and!; try reflexivity; try assumption.
      * destruct (answer_or_total loads groq_client
                    (AiPredictionService.generate_fallback_prediction
                       (TankService.with_derived t st
                          (Calendar.days_between today cleaned) until)
                       (get (history t) []))) as [a Ha].
        exists a. unfold AiPredictionService.predict_water_quality. cbn [get].
        now rewrite Ha.
      * destruct (answer_or_total loads groq_client
                    (AiPredictionService.detect_leakage_fallback float_sum
                       (TankService.with_derived t st
                          (Calendar.days_between today cleaned) until)
                       (get (history t) []))) as [a Ha].
        exists a. unfold AiPredictionService.detect_leakage_overflow. cbn [get].
        now rewrite Ha.
      * intros p -> Hp.
        unfold AiPredictionService.predict_maintenance_schedule,
          AiPredictionService.answer_or in Hp.
        cbn [get] in Hp.
        destruct (AiPredictionService.predict_maintenance_fallback _ today)
          as [r |] eqn:Hr; [| discriminate].
        injection Hp as <-.
        unfold AiPredictionService.predict_maintenance_fallback in Hr.
        destruct (AiPredictionService.urgency_of _ _) as [u lead].
        apply bind_Return in Hr as (recommended & _ & [= <-]). reflexivity.
    + apply bind_Return in Hserved as (last & _ & Hserved).
      apply bind_Return in Hserved as (since & _ & Hserved).
      apply bind_Return in Hserved as (next & _ & Hserved).
      apply bind_Return in Hserved as (until & _ & Hserved).
      apply bind_Return in Hserved as (st & _ & [=]).
    + split_and!; [| discriminate | discriminate].
      intros e' [= <-]. split_and!; reflexivity.
  - split_and!; [discriminate | | discriminate].
    intros _. split_and!; reflexivity.
Qed.

Lemma prediction_endpoints_answer_witness :
  exists a,
    snd (Main.api_predict_water_quality (fun s => Return s) None Samples.cold "T2"
           Samples.today)
    = Return (Main.Ok a).
Proof.
  destruct (proj2 (proj2 (prediction_endpoints_answer (fun s => Return s) None sum_plain
                            Samples.cold "T2" Samples.today)) _ eq_refl)
    as (t & last & cleaned & _ & _ & _ & _ & _ & _ & _ & Hquality & _).
  exact Hquality.
Defined.

(** X29.  The water-quality prediction of the rules.  Its risk is high or low,
    never medium: it is low exactly when the readings of the tank alone (pH 7.0
    and no turbidity when absent) would give the tank the status normal, and it
    names a risk factor exactly when it is high.  With fewer than two samples of
    history it predicts no change: the three trends are stable and the values
    for 48 hours are those for 24 hours. *)
Theorem fallback_prediction_follows_the_readings (t : tank)
  (history : list history_entry) :
  let p := AiPredictionService.body
             (AiPredictionService.generate_fallback_prediction t history) in
  let readings := get (current_readings t) TankService.no_readings in
  (AiPredictionService.risk_level p = AiPredictionService.low
   <-> TankService.classify (get (ph readings) 7.0%float) (get (turbidity readings) 0%float) 0
       = normal)
  /\ (AiPredictionService.risk_level p = AiPredictionService.low
      \/ AiPredictionService.risk_level p = AiPredictionService.high)
  /\ (AiPredictionService.risk_factors p = []
      <-> AiPredictionService.risk_level p = AiPredictionService.low)
  /\ ((length history < 2)%nat ->
      AiPredictionService.ph_trend p = AnalyticsService.stable
      /\ AiPredictionService.turbidity_trend p = AnalyticsService.stable
      /\ AiPredictionService.temperature_trend p = AnalyticsService.stable
      /\ AiPredictionService.p_ph (AiPredictionService.next_48h p)
         = AiPredictionService.p_ph (AiPredictionService.next_24h p)
      /\ AiPredictionService.p_turbidity (AiPredictionService.next_48h p)
         = AiPredictionService.p_turbidity (AiPredictionService.next_24h p)
      /\ AiPredictionService.p_temperature (AiPredictionService.next_48h p)
         = AiPredictionService.p_temperature (AiPredictionService.next_24h p)).
Proof.
  intros p readings. subst p.
  unfold AiPredictionService.generate_fallback_prediction. fold readings.
  cbn [AiPredictionService.body AiPredictionService.risk_level
       AiPredictionService.risk_factors AiPredictionService.ph_trend
       AiPredictionService.turbidity_trend AiPredictionService.temperature_trend
       AiPredictionService.next_24h AiPredictionService.next_48h
       AiPredictionService.p_ph AiPredictionService.p_turbidity
       AiPredictionService.p_temperature].
  assert (PrimFloat.ltb 5 (get (turbidity readings) 1.0%float)
          = PrimFloat.ltb 5 (get (turbidity readings) 0%float)) as Hturbidity
    by (destruct (turbidity readings); reflexivity).
  rewrite Hturbidity. unfold TankService.classify.
  change (30 <? 0) with false. rewrite orb_false_r.
  split_and!.
  - destruct (_ || _ || _); [| tauto].
    split; [discriminate |]. destruct (_ || _ || _ || _); discriminate.
  - destruct (_ || _ || _); [now right | now left].
  - destruct (_ || _ || _); split; (discriminate || reflexivity).
  - intros Hshort. unfold AiPredictionService.rate.
    assert ((2 <=? length history)%nat = false) as -> by (apply Nat.leb_gt; lia).
    change (0 * 2)%float with 0%float.
    split_and!; reflexivity.
Qed.

Lemma fallback_prediction_follows_the_readings_witness :
  AiPredictionService.risk_level
    (AiPredictionService.body
       (AiPredictionService.generate_fallback_prediction Samples.tank_A []))
  = AiPredictionService.high
  /\ AiPredictionService.ph_trend
       (AiPredictionService.body
          (AiPredictionService.generate_fallback_prediction Samples.tank_A []))
     = AnalyticsService.stable.
Proof.
  split; [reflexivity |].
  apply (fallback_prediction_follows_the_readings Samples.tank_A []). simpl. lia.
Defined.

(** ** The water-quality analysis *)

(** X30.  analyze_water_quality has at most three issues, one for each of pH,
    turbidity and temperature that is out of range, and at least one
    recommendation for each issue, at most one more than there are issues, so
    that it recommends something exactly when it found something.  The risk is
    normal exactly when there is no issue; a tank whose readings alone make the
    status classifier answer warning or critical is never rated normal, and a
    tank rated normal has a pH and a turbidity for which the classifier answers
    normal. *)
Theorem analysis_covers_the_classifier (t : tank) :
  let a := AnalyticsService.analyze_water_quality t in
  let readings := get (current_readings t) TankService.no_readings in
  let by_readings :=
    TankService.classify (get (ph readings) 7.0%float) (get (turbidity readings) 0%float) 0 in
  (length (AnalyticsService.issues a) <= 3)%nat
  /\ (length (AnalyticsService.issues a) <= length (AnalyticsService.recommendations a)
      <= length (AnalyticsService.issues a) + 1)%nat
  /\ (AnalyticsService.recommendations a = [] <-> AnalyticsService.issues a = [])
  /\ (AnalyticsService.risk_level a = normal <-> AnalyticsService.issues a = [])
  /\ (AnalyticsService.risk_level a = critical
      <-> (2 <= length (AnalyticsService.issues a))%nat)
  /\ (by_readings <> normal -> AnalyticsService.risk_level a <> normal)
  /\ (AnalyticsService.risk_level a = normal -> by_readings = normal)
  /\ AnalyticsService.qa_tank_id a = id t /\ AnalyticsService.qa_tank_name a = name t.
Proof.
  intros a readings by_readings. subst a by_readings.
  unfold AnalyticsService.analyze_water_quality, TankService.classify. fold readings.
  change (30 <? 0) with false. rewrite orb_false_r.
  destruct (PrimFloat.ltb (get (ph readings) 7.0%float) 6.5),
    (PrimFloat.ltb 8.5 (get (ph readings) 7.0%float)),
    (PrimFloat.ltb 5 (get (turbidity readings) 0%float)),
    (PrimFloat.ltb 3 (get (turbidity readings) 0%float)),
    (PrimFloat.ltb 25 (get (temperature readings) 20%float));
    cbn [orb app AnalyticsService.issues AnalyticsService.recommendations
         AnalyticsService.risk_level AnalyticsService.qa_tank_id
         AnalyticsService.qa_tank_name length Nat.leb Nat.eqb];
    split_and!; try reflexivity; try lia; try tauto; try discriminate;
    try (split; [discriminate | discriminate]);
    try (split; [discriminate | lia]);
    try (split; [lia | discriminate]);
    try (split; [reflexivity | lia]);
    try (split; [lia | reflexivity]);
    try (intros _; discriminate);
    try (destruct (_ || _ || _); discriminate);
    try (destruct (_ || _ || _); intros; congruence).
Qed.

Lemma analysis_covers_the_classifier_witness :
  AnalyticsService.risk_level (AnalyticsService.analyze_water_quality Samples.tank_A)
  <> normal.
Proof.
  apply (analysis_covers_the_classifier Samples.tank_A). discriminate.
Defined.
